(** * bongodb: conditional document writes over a connection registry

    A shallow embedding of the HTTP gateway of [index.js] (collection-level
    PUT) and of its successor with identifier paths (PUT, GET and DELETE on
    [/databases/:db/collections/:coll/:mongoId]).

    Conventions.
    - A JavaScript string is the list of bytes of its UTF-8 encoding, held in
      a [string]; this is what [hash.update(text)] feeds to SHA-256.
    - A JavaScript number in a document is an integer [Z]; the model is
      exact on the safe integers (magnitude below 2^53), fractions are
      outside it. What [parseInt] returns is a [number]: NaN, the double
      nearest to the integer read, or an infinity.
    - A JavaScript object is the list of its own enumerable properties in
      [[OwnPropertyKeys]] order: array-index keys ascending, then the other
      keys in insertion order.
    - Handlers are state transformers over the process state (connection
      registry, backend collections, response under construction); a
      [throw] is the [Throw] outcome, caught where the source has a [catch]. *)

From Stdlib Require Import ZArith String Ascii List Bool Lia.
From stdpp Require Import base gmap strings list fin_maps pretty.

Set Warnings "-register-all".

Local Open Scope string_scope.
Local Open Scope list_scope.
Local Open Scope Z_scope.

(** ** SHA-256 and base64: [crypto.createHash('sha256').update(s).digest('base64')] *)

Module SHA256.

Definition word_mod : Z := 2 ^ 32.

Definition wrap (x : Z) : Z := x mod word_mod.

Definition add32 (x y : Z) : Z := wrap (x + y).

Definition rotr (n x : Z) : Z :=
  Z.lor (Z.shiftr x n) (wrap (Z.shiftl x (32 - n))).

Definition not32 (x : Z) : Z := word_mod - 1 - x.

Definition Ch (x y z : Z) : Z := Z.lxor (Z.land x y) (Z.land (not32 x) z).

Definition Maj (x y z : Z) : Z :=
  Z.lxor (Z.lxor (Z.land x y) (Z.land x z)) (Z.land y z).

Definition Sigma0 (x : Z) : Z := Z.lxor (Z.lxor (rotr 2 x) (rotr 13 x)) (rotr 22 x).
Definition Sigma1 (x : Z) : Z := Z.lxor (Z.lxor (rotr 6 x) (rotr 11 x)) (rotr 25 x).
Definition sigma0 (x : Z) : Z := Z.lxor (Z.lxor (rotr 7 x) (rotr 18 x)) (Z.shiftr x 3).
Definition sigma1 (x : Z) : Z := Z.lxor (Z.lxor (rotr 17 x) (rotr 19 x)) (Z.shiftr x 10).

(** The constants are derived as the standard defines them: the first 32
    bits of the fractional parts of the square roots ([H0], first eight
    primes) and of the cube roots ([K], first sixty-four primes). *)
Fixpoint no_divisor (fuel : nat) (d n : Z) : bool :=
  match fuel with
  | O => true
  | S fuel' =>
      if n <? d * d then true
      else if n mod d =? 0 then false
      else no_divisor fuel' (d + 1) n
  end.

Fixpoint primes_from (fuel : nat) (count : nat) (n : Z) : list Z :=
  match fuel, count with
  | O, _ | _, O => []
  | S fuel', S count' =>
      if no_divisor 20 2 n then n :: primes_from fuel' count' (n + 1)
      else primes_from fuel' count (n + 1)
  end.

(** The largest [r] with [r ^ 3 <= n], one bit at a time from [2 ^ bits]. *)
Fixpoint cube_root (bits : nat) (r n : Z) : Z :=
  match bits with
  | O => r
  | S bits' =>
      let r' := r + 2 ^ Z.of_nat bits' in
      cube_root bits' (if r' * r' * r' <=? n then r' else r) n
  end.

Definition K : list Z :=
  Eval vm_compute in
    map (fun p => wrap (cube_root 40 0 (p * 2 ^ 96))) (primes_from 400 64 2).

Definition H0 : list Z :=
  Eval vm_compute in
    map (fun p => wrap (Z.sqrt (p * 2 ^ 64))) (primes_from 400 8 2).

(** Big-endian bytes of a value on [n] bytes. *)
Fixpoint be_bytes (n : nat) (x : Z) : list Z :=
  match n with
  | O => []
  | S n' => (Z.shiftr x (8 * Z.of_nat n')) mod 256 :: be_bytes n' x
  end.

Definition be_word (bs : list Z) : Z :=
  fold_left (fun acc b => acc * 256 + b) bs 0.

(** The message followed by 0x80, zeros up to 56 mod 64, and the bit
    length on eight bytes. *)
Definition pad (msg : list Z) : list Z :=
  let len := Z.of_nat (length msg) in
  let zeros := Z.to_nat ((55 - len) mod 64) in
  msg ++ 0x80 :: repeat 0 zeros ++ be_bytes 8 (8 * len).

Fixpoint chunks {A} (fuel size : nat) (l : list A) : list (list A) :=
  match fuel with
  | O => []
  | S fuel' =>
      match l with
      | [] => []
      | _ => firstn size l :: chunks fuel' size (skipn size l)
      end
  end.

Definition words_of_block (block : list Z) : list Z :=
  map be_word (chunks 16 4 block).

(** The message schedule: [w] holds the sixteen most recent words, oldest
    first; each step appends W[t] and drops W[t-16]. *)
Definition next_word (w : list Z) : Z :=
  add32 (add32 (sigma1 (nth 14 w 0)) (nth 9 w 0))
        (add32 (sigma0 (nth 1 w 0)) (nth 0 w 0)).

Fixpoint schedule (n : nat) (w : list Z) : list Z :=
  match n with
  | O => []
  | S n' => let x := next_word w in x :: schedule n' (skipn 1 w ++ [x])
  end.

Definition round (st : list Z) (kw : Z * Z) : list Z :=
  match st with
  | [a; b; c; d; e; f; g; h] =>
      let t1 := add32 (add32 (add32 h (Sigma1 e)) (add32 (Ch e f g) (fst kw))) (snd kw) in
      let t2 := add32 (Sigma0 a) (Maj a b c) in
      [add32 t1 t2; a; b; c; add32 d t1; e; f; g]
  | _ => st
  end.

Definition compress (h : list Z) (block : list Z) : list Z :=
  let w16 := words_of_block block in
  let w := w16 ++ schedule 48 w16 in
  let st := fold_left round (combine K w) h in
  map (fun p => add32 (fst p) (snd p)) (combine h st).

Definition digest_bytes (msg : list Z) : list Z :=
  let padded := pad msg in
  let blocks := chunks (length padded) 64 padded in
  flat_map (be_bytes 4) (fold_left compress blocks H0).

Definition bytes_of_string (s : string) : list Z :=
  map (fun c => Z.of_N (N_of_ascii c)) (list_ascii_of_string s).

(** *** base64 with the standard alphabet and [=] padding *)

Definition alphabet : string :=
  "ABCDEFGHIJKLMNOPQRSTUVWXYZabcdefghijklmnopqrstuvwxyz0123456789+/".

Definition b64_char (i : Z) : ascii :=
  match String.get (Z.to_nat i) alphabet with
  | Some c => c
  | None => "="%char
  end.

Definition b64_group (g : list Z) : string :=
  match g with
  | [a; b; c] =>
      let n := a * 65536 + b * 256 + c in
      String (b64_char (Z.shiftr n 18))
        (String (b64_char (Z.shiftr n 12 mod 64))
           (String (b64_char (Z.shiftr n 6 mod 64))
              (String (b64_char (n mod 64)) EmptyString)))
  | [a; b] =>
      let n := a * 65536 + b * 256 in
      String (b64_char (Z.shiftr n 18))
        (String (b64_char (Z.shiftr n 12 mod 64))
           (String (b64_char (Z.shiftr n 6 mod 64)) "="))
  | [a] =>
      let n := a * 65536 in
      String (b64_char (Z.shiftr n 18))
        (String (b64_char (Z.shiftr n 12 mod 64)) "==")
  | _ => EmptyString
  end.

Definition base64 (bs : list Z) : string :=
  String.concat EmptyString (map b64_group (chunks (length bs) 3 bs)).

Definition digest_base64 (s : string) : string :=
  base64 (digest_bytes (bytes_of_string s)).

End SHA256.

(** ** JavaScript values *)

(** [VOid h] is a driver [ObjectId], [h] its [toHexString()] (24 lower-case
    hexadecimal digits). *)
Inductive value : Type :=
| VUndefined
| VNull
| VBool (b : bool)
| VNum (n : Z)
| VStr (s : string)
| VArr (l : list value)
| VObj (o : list (string * value))
| VOid (h : string).

Abbreviation object := (list (string * value)).

Definition dquote : ascii := "034"%char.

Definition is_empty (s : string) : bool :=
  match s with EmptyString => true | _ => false end.

(** ToBoolean. *)
Definition truthy (v : value) : bool :=
  match v with
  | VUndefined | VNull => false
  | VBool b => b
  | VNum n => negb (n =? 0)
  | VStr s => negb (is_empty s)
  | VArr _ | VObj _ | VOid _ => true
  end.

(** [a || b]. *)
Definition js_or (a b : value) : value := if truthy a then a else b.

Fixpoint value_eqb (a b : value) {struct a} : bool :=
  match a, b with
  | VUndefined, VUndefined | VNull, VNull => true
  | VBool x, VBool y => Bool.eqb x y
  | VNum x, VNum y => x =? y
  | VStr x, VStr y | VOid x, VOid y => String.eqb x y
  | VArr l1, VArr l2 =>
      (fix all2 (l1 l2 : list value) {struct l1} : bool :=
         match l1, l2 with
         | [], [] => true
         | x :: l1', y :: l2' => value_eqb x y && all2 l1' l2'
         | _, _ => false
         end) l1 l2
  | VObj o1, VObj o2 =>
      (fix all2 (o1 o2 : object) {struct o1} : bool :=
         match o1, o2 with
         | [], [] => true
         | (k1, x) :: o1', (k2, y) :: o2' =>
             String.eqb k1 k2 && value_eqb x y && all2 o1' o2'
         | _, _ => false
         end) o1 o2
  | _, _ => false
  end.

(** *** Property keys and their order *)

Definition digit_of (c : ascii) : option Z :=
  let n := Z.of_N (N_of_ascii c) in
  if (48 <=? n) && (n <=? 57) then Some (n - 48) else None.

(** Value of a string made of decimal digits only. *)
Fixpoint digits_value (acc : Z) (s : string) : option Z :=
  match s with
  | EmptyString => Some acc
  | String c s' =>
      match digit_of c with
      | Some d => digits_value (10 * acc + d) s'
      | None => None
      end
  end.

(** An array index is the canonical decimal form of an integer below
    2^32 - 1; such keys are listed first, in ascending order. *)
Definition array_index (k : string) : option Z :=
  match k with
  | EmptyString => None
  | String c rest =>
      if Ascii.eqb c "0" && negb (is_empty rest) then None
      else match digits_value 0 k with
           | Some n => if n <? 2 ^ 32 - 1 then Some n else None
           | None => None
           end
  end.

Fixpoint has_key (k : string) (o : object) : bool :=
  match o with
  | [] => false
  | (k', _) :: o' => String.eqb k k' || has_key k o'
  end.

(** [o[k]] on own properties. *)
Fixpoint get_own (k : string) (o : object) : option value :=
  match o with
  | [] => None
  | (k', v) :: o' => if String.eqb k k' then Some v else get_own k o'
  end.

Fixpoint replace_own (k : string) (v : value) (o : object) : object :=
  match o with
  | [] => []
  | (k', v') :: o' =>
      if String.eqb k k' then (k', v) :: o' else (k', v') :: replace_own k v o'
  end.

Fixpoint insert_index (i : Z) (k : string) (v : value) (o : object) : object :=
  match o with
  | [] => [(k, v)]
  | (k', v') :: o' =>
      match array_index k' with
      | Some j => if j <? i then (k', v') :: insert_index i k v o' else (k, v) :: o
      | None => (k, v) :: o
      end
  end.

(** CreateDataProperty: an existing key keeps its place; a new array index
    goes to its rank among the indices; any other new key goes last. *)
Definition obj_set (o : object) (k : string) (v : value) : object :=
  if has_key k o then replace_own k v o
  else match array_index k with
       | Some i => insert_index i k v o
       | None => o ++ [(k, v)]
       end.

Definition set_all (o : object) (entries : list (string * value)) : object :=
  fold_left (fun acc kv => obj_set acc (fst kv) (snd kv)) entries o.

(** [Object.fromEntries(entries)]. *)
Definition Object_fromEntries (entries : list (string * value)) : object :=
  set_all [] entries.

Fixpoint index_entries (i : Z) (l : list value) : list (string * value) :=
  match l with
  | [] => []
  | v :: l' => (pretty i, v) :: index_entries (i + 1) l'
  end.

Definition char_entries (s : string) : list value :=
  map (fun c => VStr (String c EmptyString)) (list_ascii_of_string s).

(** [Object.entries(v)]; [None] is the TypeError on [undefined] and [null].
    A string lists its characters (exact for ASCII text); the driver's
    ObjectId is never enumerated by the handlers. *)
Definition Object_entries (v : value) : option (list (string * value)) :=
  match v with
  | VUndefined | VNull => None
  | VObj o => Some o
  | VArr l => Some (index_entries 0 l)
  | VStr s => Some (index_entries 0 (char_entries s))
  | VBool _ | VNum _ | VOid _ => Some []
  end.

(** [v[k]] for a key that no prototype defines; [None] is the TypeError on
    [undefined] and [null]. *)
Definition get_property (v : value) (k : string) : option value :=
  match v with
  | VUndefined | VNull => None
  | VObj o => Some (default VUndefined (get_own k o))
  | _ => Some VUndefined
  end.

Definition startsWith_underscore (key : string) : bool :=
  match key with
  | String c _ => Ascii.eqb c "_"
  | EmptyString => false
  end.

Definition non_computed (kv : string * value) : bool :=
  negb (startsWith_underscore (fst kv)).

(** [removeComputedProperties(obj)]. *)
Definition removeComputedProperties (obj : value) : option object :=
  match Object_entries obj with
  | Some entries => Some (Object_fromEntries (List.filter non_computed entries))
  | None => None
  end.

(** *** JSON.stringify *)

Definition hex_digit (n : Z) : ascii :=
  match String.get (Z.to_nat n) "0123456789abcdef" with
  | Some c => c
  | None => "0"%char
  end.

Definition quote_char (c : ascii) : string :=
  let n := Z.of_N (N_of_ascii c) in
  if n =? 8 then "\b"
  else if n =? 9 then "\t"
  else if n =? 10 then "\n"
  else if n =? 12 then "\f"
  else if n =? 13 then "\r"
  else if n =? 34 then String "\"%char (String dquote EmptyString)
  else if n =? 92 then "\\"
  else if n <? 32 then
    "\u00" +:+ String (hex_digit (n / 16)) (String (hex_digit (n mod 16)) EmptyString)
  else String c EmptyString.

(** QuoteJSONString. *)
Definition quote (s : string) : string :=
  String dquote
    (String.concat EmptyString (map quote_char (list_ascii_of_string s))
     +:+ String dquote EmptyString).

(** SerializeJSONProperty; an [undefined] array element prints as [null],
    an [undefined] member is left out, an ObjectId prints through its
    [toJSON]. *)
Fixpoint serialize (v : value) : string :=
  match v with
  | VUndefined | VNull => "null"
  | VBool true => "true"
  | VBool false => "false"
  | VNum n => pretty n
  | VStr s => quote s
  | VOid h => quote h
  | VArr l => "[" +:+ String.concat "," (map serialize l) +:+ "]"
  | VObj o =>
      "{" +:+
      String.concat ","
        ((fix members (o : object) : list string :=
            match o with
            | [] => []
            | (k, VUndefined) :: o' => members o'
            | (k, x) :: o' => (quote k +:+ ":" +:+ serialize x) :: members o'
            end) o)
      +:+ "}"
  end.

(** [JSON.stringify(v)]; [None] is the result [undefined]. *)
Definition JSON_stringify (v : value) : option string :=
  match v with
  | VUndefined => None
  | _ => Some (serialize v)
  end.

(** *** parseInt(text, 10) *)

Definition code (c : ascii) : Z := Z.of_N (N_of_ascii c).

(** StrWhiteSpaceChar, on the UTF-8 text: TAB, LF, VT, FF, CR, SP, U+00A0,
    U+1680, U+2000 to U+200A, U+2028, U+2029, U+202F, U+205F, U+3000 and
    U+FEFF. *)
Definition ws3 (a b c : Z) : bool :=
  ((a =? 0xE1) && (b =? 0x9A) && (c =? 0x80))
  || ((a =? 0xE2) && (b =? 0x80)
      && (((0x80 <=? c) && (c <=? 0x8A)) || (c =? 0xA8) || (c =? 0xA9) || (c =? 0xAF)))
  || ((a =? 0xE2) && (b =? 0x81) && (c =? 0x9F))
  || ((a =? 0xE3) && (b =? 0x80) && (c =? 0x80))
  || ((a =? 0xEF) && (b =? 0xBB) && (c =? 0xBF)).

Fixpoint skip_ws (s : string) : string :=
  match s with
  | EmptyString => s
  | String c1 s1 =>
      let a := code c1 in
      if ((9 <=? a) && (a <=? 13)) || (a =? 32) then skip_ws s1
      else match s1 with
           | EmptyString => s
           | String c2 s2 =>
               if (a =? 0xC2) && (code c2 =? 0xA0) then skip_ws s2
               else match s2 with
                    | EmptyString => s
                    | String c3 s3 =>
                        if ws3 a (code c2) (code c3) then skip_ws s3 else s
                    end
           end
  end.

(** Value of the longest prefix of decimal digits; [None] when it is empty. *)
Fixpoint digit_prefix (acc : option Z) (s : string) : option Z :=
  match s with
  | EmptyString => acc
  | String c s' =>
      match digit_of c with
      | Some d => digit_prefix (Some (10 * default 0 acc + d)) s'
      | None => acc
      end
  end.

(** Whether a text goes on with a decimal digit. *)
Definition starts_with_digit (s : string) : bool :=
  match s with
  | String c _ => match digit_of c with Some _ => true | None => false end
  | EmptyString => false
  end.

(** The Numbers that [parseInt] returns: NaN, an integer that a double
    holds exactly, or an infinity. The sign of a zero is not kept: the
    handlers only use the result in [... || 0], where [-0] and [0] both
    give [0]. *)
Inductive number : Type :=
| NaN
| Finite (n : Z)
| Infinity (negative : bool).

Coercion Finite : Z >-> number.

(** The double nearest to a non-negative integer: the integer itself up to
    53 significant bits, beyond that the nearest multiple of the unit in the
    last place, a tie going to the even significand; the infinity from
    [2 ^ 1024] on. *)
Definition nearest_double (n : Z) : number :=
  let bits := Z.log2 n + 1 in
  if bits <=? 53 then Finite n
  else
    let ulp := 2 ^ (bits - 53) in
    let q := n / ulp in
    let r := n mod ulp in
    let q' := if (ulp <? 2 * r) || ((2 * r =? ulp) && Z.odd q) then q + 1 else q in
    if 2 ^ 1024 <=? q' * ulp then Infinity false else Finite (q' * ulp).

(** The Number value of a mathematical integer. *)
Definition number_of_integer (n : Z) : number :=
  if n <? 0 then
    match nearest_double (- n) with
    | Finite m => Finite (- m)
    | Infinity _ => Infinity true
    | NaN => NaN
    end
  else nearest_double n.

(** [parseInt(text, 10)]: the Number value of the longest integer that the
    text starts with, behind white space and a sign (the engine rounds the
    exact value of the digits). *)
Definition parseInt (text : string) : number :=
  match skip_ws text with
  | String c rest =>
      let mathInt :=
        if Ascii.eqb c "-" then option_map Z.opp (digit_prefix None rest)
        else if Ascii.eqb c "+" then digit_prefix None rest
        else digit_prefix None (String c rest) in
      match mathInt with
      | Some n => number_of_integer n
      | None => NaN
      end
  | EmptyString => NaN
  end.

(** ToString of a query parameter that may be missing. *)
Definition ToString (p : option string) : string := default "undefined" p.

(** [parseInt(p, 10) || 0]: NaN and zero are falsy and give 0, every other
    Number is kept. *)
Definition parseInt_or_0 (p : option string) : number :=
  match parseInt (ToString p) with
  | NaN | Finite 0 => Finite 0
  | x => x
  end.

(** *** Identifier and timestamp shapes *)

Definition is_hex (c : ascii) : bool :=
  let n := code c in
  ((48 <=? n) && (n <=? 57)) || ((97 <=? n) && (n <=? 102)) || ((65 <=? n) && (n <=? 70)).

Definition is_lower_hex (c : ascii) : bool :=
  let n := code c in
  ((48 <=? n) && (n <=? 57)) || ((97 <=? n) && (n <=? 102)).

Definition all_chars (p : ascii -> bool) (s : string) : bool :=
  forallb p (list_ascii_of_string s).

(** The driver's [/^[0-9a-fA-F]{24}$/]. *)
Definition is_hex24 (s : string) : bool :=
  (String.length s =? 24)%nat && all_chars is_hex s.

(** The shape the specification names: 24 lower-case hexadecimal digits. *)
Definition is_lower_hex24 (s : string) : bool :=
  (String.length s =? 24)%nat && all_chars is_lower_hex s.

Definition lower_char (c : ascii) : ascii :=
  let n := code c in
  if (65 <=? n) && (n <=? 90) then ascii_of_N (Z.to_N (n + 32)) else c.

Definition toLowerCase (s : string) : string :=
  string_of_list_ascii (map lower_char (list_ascii_of_string s)).

(** [s.length]: the UTF-16 code units of a UTF-8 text. *)
Definition js_length (s : string) : Z :=
  fold_left
    (fun acc c =>
       let n := code c in
       if n <? 0x80 then acc + 1
       else if n <? 0xC0 then acc
       else if n <? 0xF0 then acc + 1
       else acc + 2)
    (list_ascii_of_string s) 0.

Definition fixed_digits (n : nat) (s : string) : option Z :=
  if (String.length s =? n)%nat then digits_value 0 s else None.

Definition char_at (i : nat) (s : string) (c : ascii) : bool :=
  match String.get i s with
  | Some c' => Ascii.eqb c c'
  | None => false
  end.

Definition leap_year (y : Z) : bool :=
  ((y mod 4 =? 0) && negb (y mod 100 =? 0)) || (y mod 400 =? 0).

Definition days_in_month (y m : Z) : Z :=
  if m =? 2 then (if leap_year y then 29 else 28)
  else if (m =? 4) || (m =? 6) || (m =? 9) || (m =? 11) then 30
  else 31.

(** The texts [Date.prototype.toISOString] produces for the years 0000 to
    9999: [YYYY-MM-DDTHH:mm:ss.sssZ] naming an existing instant. *)
Definition is_iso_timestamp (s : string) : bool :=
  (String.length s =? 24)%nat
  && char_at 4 s "-" && char_at 7 s "-" && char_at 10 s "T"
  && char_at 13 s ":" && char_at 16 s ":" && char_at 19 s "." && char_at 23 s "Z"
  && match fixed_digits 4 (substring 0 4 s), fixed_digits 2 (substring 5 2 s),
           fixed_digits 2 (substring 8 2 s), fixed_digits 2 (substring 11 2 s),
           fixed_digits 2 (substring 14 2 s), fixed_digits 2 (substring 17 2 s),
           fixed_digits 3 (substring 20 3 s) with
     | Some y, Some mo, Some d, Some h, Some mi, Some se, Some _ =>
         (1 <=? mo) && (mo <=? 12) && (1 <=? d) && (d <=? days_in_month y mo)
         && (h <=? 23) && (mi <=? 59) && (se <=? 59)
     | _, _, _, _, _, _, _ => false
     end.

(** ** What the handlers take from their platform

    The driver's ObjectId, the engine's JSON and URI decoders and its Date
    parser, and the server's query evaluation live outside the repository;
    the handlers are written over their interface. *)
Record Platform : Type := {
  (** [new ObjectId(x)]: the hex form of the identifier, [None] when the
      constructor throws. *)
  ObjectId_new : value -> option string;
  (** [ObjectId.isValid(text)]. *)
  ObjectId_isValid : string -> bool;
  (** [JSON.parse(text)], [None] on SyntaxError. *)
  JSON_parse : string -> option value;
  (** [decodeURIComponent(text)], [None] on URIError. *)
  decodeURIComponent : string -> option string;
  (** [new Date(x).toISOString()], [None] on the RangeError of an invalid
      date. *)
  Date_toISOString : value -> option string;
  (** [collection.find(query, projection, options).toArray()] on the
      documents of a collection, [options] carrying the given [limit] and
      [skip]; [None] when the server rejects the query. *)
  find_toArray :
    value -> value -> value -> number -> number -> list value -> option (list value)
}.

(** What every version of the driver and every engine guarantee. The
    driver takes any 24 hexadecimal digits; versions before bson 6 also take
    12-character strings, about which nothing is assumed. *)
Record PlatformLaws (P : Platform) : Prop := {
  oid_hex : forall s, is_hex24 s = true ->
    ObjectId_new P (VStr s) = Some (toLowerCase s) /\ ObjectId_isValid P s = true;
  oid_reject : forall s, is_hex24 s = false -> js_length s <> 12 ->
    ObjectId_new P (VStr s) = None /\ ObjectId_isValid P s = false;
  date_undefined : Date_toISOString P VUndefined = None;
  date_iso : forall s, is_iso_timestamp s = true ->
    Date_toISOString P (VStr s) = Some s
}.

(** ** Process state *)

Record NamedConnection : Type := {
  client : nat;
  connectionName : string
}.

(** Calls issued to the backend, in order. *)
Inductive call : Type :=
| CallClose (db : string)
| CallFindOne (db coll : string) (id : value)
| CallInsertOne (db coll : string) (doc : value)
| CallReplaceOne (db coll : string) (id : value) (doc : value)
| CallDeleteOne (db coll : string) (id : value)
| CallFind (db coll : string) (query projection options : value) (limit skip : number).

(** [CONNECTED_CLIENTS] maps every name under which the registry yields
    an entry: its own properties, and [__proto__] once an entry has been
    assigned under that name, which makes the entry the prototype of the
    registry (the inherited accessor then returns it). [faults] lists
    what the coming backend calls meet: [true] makes the call throw; past
    the end of the list every call succeeds. *)
Record state : Type := {
  CONNECTED_CLIENTS : gmap string NamedConnection;
  collections : gmap (string * string) (list value);
  calls : list call;
  faults : list bool
}.

Inductive exn : Type :=
| TypeError | RangeError | SyntaxError | URIError | BSONError | MongoError.

Record response : Type := {
  status : Z;
  headers : list (string * string);
  body : option value
}.

(** How a handler ends: a response was sent, the async handler rejected
    with an exception no [catch] covered, or it returned without sending. *)
Inductive result : Type :=
| Responded (r : response)
| Rejected (e : exn)
| NoResponse.

(** What one request reads from outside: the clock (every [new Date()] of
    the request reads [now]) and the identifier the driver would generate
    for a document inserted without one. *)
Record env : Type := {
  now : string;
  fresh_id : string
}.

Record request : Type := {
  databaseName : string;
  collectionName : string;
  mongoId : string;
  if_match : option string;     (* req.headers['if-match'] *)
  req_body : value;             (* req.body *)
  filter : option string;       (* req.query.filter *)
  limit : option string;        (* req.query.limit *)
  skip : option string          (* req.query.skip *)
}.
(* Each query parameter is given at most once, so that it is a string. *)

(** ** The handler monad: state, exceptions and early return *)

Inductive outcome (A : Type) : Type :=
| Ret (a : A)
| Throw (e : exn)
| Sent (r : response).
Arguments Ret {A} a.
Arguments Throw {A} e.
Arguments Sent {A} r.

(** The second component holds the headers set on [res] so far. *)
Definition hstate : Type := state * list (string * string).

Definition M (A : Type) : Type := hstate -> outcome A * hstate.

Definition ret {A} (a : A) : M A := fun s => (Ret a, s).

Definition bind {A B} (m : M A) (k : A -> M B) : M B :=
  fun s =>
    match m s with
    | (Ret a, s') => k a s'
    | (Throw e, s') => (Throw e, s')
    | (Sent r, s') => (Sent r, s')
    end.

Notation "'let*' x ':=' m 'in' k" := (bind m (fun x => k))
  (at level 10, x pattern, m at level 100, k at level 200).

Definition throw {A} (e : exn) : M A := fun s => (Throw e, s).

(** [try { m } catch (ex) { h ex }]: a response already sent in [m] with a
    [return] leaves the function. *)
Definition try_catch {A} (m : M A) (h : exn -> M A) : M A :=
  fun s =>
    match m s with
    | (Throw e, s') => h e s'
    | r => r
    end.

(** Lifting of a platform call that may throw. *)
Definition or_throw {A} (e : exn) (o : option A) : M A :=
  match o with
  | Some a => ret a
  | None => throw e
  end.

Fixpoint set_header (k v : string) (h : list (string * string)) : list (string * string) :=
  match h with
  | [] => [(k, v)]
  | (k', v') :: h' => if String.eqb k k' then (k, v) :: h' else (k', v') :: set_header k v h'
  end.

(** [res.setHeader(k, v)]. *)
Definition setHeader (k v : string) : M unit :=
  fun s => (Ret tt, (fst s, set_header k v (snd s))).

(** [res.status(code).json(body)] (or [.send()]), ending the handler. *)
Definition send {A} (code : Z) (b : option value) : M A :=
  fun s => (Sent {| status := code; headers := snd s; body := b |}, s).

Definition run (m : M unit) (s : state) : result * state :=
  match m (s, []) with
  | (Ret _, (s', _)) => (NoResponse, s')
  | (Throw e, (s', _)) => (Rejected e, s')
  | (Sent r, (s', _)) => (Responded r, s')
  end.

Definition get_state : M state := fun s => (Ret (fst s), s).

Definition put_state (s' : state) : M unit := fun s => (Ret tt, (s', snd s)).

(** ** The backend collections *)

(** What the BSON round trip does to a document: [undefined] is stored as
    [null]. *)
Fixpoint bson (v : value) : value :=
  match v with
  | VUndefined => VNull
  | VArr l => VArr (map bson l)
  | VObj o =>
      VObj ((fix fields (o : object) : object :=
               match o with
               | [] => []
               | (k, x) :: o' => (k, bson x) :: fields o'
               end) o)
  | _ => v
  end.

Definition documents (s : state) (db coll : string) : list value :=
  default [] (collections s !! (db, coll)).

Definition with_documents (s : state) (db coll : string) (docs : list value) : state :=
  {| CONNECTED_CLIENTS := CONNECTED_CLIENTS s;
     collections := <[(db, coll) := docs]> (collections s);
     calls := calls s;
     faults := faults s |}.

(** Every backend call is recorded and consumes one entry of [faults]. *)
Definition record_call (c : call) (s : state) : state :=
  {| CONNECTED_CLIENTS := CONNECTED_CLIENTS s;
     collections := collections s;
     calls := calls s ++ [c];
     faults := tail (faults s) |}.

Definition backend_call (c : call) : M unit :=
  fun s =>
    match faults (fst s) with
    | true :: _ => (Throw MongoError, (record_call c (fst s), snd s))
    | _ => (Ret tt, (record_call c (fst s), snd s))
    end.

Definition doc_id (d : value) : value :=
  match d with
  | VObj o => default VUndefined (get_own "_id" o)
  | _ => VUndefined
  end.

(** The filter [{ _id: q }]: an [undefined] is sent as [null], and [null]
    also selects a document without the field. *)
Definition matches_id (q : value) (d : value) : bool :=
  value_eqb (bson q) (bson (doc_id d)).

Fixpoint replace_first (q doc : value) (docs : list value) : list value :=
  match docs with
  | [] => []
  | d :: docs' => if matches_id q d then doc :: docs' else d :: replace_first q doc docs'
  end.

Fixpoint remove_first (q : value) (docs : list value) : list value :=
  match docs with
  | [] => []
  | d :: docs' => if matches_id q d then docs' else d :: remove_first q docs'
  end.

(** [collection.findOne({ _id: q })]. *)
Definition findOne (db coll : string) (q : value) : M (option value) :=
  let* _ := backend_call (CallFindOne db coll q) in
  let* s := get_state in
  ret (List.find (matches_id q) (documents s db coll)).

(** [collection.replaceOne({ _id: q }, doc)]; the replacement carries the
    identifier of the filter, as the server requires. *)
Definition replaceOne (db coll : string) (q : value) (doc : object) : M unit :=
  let* _ := backend_call (CallReplaceOne db coll q (VObj doc)) in
  let* s := get_state in
  put_state (with_documents s db coll (replace_first q (bson (VObj doc)) (documents s db coll))).

Definition nullish (v : value) : bool :=
  match v with VUndefined | VNull => true | _ => false end.

(** [collection.insertOne(doc)]: the driver adds a generated [_id] when the
    document has none, the server refuses a duplicate [_id]; the result is
    [insertedId]. *)
Definition insertOne (generated : string) (db coll : string) (doc : object) : M value :=
  let* _ := backend_call (CallInsertOne db coll (VObj doc)) in
  let doc' := if nullish (doc_id (VObj doc)) then obj_set doc "_id" (VOid generated) else doc in
  let insertedId := doc_id (VObj doc') in
  let* s := get_state in
  if existsb (matches_id insertedId) (documents s db coll) then throw MongoError
  else
    let* _ := put_state (with_documents s db coll (documents s db coll ++ [bson (VObj doc')])) in
    ret insertedId.

(** [collection.deleteOne({ _id: q })]; the result is [deletedCount]. *)
Definition deleteOne (db coll : string) (q : value) : M Z :=
  let* _ := backend_call (CallDeleteOne db coll q) in
  let* s := get_state in
  if existsb (matches_id q) (documents s db coll) then
    let* _ := put_state (with_documents s db coll (remove_first q (documents s db coll))) in
    ret 1
  else ret 0.

(** ** The connection registry *)

(** The registry is a plain object: a name it does not own is looked up on
    [Object.prototype]. *)
Definition Object_prototype_keys : list string :=
  [ "constructor"; "__defineGetter__"; "__defineSetter__"; "hasOwnProperty";
    "__lookupGetter__"; "__lookupSetter__"; "isPrototypeOf";
    "propertyIsEnumerable"; "toString"; "valueOf"; "__proto__"; "toLocaleString" ].

(** The names the registry inherits without their yielding an entry: the
    members of [Object.prototype] and, once an entry is the prototype of
    the registry, the two members of that entry, a client of the driver
    and a string, neither of which has a member [client] or
    [connectionName]. *)
Definition inherited_keys (s : state) : list string :=
  match CONNECTED_CLIENTS s !! "__proto__" with
  | Some _ => "client" :: "connectionName" :: Object_prototype_keys
  | None => Object_prototype_keys
  end.

(** [const { client, connectionName } = CONNECTED_CLIENTS[databaseName]]:
    an entry gives its two fields, an inherited member that is no entry
    gives two [undefined], and destructuring [undefined] throws. *)
Definition destructure_connection (databaseName : string) : M (option nat * value) :=
  let* s := get_state in
  match CONNECTED_CLIENTS s !! databaseName with
  | Some c => ret (Some (client c), VStr (connectionName c))
  | None =>
      if existsb (String.eqb databaseName) (inherited_keys s)
      then ret (None, VUndefined)
      else throw TypeError
  end.

(** [delete CONNECTED_CLIENTS[databaseName]]: an own property is removed;
    [__proto__] is none, and the prototype of the registry stays. *)
Definition delete_connection (databaseName : string) : M unit :=
  if String.eqb databaseName "__proto__" then ret tt
  else
    let* s := get_state in
    put_state {| CONNECTED_CLIENTS := delete databaseName (CONNECTED_CLIENTS s);
                 collections := collections s;
                 calls := calls s;
                 faults := faults s |}.

(** The fingerprint both PUT handlers compute:
    [crypto.createHash('sha256').update(JSON.stringify(v)).digest('base64')];
    [update(undefined)] throws. *)
Definition fingerprint (v : value) : option string :=
  option_map SHA256.digest_base64 (JSON_stringify v).

(** ** The handlers *)

Section Handlers.

Variable P : Platform.
Variable e : env.

Definition timestamp : string * value := ("timestamp", VStr (now e)).

(** [new ObjectId(x)]. *)
Definition new_ObjectId (x : value) : M value :=
  let* h := or_throw BSONError (ObjectId_new P x) in
  ret (VOid h).

(** [new Date(x).toISOString()]. *)
Definition new_Date_toISOString (x : value) : M string :=
  or_throw RangeError (Date_toISOString P x).

(** [removeComputedProperties(obj)] at a call site. *)
Definition strip (obj : value) : M object :=
  or_throw TypeError (removeComputedProperties obj).

(** [crypto.createHash('sha256').update(JSON.stringify(v)).digest('base64')]
    at a call site. *)
Definition sha256_base64_of_json (v : value) : M string :=
  or_throw TypeError (fingerprint v).

(** [app.delete('/databases/:databaseName')]. *)
Definition disconnect (req : request) : M unit :=
  if is_empty (databaseName req) then
    send 400 (Some (VObj [ ("status", VStr "CONNECTED");
                           ("message", VStr "Missing required field: databaseName");
                           timestamp ]))
  else
    let* conn := destructure_connection (databaseName req) in
    match fst conn with
    | None =>
        send 404 (Some (VObj [ ("status", VStr "UNKNOWN");
                               ("message", VStr ("No connection found for database: ("
                                                 +:+ databaseName req +:+ ")"));
                               timestamp ]))
    | Some _ =>
        try_catch
          (let* _ := backend_call (CallClose (databaseName req)) in
           let* _ := delete_connection (databaseName req) in
           send 200 (Some (VObj [ ("name", snd conn);
                                  ("status", VStr "DISCONNECTED");
                                  ("message", VStr ("Disconnected from database: ("
                                                    +:+ databaseName req +:+ ")"));
                                  timestamp ])))
          (fun _ =>
             send 500 (Some (VObj [ ("status", VStr "UNKNOWN");
                                    ("message", VStr ("Exception while disconnecting from ("
                                                      +:+ databaseName req +:+ ")"));
                                    timestamp ])))
    end.

(** The branch [if (existingDoc) { ... }], the same text in both PUT
    handlers: [documentId] is the identifier of the filter. *)
Definition update_existing (req : request) (documentId existingDoc : value) : M unit :=
  let* _lastModified := or_throw TypeError (get_property existingDoc "_lastModified") in
  let* _createdAt := or_throw TypeError (get_property existingDoc "_createdAt") in
  let* nonComputedPropsExistingDoc := strip existingDoc in
  let* currentETag := sha256_base64_of_json (VObj nonComputedPropsExistingDoc) in
  match if_match req with
  | None | Some EmptyString =>
      (* !ifMatch *)
      let* _ := setHeader "ETag" currentETag in
      let* lm := new_Date_toISOString (js_or _lastModified _createdAt) in
      let* _ := setHeader "Last-Modified" lm in
      send 409 (Some (VObj [ ("message", VStr "CONFLICT: Resource exists; missing required header. Request *MUST* include If-Match header set to ETag of resource");
                             timestamp ]))
  | Some ifMatch =>
      if negb (String.eqb ifMatch currentETag) then
        let* _ := setHeader "ETag" currentETag in
        let* lm := new_Date_toISOString (js_or _lastModified _createdAt) in
        let* _ := setHeader "Last-Modified" lm in
        send 412 (Some (VObj [ ("message", VStr "PRECONDITION_FAILED: Request ETag header value *MUST* match that of the existing resource");
                               timestamp ]))
      else
        let* nonComputedPropsRequestBody := strip (req_body req) in
        let updatedDocument :=
          set_all (set_all (set_all [] nonComputedPropsExistingDoc) nonComputedPropsRequestBody)
            [ ("_id", documentId); ("_lastModified", VStr (now e)); ("_createdAt", _createdAt) ] in
        let* _ := replaceOne (databaseName req) (collectionName req) documentId updatedDocument in
        let* newETag := sha256_base64_of_json (VObj nonComputedPropsRequestBody) in
        let* newLastModified :=
          new_Date_toISOString (default VUndefined (get_own "_lastModified" updatedDocument)) in
        let* _ := setHeader "ETag" newETag in
        let* _ := setHeader "Last-Modified" newLastModified in
        send 204 None
  end.

Definition internal_error_insert (req : request) (connectionName : value) : M unit :=
  send 500 (Some (VObj [ ("name", connectionName);
                         ("message", VStr ("INTERNAL_ERROR: could not insert document into collection ("
                                           +:+ collectionName req +:+ ")"));
                         timestamp ])).

Definition bad_request_id (connectionName : value) : M unit :=
  send 400 (Some (VObj [ ("name", connectionName);
                         ("message", VStr "BAD_REQUEST: Missing or invalid id param. id *MUST* be a valid MongoDB ObjectId. See https://stackoverflow.com/questions/10593337/is-there-any-way-to-create-mongodb-like-id-strings-without-mongodb for example ObjectId");
                         timestamp ])).

(** The branch [else { ... }] of PUT with an identifier: create the
    document. *)
Definition create_document (req : request) (documentId : value) : M unit :=
  let _createdAt := now e in
  let* nonComputedPropsRequestBody := strip (req_body req) in
  let newDocument :=
    set_all (set_all [] nonComputedPropsRequestBody)
      [ ("_createdAt", VStr _createdAt); ("_id", documentId); ("_lastModified", VNull) ] in
  let* insertedId :=
    insertOne (fresh_id e) (databaseName req) (collectionName req) newDocument in
  let* newETag := sha256_base64_of_json (req_body req) in
  let* _ := setHeader "ETag" newETag in
  let* _ := setHeader "Last-Modified" _createdAt in
  send 201 (Some (VObj [ ("_id", insertedId) ])).

(** The same branch in [index.js]: the new document is given no [_id]. *)
Definition create_resource (req : request) : M unit :=
  let _createdAt := now e in
  let* nonComputedBody := strip (req_body req) in
  let newResource :=
    set_all (set_all [] nonComputedBody)
      [ ("_createdAt", VStr _createdAt); ("_lastModified", VNull) ] in
  let* insertedId :=
    insertOne (fresh_id e) (databaseName req) (collectionName req) newResource in
  let* newETag := sha256_base64_of_json (req_body req) in
  let* _ := setHeader "ETag" newETag in
  let* _ := setHeader "Last-Modified" _createdAt in
  send 201 (Some (VObj [ ("_id", insertedId) ])).

(** [app.put('/databases/:databaseName/collections/:collectionName/:mongoId')]. *)
Definition put_document (req : request) : M unit :=
  let* conn := destructure_connection (databaseName req) in
  let* _ :=
    try_catch
      (let* _ := new_ObjectId (VStr (mongoId req)) in ret tt)
      (fun _ => bad_request_id (snd conn)) in
  try_catch
    (match fst conn with
     | None =>
         send 404 (Some (VObj [ ("name", VNull);
                                ("message", VStr ("No existing connection found for database: ("
                                                  +:+ databaseName req +:+ ")"));
                                timestamp ]))
     | Some _ =>
         let* documentId :=
           if is_empty (mongoId req) then ret VUndefined
           else new_ObjectId (VStr (mongoId req)) in
         let* existingDoc := findOne (databaseName req) (collectionName req) documentId in
         match existingDoc with
         | Some doc => update_existing req documentId doc
         | None => create_document req documentId
         end
     end)
    (fun _ => internal_error_insert req (snd conn)).

(** [app.put('/databases/:databaseName/collections/:collectionName')] of
    [index.js]: the identifier is read from the body. *)
Definition put_collection (req : request) : M unit :=
  let* conn := destructure_connection (databaseName req) in
  try_catch
    (let* body_id := or_throw TypeError (get_property (req_body req) "_id") in
     let* resourceId :=
       if truthy body_id then new_ObjectId body_id else ret VUndefined in
     match fst conn with
     | None =>
         send 404 (Some (VObj [ ("name", snd conn);
                                ("message", VStr ("No existing connection found for database: ("
                                                  +:+ databaseName req +:+ ")"));
                                timestamp ]))
     | Some _ =>
         let* existingResource := findOne (databaseName req) (collectionName req) resourceId in
         match existingResource with
         | Some doc => update_existing req resourceId doc
         | None => create_resource req
         end
     end)
    (fun _ => internal_error_insert req (snd conn)).

(** Whether [x.limit = n] succeeds in module (strict) code: it throws on
    [undefined], [null] and on a primitive. *)
Definition assignable (x : value) : bool :=
  match x with
  | VObj _ | VArr _ | VOid _ => true
  | _ => false
  end.

Definition default_config : value :=
  VObj [ ("query", VObj []); ("projection", VObj []); ("options", VObj []) ].

(** [app.get('/databases/:databaseName/collections/:collectionName')]. *)
Definition list_documents (req : request) : M unit :=
  let* conn := destructure_connection (databaseName req) in
  try_catch
    (let* config :=
       match filter req with
       | None | Some EmptyString => ret default_config
       | Some text =>
           let* decoded := or_throw URIError (decodeURIComponent P text) in
           or_throw SyntaxError (JSON_parse P decoded)
       end in
     match fst conn with
     | None =>
         send 404 (Some (VObj [ ("status", VStr "UNKNOWN");
                                ("message", VStr ("No existing connection found for database: ("
                                                  +:+ databaseName req +:+ ")"));
                                timestamp ]))
     | Some _ =>
         let* options := or_throw TypeError (get_property config "options") in
         let options_limit := parseInt_or_0 (limit req) in
         let options_skip := parseInt_or_0 (skip req) in
         if negb (assignable options) then throw TypeError
         else
           let* query := or_throw TypeError (get_property config "query") in
           let* projection := or_throw TypeError (get_property config "projection") in
           let* _ := backend_call (CallFind (databaseName req) (collectionName req)
                                     query projection options options_limit options_skip) in
           let* s := get_state in
           let* results :=
             or_throw MongoError
               (find_toArray P query projection options options_limit options_skip
                  (documents s (databaseName req) (collectionName req))) in
           send 200 (Some (VObj [ ("items", VArr results);
                                  ("count", VNum (Z.of_nat (length results))) ]))
     end)
    (fun _ =>
       send 500 (Some (VObj [ ("name", snd conn);
                              ("status", VStr "UNKNOWN");
                              ("message", VStr ("Exception during fetch on collection ("
                                                +:+ databaseName req +:+ "/"
                                                +:+ collectionName req +:+ ")"));
                              timestamp ]))).

(** [app.get('/databases/:databaseName/collections/:collectionName/:mongoId')]. *)
Definition get_document (req : request) : M unit :=
  let* conn := destructure_connection (databaseName req) in
  try_catch
    (match fst conn with
     | None =>
         send 404 (Some (VObj [ ("name", snd conn);
                                ("message", VStr ("No existing connection found for database: ("
                                                  +:+ databaseName req +:+ ")"));
                                timestamp ]))
     | Some _ =>
         if negb (ObjectId_isValid P (mongoId req)) then
           send 400 (Some (VObj [ ("name", snd conn);
                                  ("message", VStr ("The Mongo objectId (" +:+ mongoId req
                                                    +:+ ") is invalid"));
                                  timestamp ]))
         else
           let* id := new_ObjectId (VStr (mongoId req)) in
           let* result := findOne (databaseName req) (collectionName req) id in
           match result with
           | Some doc =>
               send 200 (Some (VObj [ ("items", VArr [doc]); ("count", VNum 1) ]))
           | None =>
               send 404 (Some (VObj [ ("items", VArr []); ("count", VNum 0) ]))
           end
     end)
    (fun _ =>
       send 500 (Some (VObj [ ("name", snd conn);
                              ("message", VStr ("INTERNAL_ERROR: Exception encountered during lookup ("
                                                +:+ collectionName req +:+ "/"
                                                +:+ mongoId req +:+ ")"));
                              timestamp ]))).

(** [app.delete('/databases/:databaseName/collections/:collectionName/:mongoId')]. *)
Definition delete_document (req : request) : M unit :=
  let* conn := destructure_connection (databaseName req) in
  let* _ :=
    try_catch
      (let* _ := new_ObjectId (VStr (mongoId req)) in ret tt)
      (fun _ => bad_request_id (snd conn)) in
  try_catch
    (match fst conn with
     | None =>
         send 404 (Some (VObj [ ("name", snd conn);
                                ("message", VStr ("NOT_FOUND: No existing connection found for database: ("
                                                  +:+ databaseName req +:+ ")"));
                                timestamp ]))
     | Some _ =>
         let* id := new_ObjectId (VStr (mongoId req)) in
         let* deletedCount := deleteOne (databaseName req) (collectionName req) id in
         if deletedCount =? 0 then
           send 404 (Some (VObj [ ("name", snd conn);
                                  ("message", VStr ("NOT_FOUND: Could not find document ("
                                                    +:+ collectionName req +:+ "/"
                                                    +:+ mongoId req +:+ ")"));
                                  timestamp ]))
         else send 204 None
     end)
    (fun _ =>
       send 500 (Some (VObj [ ("name", snd conn);
                              ("message", VStr ("INTERNAL_ERROR: Exception encountered during document delete ("
                                                +:+ collectionName req +:+ "/"
                                                +:+ mongoId req +:+ ")"));
                              timestamp ]))).

End Handlers.

(** ** A platform to run the handlers on

    The driver of bson 6 on strings, and enough of the engine for the
    requests evaluated below: timestamps in the form [toISOString] prints
    ([null] is the epoch), URI texts without escapes (a percent sign that
    starts no escape is the URIError), the JSON text of the empty object
    (the other texts used are not JSON), and a server that answers the
    empty query with the whole collection. *)
Definition has_percent (s : string) : bool :=
  existsb (Ascii.eqb "%") (list_ascii_of_string s).

Definition sample_platform : Platform :=
  {| ObjectId_new x :=
       match x with
       | VStr s => if is_hex24 s then Some (toLowerCase s) else None
       | _ => None
       end;
     ObjectId_isValid s := is_hex24 s;
     JSON_parse text := if String.eqb text "{}" then Some (VObj []) else None;
     decodeURIComponent text := if has_percent text then None else Some text;
     Date_toISOString x :=
       match x with
       | VStr s => if is_iso_timestamp s then Some s else None
       | VNull => Some "1970-01-01T00:00:00.000Z"
       | _ => None
       end;
     find_toArray query _ _ _ _ docs :=
       match query with
       | VObj [] => Some docs
       | _ => None
       end |}.

Definition sample_env : env :=
  {| now := "2024-05-06T07:08:09.010Z"; fresh_id := "65f000000000000000000001" |}.

Definition connected (db : string) (docs : list value) : state :=
  {| CONNECTED_CLIENTS := {[ db := {| client := 1; connectionName := "happy-otter" |} ]};
     collections := {[ (db, "things") := docs ]};
     calls := [];
     faults := [] |}.

Definition request_for (db id : string) (ifm : option string) (b : value) : request :=
  {| databaseName := db; collectionName := "things"; mongoId := id;
     if_match := ifm; req_body := b; filter := None; limit := None; skip := None |}.

(** Requests and documents the examples run. *)
Definition id1 : string := "0123456789abcdef01234567".
Definition ID_UPPER : string := "ABCDEFABCDEFABCDEFABCDEF".

Definition body_with_computed : value := VObj [("name", VStr "a"); ("_x", VNum 1)].
Definition body_age : value := VObj [("age", VNum 3)].

Definition stored_a : value :=
  VObj [ ("_id", VOid id1); ("name", VStr "a");
         ("_createdAt", VStr "2024-01-02T03:04:05.006Z"); ("_lastModified", VNull) ].

Definition stored_upper : value :=
  VObj [ ("_id", VOid "abcdefabcdefabcdefabcdef"); ("name", VStr "a");
         ("_createdAt", VStr "2024-01-02T03:04:05.006Z"); ("_lastModified", VNull) ].

Definition stored_plain : value := VObj [ ("_id", VOid id1); ("name", VStr "a") ].

Definition stored_rev : value :=
  VObj [ ("_id", VOid id1); ("name", VStr "a"); ("_rev", VNum 7);
         ("_createdAt", VStr "2024-01-02T03:04:05.006Z"); ("_lastModified", VNull) ].

Definition body_secret : value :=
  VObj [ ("name", VStr "b"); ("age", VNum 3); ("_secret", VStr "x") ].

Definition doc_ab : value := VObj [("a", VNum 1); ("b", VNum 2)].
Definition doc_ba : value := VObj [("b", VNum 2); ("a", VNum 1)].

(** ** Vocabulary of the statements *)

(** The fingerprint of a stored document: the digest of its non-computed
    fields, as the update branch computes [currentETag]. *)
Definition currentETag (doc : value) : option string :=
  match removeComputedProperties doc with
  | Some nonComputed => fingerprint (VObj nonComputed)
  | None => None
  end.

(** [!ifMatch]. *)
Definition header_missing (ifMatch : option string) : bool :=
  match ifMatch with
  | None | Some EmptyString => true
  | Some _ => false
  end.

(** [JSON.parse(decodeURIComponent(text))], [None] when either throws. *)
Definition parse_filter (P : Platform) (text : string) : option value :=
  match decodeURIComponent P text with
  | Some decoded => JSON_parse P decoded
  | None => None
  end.

Definition get_header (k : string) (r : response) : option string :=
  option_map snd (List.find (fun kv => String.eqb k (fst kv)) (headers r)).

(** A value without [undefined], as JSON.parse and the BSON reader build. *)
Fixpoint no_undefined (v : value) : bool :=
  match v with
  | VUndefined => false
  | VArr l => forallb no_undefined l
  | VObj o =>
      (fix fields (o : object) : bool :=
         match o with
         | [] => true
         | (_, x) :: o' => no_undefined x && fields o'
         end) o
  | _ => true
  end.

(** The fields of an object as BSON stores them. *)
Definition bson_fields (o : object) : object :=
  map (fun kv => (fst kv, bson (snd kv))) o.

(** The merge of two objects read key by key: the second wins. *)
Definition merged_field (k : string) (stored request : object) : option value :=
  match get_own k request with
  | Some v => Some v
  | None => get_own k stored
  end.

(** The object literal [updatedDocument] of the update branch, for a stored
    object [o], a stripped request body and the identifier of the filter. *)
Definition updated_document (e : env) (q : value) (o request : object) : object :=
  set_all (set_all (set_all [] (Object_fromEntries (List.filter non_computed o))) request)
    [ ("_id", q); ("_lastModified", VStr (now e));
      ("_createdAt", default VUndefined (get_own "_createdAt" o)) ].

(** The value of [_lastModified || _createdAt] on a stored document. *)
Definition last_modified_or_created (doc : value) : value :=
  js_or (default VUndefined (get_property doc "_lastModified"))
        (default VUndefined (get_property doc "_createdAt")).

Definition with_if_match (req : request) (ifm : option string) : request :=
  {| databaseName := databaseName req; collectionName := collectionName req;
     mongoId := mongoId req; if_match := ifm; req_body := req_body req;
     filter := filter req; limit := limit req; skip := skip req |}.

Definition with_query (req : request) (f l k : option string) : request :=
  {| databaseName := databaseName req; collectionName := collectionName req;
     mongoId := mongoId req; if_match := if_match req; req_body := req_body req;
     filter := f; limit := l; skip := k |}.

(** The [catch] of the two PUT handlers on a connected database. *)
Definition on_error (e : env) (req : request) (c : NamedConnection) : exn -> M unit :=
  fun _ => internal_error_insert e req (VStr (connectionName c)).

(** ** Predicates on computations *)

(** [m] leaves the list of backend calls as it found it. *)
Definition keeps_calls {A} (m : M A) : Prop :=
  forall st, calls (fst (snd (m st))) = calls (fst st).

(** [m] issues no backend call, or the one query of List with the coerced
    [limit] and [skip] of the request. *)
Definition queries_once (req : request) {A} (m : M A) : Prop :=
  forall st,
    calls (fst (snd (m st))) = calls (fst st)
    \/ exists query projection options,
         calls (fst (snd (m st)))
         = calls (fst st)
           ++ [CallFind (databaseName req) (collectionName req) query projection options
                 (parseInt_or_0 (limit req)) (parseInt_or_0 (skip req))].

(** [m] sends no response. *)
Definition silent {A} (m : M A) : Prop :=
  forall st r st', m st <> (Sent r, st').

(** [m] ends by sending a response whose status satisfies [ok], or by
    throwing; it never falls through. *)
Definition answers (ok : Z -> Prop) (m : M unit) : Prop :=
  forall st,
    match fst (m st) with
    | Sent r => ok (status r)
    | Throw _ => True
    | Ret _ => False
    end.

Definition not_400 (code : Z) : Prop := code <> 400.

Definition not_204 (code : Z) : Prop := code <> 204.

(** ** Connect

    [app.post('/databases/:databaseName')]. What the request meets outside
    the process is given with it: the client the driver builds for a
    connection string, the alias drawn for the connection, and whether the
    connection and the ping go through. *)
Record connecting : Type := {
  (** [new MongoClient(text)]: the client, [None] when the constructor
      throws on the connection string. *)
  new_MongoClient : string -> option nat;
  (** [randomPetName(2, '-')]. *)
  randomPetName : string;
  (** [await client.connect()] resolves. *)
  connect_resolves : bool;
  (** [await client.db(databaseName).command({ ping: 1 })] resolves. *)
  ping_resolves : bool
}.

(** [!text] for a query parameter. *)
Definition missing_text (text : option string) : bool :=
  match text with
  | None | Some EmptyString => true
  | Some _ => false
  end.

(** [CONNECTED_CLIENTS[databaseName] = entry]: an own property is created
    or replaced; under [__proto__] the inherited setter makes the entry
    the prototype of the registry. *)
Definition set_connection (databaseName : string) (entry : NamedConnection) : M unit :=
  let* s := get_state in
  put_state {| CONNECTED_CLIENTS := <[databaseName := entry]> (CONNECTED_CLIENTS s);
               collections := collections s;
               calls := calls s;
               faults := faults s |}.

(** [await p] for a promise that resolves or rejects. *)
Definition await_resolved (resolves : bool) : M unit :=
  if resolves then ret tt else throw MongoError.

Definition connect (P : Platform) (e : env) (w : connecting) (uri : option string)
    (req : request) : M unit :=
  if is_empty (databaseName req) || missing_text uri then
    send 400 (Some (VObj [ ("status", VStr "NOT_CONNECTED");
                           ("message", VStr "Missing required fields: databaseName or uri");
                           timestamp e ]))
  else
    try_catch
      (let* decoded := or_throw URIError (decodeURIComponent P (default EmptyString uri)) in
       let* client := or_throw MongoError (new_MongoClient w decoded) in
       let connectionName := randomPetName w in
       let* _ := await_resolved (connect_resolves w) in
       let* _ := await_resolved (ping_resolves w) in
       let* _ := set_connection (databaseName req)
                   {| client := client; connectionName := connectionName |} in
       send 200 (Some (VObj [ ("name", VStr connectionName);
                              ("status", VStr "CONNECTED");
                              ("message", VStr ("Connected to database: ("
                                                +:+ databaseName req +:+ ")"));
                              timestamp e ])))
      (fun _ =>
         send 500 (Some (VObj [ ("status", VStr "NOT_CONNECTED");
                                ("message", VStr ("Exception while connecting to database: ("
                                                  +:+ databaseName req +:+ ")"));
                                timestamp e ]))).

(** A world in which the handshake goes through, for the examples. *)
Definition sample_connecting : connecting :=
  {| new_MongoClient text := if is_empty text then None else Some 7%nat;
     randomPetName := "brave-heron";
     connect_resolves := true;
     ping_resolves := true |}.

(** ** More predicates on computations *)

(** [m] leaves the observation [f] of the state as it found it. *)
Definition keeps {A B} (f : state -> B) (m : M A) : Prop :=
  forall st, f (fst (snd (m st))) = f (fst st).

(** [m] ends by sending a response with a status of [codes], or throws. *)
Definition answers_in (codes : list Z) : M unit -> Prop :=
  answers (fun code => In code codes).

(** [m] always sends a response, with a status of [codes]. *)
Definition sends_in (codes : list Z) (m : M unit) : Prop :=
  forall st, exists r st', m st = (Sent r, st') /\ In (status r) codes.

(** How a handler's run from [s] on the database [db] ends: with a
    response whose status is one of [codes], or rejected by the TypeError
    of destructuring an entry that the registry does not hold, the state
    untouched. *)
Definition responds_in (codes : list Z) (db : string) (s : state)
    (out : result * state) : Prop :=
  (exists r, fst out = Responded r /\ In (status r) codes)
  \/ (out = (Rejected TypeError, s)
      /\ CONNECTED_CLIENTS s !! db = None
      /\ existsb (String.eqb db) Object_prototype_keys = false).

(** A run from [s] that ends with a 500 and has only recorded the call
    that failed. *)
Definition fails_with_500 (s : state) (out : result * state) : Prop :=
  exists b c,
    out = (Responded {| status := 500; headers := []; body := Some b |}, record_call c s).


(** A run from [s] that wrote to no collection, unless it was answered
    201 or 204. *)
Definition wrote_only_with_success (s : state) (out : result * state) : Prop :=
  collections (snd out) = collections s
  \/ exists r, fst out = Responded r /\ (status r = 201 \/ status r = 204).

(** The backend calls a PUT may issue, in order: none, the lookup, or the
    lookup followed by one write to the same collection, a replacement
    targeting the identifier that was looked up or an insertion. *)
Inductive put_calls (db coll : string) : list call -> Prop :=
| put_no_call : put_calls db coll []
| put_lookup q : put_calls db coll [CallFindOne db coll q]
| put_replace q doc :
    put_calls db coll [CallFindOne db coll q; CallReplaceOne db coll q doc]
| put_insert q doc :
    put_calls db coll [CallFindOne db coll q; CallInsertOne db coll doc].

(** [m] appends to the record of backend calls a list that [allowed]
    holds of. *)
Definition issues (allowed : list call -> Prop) {A} (m : M A) : Prop :=
  forall st, exists l, calls (fst (snd (m st))) = calls (fst st) ++ l /\ allowed l.

(** The calls recorded by a run from [s] are those of [s] followed by a
    list that [allowed] holds of. *)
Definition issued (allowed : list call -> Prop) (s : state) (out : result * state) : Prop :=
  exists l, calls (snd out) = calls s ++ l /\ allowed l.

(** The state after [delete CONNECTED_CLIENTS[databaseName]]. *)
Definition unregistered (databaseName : string) (s : state) : state :=
  {| CONNECTED_CLIENTS :=
       if String.eqb databaseName "__proto__" then CONNECTED_CLIENTS s
       else delete databaseName (CONNECTED_CLIENTS s);
     collections := collections s;
     calls := calls s;
     faults := faults s |}.

(** The [config] of List: the default when [filter] is missing or empty,
    the parsed filter otherwise; [None] when decoding or parsing throws. *)
Definition list_config (P : Platform) (req : request) : option value :=
  match filter req with
  | None | Some EmptyString => Some default_config
  | Some text => parse_filter P text
  end.

(** The client of Connect when every step of its [try] block goes through. *)
Definition handshake (P : Platform) (w : connecting) (uri : option string) : option nat :=
  match decodeURIComponent P (default EmptyString uri) with
  | Some decoded =>
      match new_MongoClient w decoded with
      | Some client => if connect_resolves w && ping_resolves w then Some client else None
      | None => None
      end
  | None => None
  end.

(** The state after [CONNECTED_CLIENTS[databaseName] = entry]. *)
Definition registered (databaseName : string) (entry : NamedConnection) (s : state) : state :=
  {| CONNECTED_CLIENTS := <[databaseName := entry]> (CONNECTED_CLIENTS s);
     collections := collections s;
     calls := calls s;
     faults := faults s |}.

(** When [m] does not return, it has left the collections as they were. *)
Definition fails_clean {A} (m : M A) : Prop :=
  forall st o st', m st = (o, st') ->
    (forall a, o <> Ret a) -> collections (fst st') = collections (fst st).

(** [m] leaves the collections as they were, unless it sends 201 or 204. *)
Definition writes_only_on_success (m : M unit) : Prop :=
  forall st o st', m st = (o, st') ->
    collections (fst st') = collections (fst st)
    \/ exists r, o = Sent r /\ (status r = 201 \/ status r = 204).

(** The documents of a collection that a filter on [_id] selects. *)
Definition selected (q : value) (docs : list value) : list value :=
  List.filter (matches_id q) docs.

(* ===================================================================== *)
(** * Properties *)
(* ===================================================================== *)

Arguments SHA256.digest_base64 : simpl never.

(** ** The digest against the published test vectors *)

Example sha256_empty :
  SHA256.digest_base64 EmptyString = "47DEQpj8HBSa+/TImW+5JCeuQeRkm5NMpJWZG3hSuFU=".
Proof. vm_compute. reflexivity. Qed.

Example sha256_abc :
  SHA256.digest_base64 "abc" = "ungWv48Bz+pBQUDeXa4iI7ADYaOWF3qctBD/YfIAFa0=".
Proof. vm_compute. reflexivity. Qed.

Example sha256_two_blocks :
  SHA256.digest_base64 "abcdbcdecdefdefgefghfghighijhijkijkljklmklmnlmnomnopnopq"
  = "JI1qYdIGOLjlwCaTDD5gOaM85Flk/yFn9uzt1BnbBsE=".
Proof. vm_compute. reflexivity. Qed.

Example sha256_one_full_block :
  SHA256.digest_base64 (String.concat EmptyString (repeat "a" 64))
  = "/+BU/nrgy23GXDr5th1SCfQ5hR20PQulmXM33xVGaOs=".
Proof. vm_compute. reflexivity. Qed.

(** ** Serialization: key order, members left out, escapes

    The object below is built in the order b, 10, a, 2, b, 01, 1; its JSON
    text lists 1 and 10 first, then b, a and 01, leaves the [undefined]
    member 2 out, prints the [undefined] array element as null and escapes
    the line feed, the quotation mark and the backslash. The digest is that
    of this text. *)
Example serialize_own_property_order :
  fingerprint
    (VObj (Object_fromEntries
             [ ("b", VNum (-12)); ("10", VNull);
               ("a", VArr [VUndefined; VBool true;
                           VStr (String "010"%char (String dquote "x\"))]);
               ("2", VUndefined); ("b", VNum 3); ("01", VNum 0); ("1", VOid "abc") ]))
  = Some "kZnQ719xWKtyVoL83sOxCsPz/m63WO3mBOxhLBKtXyI=".
Proof. vm_compute. reflexivity. Qed.

Example parseInt_samples :
  map parseInt ["12"; "  -5x"; "+7"; "abc"; "-"; "0x10"; "-0"; "1e3"; "undefined"; " 12 "]
  = [Finite 12; Finite (-5); Finite 7; NaN; NaN; Finite 0; Finite 0; Finite 1; NaN; Finite 12].
Proof. vm_compute. reflexivity. Qed.

(** Past [2 ^ 53] the digits are rounded to a double, a tie to the even
    significand; 309 digits are past every double. *)
Example parseInt_rounds :
  map parseInt
    [ "9007199254740992"; "9007199254740993"; "9007199254740995"; "-9007199254740993";
      "18014398509481985"; "123456789012345678901234567890" ]
  = [ Finite 9007199254740992; Finite 9007199254740992; Finite 9007199254740996;
      Finite (-9007199254740992); Finite 18014398509481984;
      Finite 123456789012345677877719597056 ]
  /\ parseInt (String "1" (string_of_list_ascii (repeat "0"%char 309))) = Infinity false
  /\ parseInt (String "-" (String "1" (string_of_list_ascii (repeat "0"%char 309))))
     = Infinity true.
Proof. vm_compute. repeat split. Qed.

Example is_iso_timestamp_samples :
  map is_iso_timestamp
    [ "2024-02-29T23:59:59.999Z"; "2023-02-29T23:59:59.999Z"; "2024-01-01T24:00:00.000Z";
      "2024-1-01T00:00:00.000Z"; "2024-01-01T00:00:00.000" ]
  = [true; false; false; false; false].
Proof. vm_compute. reflexivity. Qed.

(** ** The digest text is never empty *)

Lemma round_length st kw : length st = 8%nat -> length (SHA256.round st kw) = 8%nat.
Proof.
  intros H. do 9 (destruct st as [| ? st]; try discriminate). reflexivity.
Qed.

Lemma rounds_length l st :
  length st = 8%nat -> length (fold_left SHA256.round l st) = 8%nat.
Proof.
  revert st. induction l as [| kw l IH]; intros st H; [exact H |].
  cbn. apply IH, round_length, H.
Qed.

Lemma compress_length h block :
  length h = 8%nat -> length (SHA256.compress h block) = 8%nat.
Proof.
  intros H. unfold SHA256.compress.
  rewrite length_map, length_combine, rounds_length, H; reflexivity || exact H.
Qed.

Lemma blocks_length blocks h :
  length h = 8%nat -> length (fold_left SHA256.compress blocks h) = 8%nat.
Proof.
  revert h. induction blocks as [| b blocks IH]; intros h H; [exact H |].
  cbn. apply IH, compress_length, H.
Qed.

Lemma digest_bytes_cons msg : exists b bs, SHA256.digest_bytes msg = b :: bs.
Proof.
  unfold SHA256.digest_bytes.
  pose proof (blocks_length
    (SHA256.chunks (length (SHA256.pad msg)) 64 (SHA256.pad msg)) SHA256.H0 eq_refl) as H.
  destruct (fold_left SHA256.compress _ SHA256.H0) as [| w ws]; [discriminate |].
  cbn. eauto.
Qed.

Lemma concat_cons c t l :
  exists c' t', String.concat EmptyString (String c t :: l) = String c' t'.
Proof. destruct l; cbn; eauto. Qed.

Lemma base64_cons b bs : exists c t, SHA256.base64 (b :: bs) = String c t.
Proof.
  unfold SHA256.base64. cbn [length SHA256.chunks map].
  destruct bs as [| b1 [| b2 bs]]; cbn [firstn SHA256.b64_group]; apply concat_cons.
Qed.

Lemma digest_base64_not_empty s : is_empty (SHA256.digest_base64 s) = false.
Proof.
  unfold SHA256.digest_base64.
  destruct (digest_bytes_cons (SHA256.bytes_of_string s)) as (b & bs & ->).
  destruct (base64_cons b bs) as (c & t & ->). reflexivity.
Qed.

(** ** Monad laws used to run the handlers *)

Lemma bind_ret {A B} (m : M A) (k : A -> M B) s a s' :
  m s = (Ret a, s') -> bind m k s = k a s'.
Proof. intros H. unfold bind. rewrite H. reflexivity. Qed.

Lemma bind_throw {A B} (m : M A) (k : A -> M B) s ex s' :
  m s = (Throw ex, s') -> bind m k s = (Throw ex, s').
Proof. intros H. unfold bind. rewrite H. reflexivity. Qed.

(** ** Evaluations on concrete requests *)

(** C1. A create whose body carries an underscore-prefixed key: both PUT
    handlers answer 201 with the digest of the raw body as ETag, which is
    not the digest of the stripped body, although the document they stored
    has the stripped body's fingerprint; resubmitting with the advertised
    ETag as If-Match is refused with 412. *)
Theorem create_etag_hashes_raw_body :
  let req := request_for "shop" id1 None body_with_computed in
  let stripped := VObj [("name", VStr "a")] in
  let out := run (put_document sample_platform sample_env req) (connected "shop" []) in
  let out' := run (put_collection sample_platform sample_env req) (connected "shop" []) in
  removeComputedProperties body_with_computed = Some [("name", VStr "a")]
  /\ (exists r, fst out = Responded r /\ status r = 201
        /\ get_header "ETag" r = fingerprint body_with_computed
        /\ get_header "ETag" r <> fingerprint stripped
        /\ (exists d, documents (snd out) "shop" "things" = [d]
              /\ currentETag d = fingerprint stripped)
        /\ exists r2,
             fst (run (put_document sample_platform sample_env
                         (with_if_match req (get_header "ETag" r))) (snd out))
             = Responded r2 /\ status r2 = 412)
  /\ (exists r, fst out' = Responded r /\ status r = 201
        /\ get_header "ETag" r = fingerprint body_with_computed
        /\ get_header "ETag" r <> fingerprint stripped
        /\ exists d, documents (snd out') "shop" "things" = [d]
             /\ currentETag d = fingerprint stripped).
Proof.
  cbv zeta. split; [vm_compute; reflexivity |]. split.
  - eexists. split; [vm_compute; reflexivity |].
    split; [vm_compute; reflexivity |].
    split; [vm_compute; reflexivity |].
    split; [vm_compute; discriminate |].
    split.
    + eexists. split; [vm_compute; reflexivity | vm_compute; reflexivity].
    + eexists. split; [vm_compute; reflexivity | vm_compute; reflexivity].
  - eexists. split; [vm_compute; reflexivity |].
    split; [vm_compute; reflexivity |].
    split; [vm_compute; reflexivity |].
    split; [vm_compute; discriminate |].
    eexists. split; [vm_compute; reflexivity | vm_compute; reflexivity].
Qed.

(** C2. A conditional update with a partial body: the 204 response carries
    the digest of the stripped request body alone, not the fingerprint of
    the merged fields the handler has just stored, and the advertised ETag
    is refused with 412 on the next conditional write. *)
Theorem update_etag_hashes_request_body :
  let req := request_for "shop" id1 (currentETag stored_a) body_age in
  let merged := VObj [("name", VStr "a"); ("age", VNum 3)] in
  let out := run (put_document sample_platform sample_env req) (connected "shop" [stored_a]) in
  exists r d,
    fst out = Responded r /\ status r = 204
    /\ documents (snd out) "shop" "things" = [d]
    /\ removeComputedProperties d = Some [("name", VStr "a"); ("age", VNum 3)]
    /\ get_header "ETag" r = fingerprint body_age
    /\ get_header "ETag" r <> fingerprint merged
    /\ currentETag d = fingerprint merged
    /\ exists r2,
         fst (run (put_document sample_platform sample_env
                     (with_if_match req (get_header "ETag" r))) (snd out))
         = Responded r2 /\ status r2 = 412.
Proof.
  cbv zeta. eexists. eexists.
  split; [vm_compute; reflexivity |].
  split; [vm_compute; reflexivity |].
  split; [vm_compute; reflexivity |].
  split; [vm_compute; reflexivity |].
  split; [vm_compute; reflexivity |].
  split; [vm_compute; discriminate |].
  split; [vm_compute; reflexivity |].
  eexists. split; [vm_compute; reflexivity | vm_compute; reflexivity].
Qed.

(** C5. A database name the registry has no entry for, never connected
    ("nodb") or disconnected by the request before ("shop"): the
    destructuring of [CONNECTED_CLIENTS[databaseName]] throws before any
    handler reaches its 404 branch, so none of the five operations answers
    at all; the state is left as it was. *)
Theorem unknown_database_throws :
  let s := connected "shop" [stored_a] in
  let req := request_for "nodb" id1 None body_age in
  let req' := request_for "shop" id1 None body_age in
  let closed := run (disconnect sample_env req') s in
  CONNECTED_CLIENTS s !! "nodb" = None
  /\ run (put_document sample_platform sample_env req) s = (Rejected TypeError, s)
  /\ run (put_collection sample_platform sample_env req) s = (Rejected TypeError, s)
  /\ run (list_documents sample_platform sample_env req) s = (Rejected TypeError, s)
  /\ run (get_document sample_platform sample_env req) s = (Rejected TypeError, s)
  /\ run (delete_document sample_platform sample_env req) s = (Rejected TypeError, s)
  /\ run (disconnect sample_env req) s = (Rejected TypeError, s)
  /\ (exists r, fst closed = Responded r /\ status r = 200)
  /\ CONNECTED_CLIENTS (snd closed) !! "shop" = None
  /\ run (get_document sample_platform sample_env req') (snd closed)
     = (Rejected TypeError, snd closed)
  /\ run (disconnect sample_env req') (snd closed) = (Rejected TypeError, snd closed).
Proof.
  cbv zeta. do 7 (split; [vm_compute; reflexivity |]).
  split; [eexists; split; [vm_compute; reflexivity | vm_compute; reflexivity] |].
  repeat split; vm_compute; reflexivity.
Qed.

(** ** Inputs on which a claim fails as stated *)

(** C3. Two documents with the same fields and values, inserted in a
    different order, have different fingerprints. *)
Lemma fingerprint_depends_on_key_order :
  (forall k, get_property doc_ab k = get_property doc_ba k)
  /\ currentETag doc_ab <> currentETag doc_ba.
Proof.
  split.
  - intros k. unfold doc_ab, doc_ba. cbn [get_property get_own].
    destruct (String.eqb_spec k "a") as [-> | Ha]; [reflexivity |].
    destruct (String.eqb_spec k "b") as [-> | Hb]; reflexivity.
  - vm_compute. discriminate.
Qed.

(** C4. An If-Match header that is present with an empty value differs from
    the current fingerprint, and the answer is 409, not 412. And on an
    existing document that carries neither [_lastModified] nor [_createdAt],
    a request without If-Match is answered 500, not 409: the Last-Modified
    header cannot be built. *)
Lemma empty_if_match_answers_conflict :
  let req := request_for "shop" id1 (Some EmptyString) body_age in
  let out := run (put_document sample_platform sample_env req) (connected "shop" [stored_a]) in
  let req' := request_for "shop" id1 None body_age in
  let out' := run (put_document sample_platform sample_env req') (connected "shop" [stored_plain]) in
  if_match req <> None
  /\ if_match req <> currentETag stored_a
  /\ (exists r, fst out = Responded r /\ status r = 409)
  /\ if_match req' = None
  /\ (exists r, fst out' = Responded r /\ status r = 500).
Proof.
  cbv zeta. split; [discriminate |]. split; [vm_compute; discriminate |].
  split; [| split; [reflexivity |]];
    (eexists; split; [vm_compute; reflexivity | vm_compute; reflexivity]).
Qed.

(** C7. An identifier of 24 upper-case hexadecimal digits is outside the
    lower-case shape, yet the three operations take it, and it addresses
    the document whose identifier is its lower-case form. *)
Lemma upper_case_identifier_accepted :
  let req := request_for "shop" ID_UPPER None body_age in
  let s := connected "shop" [stored_upper] in
  is_lower_hex24 ID_UPPER = false
  /\ (exists r, fst (run (put_document sample_platform sample_env req) s) = Responded r
                /\ status r = 409)
  /\ (exists r, fst (run (get_document sample_platform sample_env req) s) = Responded r
                /\ status r = 200)
  /\ (exists r, fst (run (delete_document sample_platform sample_env req) s) = Responded r
                /\ status r = 204).
Proof.
  cbv zeta. split; [vm_compute; reflexivity |].
  repeat split; eexists; (split; [vm_compute; reflexivity | vm_compute; reflexivity]).
Qed.

(** C9. A negative [limit] or [skip] reaches the backend unchanged. *)
Lemma negative_limit_reaches_backend :
  let req := with_query (request_for "shop" id1 None body_age) None (Some "-5") (Some "-1") in
  let out := run (list_documents sample_platform sample_env req) (connected "shop" [stored_a]) in
  calls (snd out) = [CallFind "shop" "things" (VObj []) (VObj []) (VObj []) (-5) (-1)]
  /\ exists r, fst out = Responded r /\ status r = 200.
Proof.
  cbv zeta. split; [vm_compute; reflexivity |].
  eexists. split; [vm_compute; reflexivity | vm_compute; reflexivity].
Qed.

(** C6. A document stored without [_createdAt] does not come out of a
    conditional update as it was: the update is answered 204 and the
    document that replaces it has [_createdAt: null]. *)
Lemma update_adds_null_createdAt :
  let req := request_for "shop" id1 (currentETag stored_plain) body_age in
  let out := run (put_document sample_platform sample_env req) (connected "shop" [stored_plain]) in
  get_property stored_plain "_createdAt" = Some VUndefined
  /\ (exists r, fst out = Responded r /\ status r = 204)
  /\ documents (snd out) "shop" "things"
     = [ VObj [ ("name", VStr "a"); ("age", VNum 3); ("_id", VOid id1);
                ("_lastModified", VStr "2024-05-06T07:08:09.010Z");
                ("_createdAt", VNull) ] ].
Proof.
  cbv zeta. split; [reflexivity |].
  split; [eexists; split; vm_compute; reflexivity | vm_compute; reflexivity].
Qed.

(** A [limit] of 310 digits reaches the backend as the infinity. *)
Example infinite_limit_reaches_backend :
  let huge := String "1" (string_of_list_ascii (repeat "0"%char 309)) in
  let req := with_query (request_for "shop" id1 None body_age) None (Some huge) None in
  let out := run (list_documents sample_platform sample_env req) (connected "shop" [stored_a]) in
  calls (snd out)
  = [CallFind "shop" "things" (VObj []) (VObj []) (VObj []) (Infinity false) 0].
Proof. vm_compute. reflexivity. Qed.

(** C10. A [filter] parameter that is present and empty is not JSON, yet
    the handler answers 200 and queries the collection. *)
Lemma empty_filter_is_queried :
  let req := with_query (request_for "shop" id1 None body_age) (Some EmptyString) None None in
  let out := run (list_documents sample_platform sample_env req) (connected "shop" [stored_a]) in
  filter req = Some EmptyString
  /\ parse_filter sample_platform EmptyString = None
  /\ calls (snd out) = [CallFind "shop" "things" (VObj []) (VObj []) (VObj []) 0 0]
  /\ exists r, fst out = Responded r /\ status r = 200.
Proof.
  cbv zeta. split; [reflexivity |]. split; [vm_compute; reflexivity |].
  split; [vm_compute; reflexivity |].
  eexists. split; [vm_compute; reflexivity | vm_compute; reflexivity].
Qed.

(** ** Running the primitives *)

Lemma destructure_connection_own db s hd c :
  CONNECTED_CLIENTS s !! db = Some c ->
  destructure_connection db (s, hd)
  = (Ret (Some (client c), VStr (connectionName c)), (s, hd)).
Proof.
  intros H. unfold destructure_connection, bind, get_state. cbn [fst snd].
  rewrite H. reflexivity.
Qed.

Lemma inherited_keys_incl s : incl Object_prototype_keys (inherited_keys s).
Proof.
  unfold inherited_keys. intros k Hk.
  destruct (CONNECTED_CLIENTS s !! "__proto__"); [right; right; exact Hk | exact Hk].
Qed.

Lemma existsb_incl (f : string -> bool) l l' :
  incl l l' -> existsb f l = true -> existsb f l' = true.
Proof.
  intros Hincl H. apply existsb_exists in H as (x & Hx & Hf).
  apply existsb_exists. exists x. split; [apply Hincl, Hx | exact Hf].
Qed.

Lemma not_inherited_not_prototype db s :
  existsb (String.eqb db) (inherited_keys s) = false ->
  existsb (String.eqb db) Object_prototype_keys = false.
Proof.
  intros H. destruct (existsb (String.eqb db) Object_prototype_keys) eqn:Hp; [| reflexivity].
  rewrite (existsb_incl _ _ _ (inherited_keys_incl s) Hp) in H. discriminate.
Qed.

Lemma not_prototype_not_proto db :
  existsb (String.eqb db) Object_prototype_keys = false -> String.eqb db "__proto__" = false.
Proof.
  intros H. destruct (String.eqb db "__proto__") eqn:E; [| reflexivity].
  apply String.eqb_eq in E. subst db. discriminate H.
Qed.

Lemma destructure_connection_absent db s hd :
  CONNECTED_CLIENTS s !! db = None ->
  existsb (String.eqb db) (inherited_keys s) = false ->
  destructure_connection db (s, hd) = (Throw TypeError, (s, hd)).
Proof.
  intros H Hp. unfold destructure_connection, bind, get_state. cbn [fst snd].
  rewrite H, Hp. reflexivity.
Qed.

Lemma backend_call_ok c s hd :
  head (faults s) <> Some true ->
  backend_call c (s, hd) = (Ret tt, (record_call c s, hd)).
Proof.
  intros H. unfold backend_call. cbn [fst snd].
  destruct (faults s) as [| [] ?]; try reflexivity. exfalso. apply H. reflexivity.
Qed.

Lemma findOne_ok db coll q s hd :
  head (faults s) <> Some true ->
  findOne db coll q (s, hd)
  = (Ret (List.find (matches_id q) (documents s db coll)),
     (record_call (CallFindOne db coll q) s, hd)).
Proof.
  intros H. unfold findOne.
  rewrite (bind_ret _ _ _ _ _ (backend_call_ok _ _ _ H)). reflexivity.
Qed.

Lemma deleteOne_ok db coll q s hd :
  head (faults s) <> Some true ->
  deleteOne db coll q (s, hd)
  = let s1 := record_call (CallDeleteOne db coll q) s in
    if existsb (matches_id q) (documents s db coll)
    then (Ret 1, (with_documents s1 db coll (remove_first q (documents s db coll)), hd))
    else (Ret 0, (s1, hd)).
Proof.
  intros H. unfold deleteOne.
  rewrite (bind_ret _ _ _ _ _ (backend_call_ok _ _ _ H)).
  unfold bind, get_state, put_state, ret. cbn [fst snd].
  change (documents (record_call (CallDeleteOne db coll q) s) db coll)
    with (documents s db coll).
  destruct (existsb (matches_id q) (documents s db coll)); reflexivity.
Qed.

(** ** DeleteById *)

(** C8. DeleteById on a connected database with an identifier the driver
    takes and a reachable backend: the answer is 204 and the first document
    with that identifier is gone when one matches, 404 with the collection
    untouched when none does; the only backend call is the [deleteOne], and
    the outcome is the same whatever the If-Match header holds. *)
Theorem delete_document_unconditional P e req s c h :
  CONNECTED_CLIENTS s !! databaseName req = Some c ->
  ObjectId_new P (VStr (mongoId req)) = Some h ->
  head (faults s) <> Some true ->
  let db := databaseName req in
  let coll := collectionName req in
  let s1 := record_call (CallDeleteOne db coll (VOid h)) s in
  (forall ifm, run (delete_document P e (with_if_match req ifm)) s
               = run (delete_document P e req) s)
  /\ (existsb (matches_id (VOid h)) (documents s db coll) = true ->
      run (delete_document P e req) s
      = (Responded {| status := 204; headers := []; body := None |},
         with_documents s1 db coll (remove_first (VOid h) (documents s db coll))))
  /\ (existsb (matches_id (VOid h)) (documents s db coll) = false ->
      exists b, run (delete_document P e req) s
                = (Responded {| status := 404; headers := []; body := Some b |}, s1)).
Proof.
  intros Hc Hid Hf db coll s1.
  split; [reflexivity |].
  unfold run, delete_document.
  rewrite (bind_ret _ _ _ _ _ (destructure_connection_own _ _ _ _ Hc)).
  cbn [fst snd].
  unfold new_ObjectId, or_throw. rewrite Hid.
  unfold try_catch, bind, ret. cbn [fst snd].
  rewrite (deleteOne_ok _ _ _ _ _ Hf). cbv zeta. fold db coll s1.
  split; intros Hex; rewrite Hex; cbn.
  - reflexivity.
  - eexists. reflexivity.
Qed.

(** ** Own properties: lookup after CreateDataProperty *)

Ltac string_cases :=
  repeat match goal with
         | |- context [String.eqb ?a ?b] =>
             destruct (String.eqb_spec a b); subst; cbn [orb andb negb] in *
         | H : context [String.eqb ?a ?b] |- _ =>
             destruct (String.eqb_spec a b); subst; cbn [orb andb negb] in *
         end.

Lemma has_key_get_own k o : has_key k o = false -> get_own k o = None.
Proof.
  induction o as [| [k1 v1] o IH]; cbn; [reflexivity |].
  string_cases; [discriminate | exact IH].
Qed.

Lemma get_own_replace_own k k' v o :
  has_key k' o = true ->
  get_own k (replace_own k' v o) = if String.eqb k k' then Some v else get_own k o.
Proof.
  induction o as [| [k1 v1] o IH]; cbn; [discriminate |].
  intros H. destruct (String.eqb_spec k' k1) as [-> | Hne]; cbn.
  - destruct (String.eqb_spec k k1); reflexivity.
  - cbn in H. rewrite (IH H).
    destruct (String.eqb_spec k k1) as [-> | ?]; [| reflexivity].
    destruct (String.eqb_spec k1 k'); [congruence | reflexivity].
Qed.

Lemma get_own_insert_index i k k' v o :
  has_key k' o = false ->
  get_own k (insert_index i k' v o) = if String.eqb k k' then Some v else get_own k o.
Proof.
  induction o as [| [k1 v1] o IH]; cbn.
  - intros _. destruct (String.eqb k k'); reflexivity.
  - intros H. apply orb_false_elim in H as [H1 H2].
    destruct (array_index k1) as [j |]; [destruct (j <? i) |]; cbn;
      try (destruct (String.eqb k k'); reflexivity).
    rewrite (IH H2).
    destruct (String.eqb_spec k k1) as [-> | ?]; [| reflexivity].
    rewrite String.eqb_sym, H1. reflexivity.
Qed.

Lemma get_own_app k o1 o2 :
  get_own k (o1 ++ o2) = match get_own k o1 with Some v => Some v | None => get_own k o2 end.
Proof.
  induction o1 as [| [k1 v1] o1 IH]; cbn; [reflexivity |].
  destruct (String.eqb k k1); [reflexivity | exact IH].
Qed.

(** Reading a property back after it was set. *)
Lemma get_own_obj_set k k' v o :
  get_own k (obj_set o k' v) = if String.eqb k k' then Some v else get_own k o.
Proof.
  unfold obj_set. destruct (has_key k' o) eqn:Hk.
  - apply get_own_replace_own, Hk.
  - destruct (array_index k') as [i |].
    + apply get_own_insert_index, Hk.
    + rewrite get_own_app. cbn.
      destruct (String.eqb_spec k k') as [-> | ?].
      * rewrite (has_key_get_own _ _ Hk). reflexivity.
      * destruct (get_own k o); reflexivity.
Qed.

Lemma set_all_cons o k v l : set_all o ((k, v) :: l) = set_all (obj_set o k v) l.
Proof. reflexivity. Qed.

Lemma set_all_nil o : set_all o [] = o.
Proof. reflexivity. Qed.

Lemma has_key_In k o : has_key k o = true <-> In k (map fst o).
Proof.
  induction o as [| [k1 v1] o IH]; cbn; [split; [discriminate | tauto] |].
  rewrite orb_true_iff, IH, String.eqb_eq. split; intros [H | H]; auto.
Qed.

Lemma not_In_get_own k o : ~ In k (map fst o) -> get_own k o = None.
Proof.
  intros H. apply has_key_get_own. destruct (has_key k o) eqn:Hk; [| reflexivity].
  exfalso. apply H, has_key_In, Hk.
Qed.

Lemma keys_replace_own k v o : map fst (replace_own k v o) = map fst o.
Proof.
  induction o as [| [k1 v1] o IH]; cbn; [reflexivity |].
  destruct (String.eqb k k1); cbn; [reflexivity | f_equal; exact IH].
Qed.

Lemma keys_insert_index i k v o :
  Permutation (map fst (insert_index i k v o)) (k :: map fst o).
Proof.
  induction o as [| [k1 v1] o IH]; cbn; [reflexivity |].
  destruct (array_index k1) as [j |]; [destruct (j <? i) |]; cbn; try reflexivity.
  rewrite IH. apply perm_swap.
Qed.

Lemma NoDup_keys_obj_set o k v :
  List.NoDup (map fst o) -> List.NoDup (map fst (obj_set o k v)).
Proof.
  intros Hnd. unfold obj_set. destruct (has_key k o) eqn:Hk.
  - rewrite keys_replace_own. exact Hnd.
  - assert (Hnot : ~ In k (map fst o)).
    { intros Hin. apply has_key_In in Hin. congruence. }
    destruct (array_index k) as [i |].
    + eapply Permutation_NoDup; [symmetry; apply keys_insert_index |].
      constructor; assumption.
    + rewrite map_app. cbn. eapply Permutation_NoDup; [apply Permutation_cons_append |].
      constructor; assumption.
Qed.

Lemma NoDup_keys_set_all l o :
  List.NoDup (map fst o) -> List.NoDup (map fst (set_all o l)).
Proof.
  revert o. induction l as [| [k v] l IH]; intros o H; [exact H |].
  rewrite set_all_cons. apply IH, NoDup_keys_obj_set, H.
Qed.

(** An object built by [Object.fromEntries] has each key once. *)
Lemma NoDup_keys_fromEntries l : List.NoDup (map fst (Object_fromEntries l)).
Proof. apply NoDup_keys_set_all. constructor. Qed.

(** Spreading an object over another: every key reads the spread value when
    the spread object has it, the earlier value otherwise. *)
Lemma get_own_set_all k l o :
  List.NoDup (map fst l) ->
  get_own k (set_all o l) = merged_field k o l.
Proof.
  unfold merged_field. revert o. induction l as [| [k1 v1] l IH]; intros o Hnd; [reflexivity |].
  apply List.NoDup_cons_iff in Hnd as [Hnot Hnd]. cbn in Hnot.
  rewrite set_all_cons, (IH _ Hnd), get_own_obj_set. cbn.
  destruct (String.eqb_spec k k1) as [-> | ?]; [| reflexivity].
  rewrite (not_In_get_own _ _ Hnot). reflexivity.
Qed.

Lemma get_own_set_all_In k v l o :
  get_own k (set_all o l) = Some v -> get_own k o = Some v \/ In (k, v) l.
Proof.
  revert o. induction l as [| [k1 v1] l IH]; intros o H; [left; exact H |].
  rewrite set_all_cons in H. destruct (IH _ H) as [H1 | H1]; [| right; right; exact H1].
  rewrite get_own_obj_set in H1.
  destruct (String.eqb_spec k k1) as [-> | ?]; [| left; exact H1].
  right. left. congruence.
Qed.

(** ** Values without [undefined] pass through BSON unchanged *)

Lemma bson_object o : bson (VObj o) = VObj (bson_fields o).
Proof.
  cbn. f_equal. induction o as [| [k v] o IH]; cbn; [reflexivity |].
  f_equal. exact IH.
Qed.

Lemma get_own_bson_fields k o : get_own k (bson_fields o) = option_map bson (get_own k o).
Proof.
  induction o as [| [k1 v1] o IH]; cbn; [reflexivity |].
  destruct (String.eqb k k1); [reflexivity | exact IH].
Qed.

Lemma no_undefined_object o :
  no_undefined (VObj o) = forallb (fun kv => no_undefined (snd kv)) o.
Proof.
  cbn. induction o as [| [k v] o IH]; cbn; [reflexivity |]. rewrite IH. reflexivity.
Qed.

Lemma bson_no_undefined : forall v, no_undefined v = true -> bson v = v.
Proof.
  fix IH 1. intros [| | b | n | s | l | o | h] H; try reflexivity; try discriminate.
  - cbn in *. f_equal. induction l as [| x l IHl]; cbn in *; [reflexivity |].
    apply andb_prop in H as [H1 H2]. f_equal; [apply IH, H1 | apply IHl, H2].
  - rewrite bson_object. rewrite no_undefined_object in H. f_equal.
    induction o as [| [k x] o IHo]; cbn in *; [reflexivity |].
    apply andb_prop in H as [H1 H2]. f_equal; [f_equal; apply IH, H1 | apply IHo, H2].
Qed.

Lemma no_undefined_In (k : string) v (o : object) :
  forallb (fun kv => no_undefined (snd kv)) o = true -> In (k, v) o -> no_undefined v = true.
Proof.
  intros H Hin. rewrite forallb_forall in H. exact (H _ Hin).
Qed.

Lemma get_own_In k v o : get_own k o = Some v -> In (k, v) o.
Proof.
  induction o as [| [k1 v1] o IH]; cbn; [discriminate |].
  destruct (String.eqb_spec k k1) as [-> | ?]; intros H; [left; congruence | right; auto].
Qed.

Lemma no_undefined_index_entries l i :
  forallb no_undefined l = true ->
  forallb (fun kv => no_undefined (snd kv)) (index_entries i l) = true.
Proof.
  revert i. induction l as [| x l IH]; intros i H; cbn in *; [reflexivity |].
  apply andb_prop in H as [H1 H2]. rewrite H1, (IH _ H2). reflexivity.
Qed.

(** The entries of a value without [undefined] hold none. *)
Lemma no_undefined_entries v entries :
  no_undefined v = true -> Object_entries v = Some entries ->
  forallb (fun kv => no_undefined (snd kv)) entries = true.
Proof.
  intros H He. destruct v; cbn in He; try discriminate;
    injection He as <-; try reflexivity.
  - apply no_undefined_index_entries. unfold char_entries.
    induction (list_ascii_of_string s); cbn; [reflexivity | assumption].
  - apply no_undefined_index_entries. exact H.
  - rewrite <- no_undefined_object. exact H.
Qed.

(** Hence the fields [removeComputedProperties] keeps hold none either. *)
Lemma no_undefined_stripped v stripped k x :
  no_undefined v = true -> removeComputedProperties v = Some stripped ->
  get_own k stripped = Some x -> no_undefined x = true.
Proof.
  unfold removeComputedProperties, Object_fromEntries. intros H Hs Hk.
  destruct (Object_entries v) as [entries |] eqn:He; [| discriminate].
  injection Hs as <-.
  destruct (get_own_set_all_In _ _ _ _ Hk) as [Hk' | Hin]; [discriminate |].
  apply filter_In in Hin as [Hin _].
  exact (no_undefined_In _ _ _ (no_undefined_entries _ _ H He) Hin).
Qed.

(** ** The PUT handlers up to the lookup *)

Lemma is_hex24_not_empty s : is_hex24 s = true -> is_empty s = false.
Proof. destruct s; [discriminate | reflexivity]. Qed.

Lemma put_document_found P e req s c doc :
  PlatformLaws P ->
  CONNECTED_CLIENTS s !! databaseName req = Some c ->
  is_hex24 (mongoId req) = true ->
  head (faults s) <> Some true ->
  let q := VOid (toLowerCase (mongoId req)) in
  List.find (matches_id q) (documents s (databaseName req) (collectionName req)) = Some doc ->
  run (put_document P e req) s
  = run (try_catch (update_existing P e req q doc) (on_error e req c))
        (record_call (CallFindOne (databaseName req) (collectionName req) q) s).
Proof.
  intros HP Hc Hid Hf q Hfind.
  destruct (oid_hex P HP _ Hid) as [Hnew _].
  unfold run, put_document.
  rewrite (bind_ret _ _ _ _ _ (destructure_connection_own _ _ _ _ Hc)).
  cbn [fst snd].
  unfold new_ObjectId, or_throw. rewrite Hnew, (is_hex24_not_empty _ Hid).
  cbv beta iota delta [try_catch bind ret].
  rewrite (findOne_ok _ _ _ _ _ Hf). fold q. rewrite Hfind. reflexivity.
Qed.

Lemma hex24_truthy s : is_hex24 s = true -> truthy (VStr s) = true.
Proof. intros H. cbn. rewrite (is_hex24_not_empty _ H). reflexivity. Qed.

Lemma put_collection_found P e req s c doc :
  PlatformLaws P ->
  CONNECTED_CLIENTS s !! databaseName req = Some c ->
  get_property (req_body req) "_id" = Some (VStr (mongoId req)) ->
  is_hex24 (mongoId req) = true ->
  head (faults s) <> Some true ->
  let q := VOid (toLowerCase (mongoId req)) in
  List.find (matches_id q) (documents s (databaseName req) (collectionName req)) = Some doc ->
  run (put_collection P e req) s
  = run (try_catch (update_existing P e req q doc) (on_error e req c))
        (record_call (CallFindOne (databaseName req) (collectionName req) q) s).
Proof.
  intros HP Hc Hbody Hid Hf q Hfind.
  destruct (oid_hex P HP _ Hid) as [Hnew _].
  unfold run, put_collection.
  rewrite (bind_ret _ _ _ _ _ (destructure_connection_own _ _ _ _ Hc)).
  cbn [fst snd].
  rewrite Hbody. 
  cbv beta iota delta [try_catch bind ret or_throw new_ObjectId].
  rewrite (hex24_truthy _ Hid), Hnew.
  rewrite (findOne_ok _ _ _ _ _ Hf). fold q. rewrite Hfind. reflexivity.
Qed.

Lemma value_eqb_oid h x : value_eqb (VOid h) x = true -> x = VOid h.
Proof.
  destruct x; cbn; try discriminate.
  intros H. apply String.eqb_eq in H. congruence.
Qed.

Lemma bson_oid x h : bson x = VOid h -> x = VOid h.
Proof. destruct x; cbn; congruence. Qed.

(** A document selected by an ObjectId is an object holding it as [_id]. *)
Lemma matches_id_oid h d :
  matches_id (VOid h) d = true ->
  exists o, d = VObj o /\ get_own "_id" o = Some (VOid h).
Proof.
  unfold matches_id. intros H. apply value_eqb_oid, bson_oid in H.
  destruct d; cbn in H; try discriminate.
  exists o. split; [reflexivity |].
  destruct (get_own "_id" o); cbn in H; [congruence | discriminate].
Qed.

Lemma currentETag_object o :
  currentETag (VObj o)
  = Some (SHA256.digest_base64
            (serialize (VObj (Object_fromEntries (List.filter non_computed o))))).
Proof. reflexivity. Qed.

(** ** The update branch when the precondition does not hold *)

Lemma new_Date_ok P x lm s :
  Date_toISOString P x = Some lm -> new_Date_toISOString P x s = (Ret lm, s).
Proof. intros H. unfold new_Date_toISOString, or_throw. rewrite H. reflexivity. Qed.

Lemma last_modified_or_created_object o :
  last_modified_or_created (VObj o)
  = js_or (default VUndefined (get_own "_lastModified" o))
          (default VUndefined (get_own "_createdAt" o)).
Proof. reflexivity. Qed.

(** One [let*] whose first part returns. *)
Ltac step := erewrite bind_ret by (first [reflexivity | eassumption]).

Lemma update_existing_rejected P e req q o s hd lm :
  Date_toISOString P (last_modified_or_created (VObj o)) = Some lm ->
  if_match req <> currentETag (VObj o) ->
  exists etag b,
    currentETag (VObj o) = Some etag
    /\ update_existing P e req q (VObj o) (s, hd)
       = (Sent {| status := if header_missing (if_match req) then 409 else 412;
                  headers := set_header "Last-Modified" lm (set_header "ETag" etag hd);
                  body := Some b |},
          (s, set_header "Last-Modified" lm (set_header "ETag" etag hd))).
Proof.
  intros Hdate Hne. rewrite currentETag_object in *.
  rewrite last_modified_or_created_object in Hdate.
  apply new_Date_ok with (s := (s, set_header "ETag"
     (SHA256.digest_base64 (serialize (VObj (Object_fromEntries (List.filter non_computed o))))) hd))
    in Hdate.
  eexists. unfold update_existing. do 4 step.
  destruct (if_match req) as [[| c0 s0] |] eqn:Him; cbn [header_missing].
  - eexists. split; [reflexivity |]. do 3 step. reflexivity.
  - assert (Hneq : negb (String.eqb (String c0 s0)
        (SHA256.digest_base64 (serialize (VObj (Object_fromEntries (List.filter non_computed o))))))
        = true).
    { apply negb_true_iff, String.eqb_neq. congruence. }
    rewrite Hneq. eexists. split; [reflexivity |]. do 3 step. reflexivity.
  - eexists. split; [reflexivity |]. do 3 step. reflexivity.
Qed.

(** ** Claims on the update branch *)

(** C4, as the handlers have it. For an Upsert on an existing document whose
    stored timestamp the Date parser reads: a missing or empty If-Match is
    answered 409, a non-empty one that differs from the current fingerprint
    412; either response carries the fingerprint of the stored document's
    non-computed fields as ETag, and the only backend call is the lookup:
    collections and registry are what they were. Both PUT handlers. *)
Theorem upsert_precondition_rejected P e req s c doc lm :
  PlatformLaws P ->
  CONNECTED_CLIENTS s !! databaseName req = Some c ->
  is_hex24 (mongoId req) = true ->
  head (faults s) <> Some true ->
  let q := VOid (toLowerCase (mongoId req)) in
  List.find (matches_id q) (documents s (databaseName req) (collectionName req)) = Some doc ->
  Date_toISOString P (last_modified_or_created doc) = Some lm ->
  if_match req <> currentETag doc ->
  let code := if header_missing (if_match req) then 409 else 412 in
  let s1 := record_call (CallFindOne (databaseName req) (collectionName req) q) s in
  (exists r, run (put_document P e req) s = (Responded r, s1)
             /\ status r = code
             /\ get_header "ETag" r = currentETag doc
             /\ get_header "Last-Modified" r = Some lm)
  /\ (get_property (req_body req) "_id" = Some (VStr (mongoId req)) ->
      exists r, run (put_collection P e req) s = (Responded r, s1)
                /\ status r = code
                /\ get_header "ETag" r = currentETag doc
                /\ get_header "Last-Modified" r = Some lm)
  /\ collections s1 = collections s
  /\ CONNECTED_CLIENTS s1 = CONNECTED_CLIENTS s
  /\ calls s1 = calls s ++ [CallFindOne (databaseName req) (collectionName req) q].
Proof.
  intros HP Hc Hid Hf q Hfind Hdate Hne code s1.
  destruct (matches_id_oid _ _ (proj2 (find_some _ _ Hfind))) as (o & -> & _).
  destruct (update_existing_rejected P e req q o s1 [] lm Hdate Hne)
    as (etag & b & Hetag & Hrun).
  assert (Hout : run (try_catch (update_existing P e req q (VObj o)) (on_error e req c)) s1
                 = (Responded {| status := code;
                                 headers := [("ETag", etag); ("Last-Modified", lm)];
                                 body := Some b |}, s1)).
  { unfold run, try_catch. rewrite Hrun. reflexivity. }
  split; [| split; [| repeat split]].
  - eexists. split.
    + rewrite (put_document_found P e req s c (VObj o) HP Hc Hid Hf Hfind). exact Hout.
    + rewrite Hetag. repeat split.
  - intros Hbody. eexists. split.
    + rewrite (put_collection_found P e req s c (VObj o) HP Hc Hbody Hid Hf Hfind). exact Hout.
    + rewrite Hetag. repeat split.
Qed.

(** ** The update branch when the precondition holds *)

Lemma replaceOne_ok db coll q doc s hd :
  head (faults s) <> Some true ->
  replaceOne db coll q doc (s, hd)
  = (Ret tt,
     (with_documents (record_call (CallReplaceOne db coll q (VObj doc)) s) db coll
        (replace_first q (bson (VObj doc)) (documents s db coll)), hd)).
Proof.
  intros H. unfold replaceOne.
  rewrite (bind_ret _ _ _ _ _ (backend_call_ok _ _ _ H)). reflexivity.
Qed.

Lemma updated_document_lastModified e q o request :
  get_own "_lastModified" (updated_document e q o request) = Some (VStr (now e)).
Proof.
  unfold updated_document. rewrite !set_all_cons, set_all_nil, !get_own_obj_set.
  reflexivity.
Qed.

(** What the update branch does on a matching If-Match: one [replaceOne]
    with the merged document, then 204 with the digest of the stripped
    request body as ETag. *)
Lemma update_existing_success P e req q o s hd request :
  if_match req = currentETag (VObj o) ->
  removeComputedProperties (req_body req) = Some request ->
  head (faults s) <> Some true ->
  Date_toISOString P (VStr (now e)) = Some (now e) ->
  let doc' := updated_document e q o request in
  let h' := set_header "Last-Modified" (now e)
              (set_header "ETag" (SHA256.digest_base64 (serialize (VObj request))) hd) in
  update_existing P e req q (VObj o) (s, hd)
  = (Sent {| status := 204; headers := h'; body := None |},
     (with_documents
        (record_call (CallReplaceOne (databaseName req) (collectionName req) q (VObj doc')) s)
        (databaseName req) (collectionName req)
        (replace_first q (bson (VObj doc'))
           (documents s (databaseName req) (collectionName req))), h')).
Proof.
  intros Hm Hb Hf Hdate doc' h'. rewrite currentETag_object in Hm.
  unfold update_existing. do 4 step. rewrite Hm.
  pose proof (digest_base64_not_empty
    (serialize (VObj (Object_fromEntries (List.filter non_computed o))))) as Hne.
  destruct (SHA256.digest_base64 _) as [| c0 t0] eqn:Hd in Hne |- * at 1; [discriminate |].
  rewrite String.eqb_refl. cbn [negb].
  unfold strip. rewrite Hb. step.
  fold (updated_document e q o request). fold doc'.
  rewrite (bind_ret _ _ _ _ _ (replaceOne_ok _ _ _ _ _ _ Hf)).
  step.
  unfold doc' at 1. rewrite updated_document_lastModified. cbn [default].
  rewrite (bind_ret _ _ _ _ _ (new_Date_ok _ _ _ _ Hdate)).
  do 2 step. reflexivity.
Qed.

Lemma documents_with_documents s db coll docs :
  documents (with_documents s db coll docs) db coll = docs.
Proof. unfold documents, with_documents. cbn. rewrite lookup_insert_eq. reflexivity. Qed.

Lemma find_replace_first q d' docs d :
  List.find (matches_id q) docs = Some d ->
  matches_id q d' = true ->
  List.find (matches_id q) (replace_first q d' docs) = Some d'.
Proof.
  intros Hfind Hm. induction docs as [| x docs IH]; cbn in *; [discriminate |].
  destruct (matches_id q x) eqn:Hx; cbn.
  - rewrite Hm. reflexivity.
  - rewrite Hx. exact (IH Hfind).
Qed.

Lemma non_computed_key k k' :
  startsWith_underscore k = false -> startsWith_underscore k' = true ->
  String.eqb k k' = false.
Proof. intros H H'. apply String.eqb_neq. intros ->. congruence. Qed.

Lemma removeComputedProperties_NoDup v stripped :
  removeComputedProperties v = Some stripped -> List.NoDup (map fst stripped).
Proof.
  unfold removeComputedProperties. destruct (Object_entries v); [| discriminate].
  intros H. injection H as <-. apply NoDup_keys_fromEntries.
Qed.

(** The fields of the replacement document, read key by key. *)
Lemma get_own_filter_non_computed k (o : object) :
  startsWith_underscore k = false ->
  get_own k (List.filter non_computed o) = get_own k o.
Proof.
  intros Hk. induction o as [| [k' v] o IH]; [reflexivity |].
  cbn [List.filter get_own]. unfold non_computed at 1. cbn [fst].
  destruct (startsWith_underscore k') eqn:Hk'; cbn [negb get_own].
  - rewrite (non_computed_key k k' Hk Hk'). exact IH.
  - destruct (String.eqb k k'); [reflexivity | exact IH].
Qed.

Lemma NoDup_keys_filter (p : string * value -> bool) (o : object) :
  List.NoDup (map fst o) -> List.NoDup (map fst (List.filter p o)).
Proof.
  induction o as [| [k v] o IH]; [intros; constructor |].
  cbn [map fst List.filter]. intros Hnd. inversion Hnd as [| ? ? Hnotin Hnd']; subst.
  destruct (p (k, v)); [| exact (IH Hnd')].
  cbn [map fst]. constructor; [| exact (IH Hnd')].
  intros Hin. apply Hnotin. apply in_map_iff in Hin as [[k1 v1] [Hk Hin]].
  apply filter_In in Hin as [Hin _]. cbn in Hk. subst k1.
  apply in_map_iff. exists (k, v1). split; [reflexivity | exact Hin].
Qed.

Lemma get_own_stripped_computed v stripped k :
  removeComputedProperties v = Some stripped ->
  startsWith_underscore k = true -> get_own k stripped = None.
Proof.
  unfold removeComputedProperties. intros H Hk.
  destruct (Object_entries v) as [entries |]; [| discriminate].
  injection H as <-. unfold Object_fromEntries.
  destruct (get_own k (set_all [] (List.filter non_computed entries))) as [x |] eqn:Hg;
    [| reflexivity].
  apply get_own_set_all_In in Hg as [Hg | Hin]; [discriminate |].
  apply filter_In in Hin as [_ Hnc]. unfold non_computed in Hnc. cbn in Hnc.
  rewrite Hk in Hnc. discriminate.
Qed.

Lemma get_own_stripped_object o stripped k :
  removeComputedProperties (VObj o) = Some stripped ->
  List.NoDup (map fst o) ->
  startsWith_underscore k = false ->
  get_own k stripped = get_own k o.
Proof.
  intros H Hnd Hk. cbn in H. injection H as <-. unfold Object_fromEntries.
  rewrite (get_own_set_all k _ [] (NoDup_keys_filter _ _ Hnd)).
  unfold merged_field. rewrite (get_own_filter_non_computed _ _ Hk).
  destruct (get_own k o); reflexivity.
Qed.

Lemma updated_document_fields e q o stored request k :
  removeComputedProperties (VObj o) = Some stored ->
  List.NoDup (map fst request) ->
  get_own k (updated_document e q o request)
  = if String.eqb k "_createdAt" then Some (default VUndefined (get_own "_createdAt" o))
    else if String.eqb k "_lastModified" then Some (VStr (now e))
    else if String.eqb k "_id" then Some q
    else merged_field k stored request.
Proof.
  intros Hs Hnd. injection Hs as <-. unfold updated_document.
  rewrite !set_all_cons, set_all_nil, !get_own_obj_set.
  destruct (String.eqb k "_createdAt"); [reflexivity |].
  destruct (String.eqb k "_lastModified"); [reflexivity |].
  destruct (String.eqb k "_id"); [reflexivity |].
  rewrite (get_own_set_all _ _ _ Hnd).
  unfold merged_field. destruct (get_own k request); [reflexivity |].
  rewrite (get_own_set_all _ _ _ (NoDup_keys_fromEntries _)).
  unfold merged_field. cbn [get_own].
  destruct (get_own k (Object_fromEntries (List.filter non_computed o))); reflexivity.
Qed.

(** A conditional update on a matching If-Match and a reachable backend:
    the answer is 204 and the document is replaced by one with the same
    [_id], the stored [_createdAt] (null when the document had none),
    [_lastModified] set to the time of the request, no other key that
    starts with an underscore, and whose every other key reads the
    request's value when the stripped body has the key and the stored value
    otherwise. *)
Lemma conditional_update_forward P e req s c o request :
  PlatformLaws P ->
  CONNECTED_CLIENTS s !! databaseName req = Some c ->
  is_hex24 (mongoId req) = true ->
  head (faults s) <> Some true ->
  head (tail (faults s)) <> Some true ->
  is_iso_timestamp (now e) = true ->
  let db := databaseName req in
  let coll := collectionName req in
  let q := VOid (toLowerCase (mongoId req)) in
  List.find (matches_id q) (documents s db coll) = Some (VObj o) ->
  no_undefined (VObj o) = true ->
  if_match req = currentETag (VObj o) ->
  removeComputedProperties (req_body req) = Some request ->
  no_undefined (req_body req) = true ->
  exists r s' o' stored,
    run (put_document P e req) s = (Responded r, s')
    /\ (get_property (req_body req) "_id" = Some (VStr (mongoId req)) ->
        run (put_collection P e req) s = (Responded r, s'))
    /\ status r = 204
    /\ documents s' db coll = replace_first q (VObj o') (documents s db coll)
    /\ List.find (matches_id q) (documents s' db coll) = Some (VObj o')
    /\ get_own "_id" o' = get_own "_id" o
    /\ get_own "_createdAt" o' = Some (default VNull (get_own "_createdAt" o))
    /\ get_own "_lastModified" o' = Some (VStr (now e))
    /\ removeComputedProperties (VObj o) = Some stored
    /\ (forall k, startsWith_underscore k = true ->
                  k <> "_id" -> k <> "_createdAt" -> k <> "_lastModified" ->
                  get_own k o' = None)
    /\ forall k, startsWith_underscore k = false ->
                 get_own k o' = merged_field k stored request.
Proof.
  intros HP Hc Hid Hf1 Hf2 Hiso db coll q Hfind Ho Hm Hb Hbody.
  pose proof (date_iso P HP _ Hiso) as Hdate.
  pose proof (removeComputedProperties_NoDup _ _ Hb) as Hnd.
  set (s1 := record_call (CallFindOne db coll q) s).
  assert (Hf : head (faults s1) <> Some true) by exact Hf2.
  pose proof (update_existing_success P e req q o s1 [] request Hm Hb Hf Hdate) as Hrun.
  cbv zeta in Hrun.
  set (doc' := updated_document e q o request) in *.
  destruct (matches_id_oid _ _ (proj2 (find_some _ _ Hfind))) as (o0 & Ho0 & Hoid).
  injection Ho0 as <-.
  assert (Hfields : forall k, get_own k (bson_fields doc')
    = option_map bson
        (if String.eqb k "_createdAt" then Some (default VUndefined (get_own "_createdAt" o))
         else if String.eqb k "_lastModified" then Some (VStr (now e))
         else if String.eqb k "_id" then Some q
         else merged_field k (Object_fromEntries (List.filter non_computed o)) request)).
  { intros k. rewrite get_own_bson_fields. unfold doc'.
    rewrite (updated_document_fields e q o _ request k eq_refl Hnd). reflexivity. }
  eexists _, _, (bson_fields doc'), _.
  split; [| split; [| split; [| split; [| split; [| split; [| split; [| split;
    [| split; [| split]]]]]]]]].
  - rewrite (put_document_found P e req s c (VObj o) HP Hc Hid Hf1 Hfind).
    fold db coll q s1. unfold run, try_catch. rewrite Hrun. reflexivity.
  - intros Hid_body.
    rewrite (put_collection_found P e req s c (VObj o) HP Hc Hid_body Hid Hf1 Hfind).
    fold db coll q s1. unfold run, try_catch. rewrite Hrun. reflexivity.
  - reflexivity.
  - rewrite documents_with_documents, bson_object. reflexivity.
  - rewrite documents_with_documents, bson_object.
    apply (find_replace_first _ _ _ _ Hfind).
    unfold matches_id, doc_id. rewrite (Hfields "_id"). cbn. apply String.eqb_refl.
  - rewrite (Hfields "_id"), Hoid. reflexivity.
  - rewrite (Hfields "_createdAt").
    change (String.eqb "_createdAt" "_createdAt") with true. cbv iota.
    destruct (get_own "_createdAt" o) as [created |] eqn:Hcreated; [| reflexivity].
    change (default VUndefined (Some created)) with created.
    change (default VNull (Some created)) with created. cbn [option_map].
    rewrite no_undefined_object in Ho.
    rewrite (bson_no_undefined _ (no_undefined_In _ _ _ Ho (get_own_In _ _ _ Hcreated))).
    reflexivity.
  - rewrite (Hfields "_lastModified"). reflexivity.
  - reflexivity.
  - intros k Hk Hn1 Hn2 Hn3. rewrite (Hfields k).
    apply String.eqb_neq in Hn1, Hn2, Hn3. rewrite Hn1, Hn2, Hn3.
    unfold merged_field.
    rewrite (get_own_stripped_computed _ _ k Hb Hk),
      (get_own_stripped_computed (VObj o) _ k eq_refl Hk).
    reflexivity.
  - intros k Hk. rewrite (Hfields k).
    rewrite (non_computed_key k "_createdAt" Hk eq_refl),
      (non_computed_key k "_lastModified" Hk eq_refl), (non_computed_key k "_id" Hk eq_refl).
    unfold merged_field. destruct (get_own k request) as [v |] eqn:Hv; cbn.
    + rewrite (bson_no_undefined _ (no_undefined_stripped _ _ _ _ Hbody Hb Hv)). reflexivity.
    + destruct (get_own k (Object_fromEntries (List.filter non_computed o))) as [v |] eqn:Hv';
        cbn; [| reflexivity].
      rewrite (bson_no_undefined _ (no_undefined_stripped (VObj o) _ _ _ Ho eq_refl Hv')).
      reflexivity.
Qed.

(** ** Claims on the fingerprint *)

(** C3, as the code has it. The fingerprint is the digest of the
    non-computed entries in key order: two documents whose non-computed
    entries are the same keys with the same values in the same order have the
    same fingerprint, whatever computed fields they carry and wherever these
    stand. *)
Theorem fingerprint_of_ordered_fields (o1 o2 : object) :
  List.filter non_computed o1 = List.filter non_computed o2 ->
  exists etag, currentETag (VObj o1) = Some etag /\ currentETag (VObj o2) = Some etag.
Proof.
  intros H. rewrite !currentETag_object, H. eexists. split; reflexivity.
Qed.

(** ** Claims on List *)

(** C10, as the code has it. On a connected database, a non-empty [filter]
    that does not decode or does not parse is answered 500, and the state is
    what it was: no query reaches the backend. *)
Theorem list_rejects_unparsable_filter P e req s c text :
  CONNECTED_CLIENTS s !! databaseName req = Some c ->
  filter req = Some text ->
  text <> EmptyString ->
  parse_filter P text = None ->
  exists b,
    run (list_documents P e req) s
    = (Responded {| status := 500; headers := []; body := Some b |}, s).
Proof.
  intros Hc Hfilter Hne Hparse.
  unfold run, list_documents.
  rewrite (bind_ret _ _ _ _ _ (destructure_connection_own _ _ _ _ Hc)).
  rewrite Hfilter. destruct text as [| c0 t0]; [congruence |].
  unfold parse_filter in Hparse.
  cbv beta iota delta [try_catch bind or_throw ret throw].
  destruct (decodeURIComponent P (String c0 t0)) as [decoded |].
  - rewrite Hparse. eexists. reflexivity.
  - eexists. reflexivity.
Qed.

(** *** Calls issued by a computation *)

Lemma keeps_calls_ret {A} (a : A) : keeps_calls (ret a).
Proof. intros st. reflexivity. Qed.

Lemma keeps_calls_throw {A} ex : keeps_calls (@throw A ex).
Proof. intros st. reflexivity. Qed.

Lemma keeps_calls_send {A} code b : keeps_calls (@send A code b).
Proof. intros st. reflexivity. Qed.

Lemma keeps_calls_or_throw {A} ex (o : option A) : keeps_calls (or_throw ex o).
Proof. destruct o; intros st; reflexivity. Qed.

Lemma keeps_calls_get_state : keeps_calls get_state.
Proof. intros st. reflexivity. Qed.

Lemma keeps_calls_bind {A B} (m : M A) (k : A -> M B) :
  keeps_calls m -> (forall a, keeps_calls (k a)) -> keeps_calls (bind m k).
Proof.
  intros Hm Hk st. unfold bind. specialize (Hm st).
  destruct (m st) as [[a | ex | r] st1]; cbn in *; try exact Hm.
  rewrite (Hk a st1). exact Hm.
Qed.

Lemma keeps_calls_destructure db : keeps_calls (destructure_connection db).
Proof.
  unfold destructure_connection. apply keeps_calls_bind; [apply keeps_calls_get_state |].
  intros s0. destruct (CONNECTED_CLIENTS s0 !! db);
    [apply keeps_calls_ret | destruct (existsb _ _); [apply keeps_calls_ret | apply keeps_calls_throw]].
Qed.

Lemma queries_once_keeps req {A} (m : M A) : keeps_calls m -> queries_once req m.
Proof. intros H st. left. apply H. Qed.

Lemma queries_once_bind req {A B} (m : M A) (k : A -> M B) :
  keeps_calls m -> (forall a, queries_once req (k a)) -> queries_once req (bind m k).
Proof.
  intros Hm Hk st. unfold bind. specialize (Hm st).
  destruct (m st) as [[a | ex | r] st1]; cbn in *; try (left; exact Hm).
  rewrite <- Hm. apply Hk.
Qed.

Lemma queries_once_call req {B} query projection options (k : unit -> M B) :
  (forall a, keeps_calls (k a)) ->
  queries_once req
    (bind (backend_call (CallFind (databaseName req) (collectionName req) query projection
                           options (parseInt_or_0 (limit req)) (parseInt_or_0 (skip req)))) k).
Proof.
  intros Hk st. right. exists query, projection, options.
  unfold bind, backend_call.
  destruct (faults (fst st)) as [| [] ?]; cbn; try reflexivity; rewrite (Hk tt); reflexivity.
Qed.

Lemma queries_once_try_catch req {A} (m : M A) (h : exn -> M A) :
  queries_once req m -> (forall ex, keeps_calls (h ex)) -> queries_once req (try_catch m h).
Proof.
  intros Hm Hh st. unfold try_catch. specialize (Hm st).
  destruct (m st) as [[a | ex | r] st1]; cbn in *; try exact Hm.
  rewrite (Hh ex st1). exact Hm.
Qed.

Lemma list_documents_queries_once P e req : queries_once req (list_documents P e req).
Proof.
  unfold list_documents.
  apply queries_once_bind; [apply keeps_calls_destructure |]. intros conn.
  apply queries_once_try_catch; [| intros ex; apply keeps_calls_send].
  apply queries_once_bind.
  { destruct (filter req) as [[| c0 t0] |]; try apply keeps_calls_ret.
    apply keeps_calls_bind; [apply keeps_calls_or_throw |].
    intros decoded. apply keeps_calls_or_throw. }
  intros config. destruct (fst conn); [| apply queries_once_keeps, keeps_calls_send].
  apply queries_once_bind; [apply keeps_calls_or_throw |]. intros options.
  destruct (negb (assignable options)); [apply queries_once_keeps, keeps_calls_throw |].
  apply queries_once_bind; [apply keeps_calls_or_throw |]. intros query.
  apply queries_once_bind; [apply keeps_calls_or_throw |]. intros projection.
  apply queries_once_call. intros _.
  apply keeps_calls_bind; [apply keeps_calls_get_state |]. intros s0.
  apply keeps_calls_bind; [apply keeps_calls_or_throw |]. intros results.
  apply keeps_calls_send.
Qed.

(** *** What [parseInt(text, 10) || 0] gives *)

Lemma digit_of_range c d : digit_of c = Some d -> 48 <= code c <= 57.
Proof.
  unfold digit_of, code.
  destruct ((48 <=? Z.of_N (N_of_ascii c)) && (Z.of_N (N_of_ascii c) <=? 57)) eqn:H;
    [| discriminate].
  intros _. apply andb_prop in H as [H1 H2]. lia.
Qed.

Lemma ws3_low a b c : a < 0xE1 -> ws3 a b c = false.
Proof.
  intros H. unfold ws3.
  replace (a =? 0xE1) with false by (symmetry; apply Z.eqb_neq; lia).
  replace (a =? 0xE2) with false by (symmetry; apply Z.eqb_neq; lia).
  replace (a =? 0xE3) with false by (symmetry; apply Z.eqb_neq; lia).
  replace (a =? 0xEF) with false by (symmetry; apply Z.eqb_neq; lia).
  reflexivity.
Qed.

(** A text that starts with a printable ASCII character other than the
    space has no leading white space. *)
Lemma skip_ws_printable c t : 33 <= code c <= 126 -> skip_ws (String c t) = String c t.
Proof.
  intros H. cbn [skip_ws].
  replace ((9 <=? code c) && (code c <=? 13)) with false
    by (symmetry; apply andb_false_iff; right; apply Z.leb_gt; lia).
  replace (code c =? 32) with false by (symmetry; apply Z.eqb_neq; lia).
  replace (code c =? 0xC2) with false by (symmetry; apply Z.eqb_neq; lia).
  cbn [orb andb]. destruct t as [| c2 [| c3 t]]; try reflexivity.
  rewrite ws3_low by lia. reflexivity.
Qed.

Lemma digit_prefix_digits d a n :
  digits_value a d = Some n -> digit_prefix (Some a) d = Some n.
Proof.
  revert a. induction d as [| c d IH]; intros a H; cbn in *; [exact H |].
  destruct (digit_of c) as [x |]; [| discriminate]. cbn. apply IH, H.
Qed.

Lemma digit_prefix_start c d n :
  digits_value 0 (String c d) = Some n -> digit_prefix None (String c d) = Some n.
Proof.
  cbn. destruct (digit_of c) as [x |]; [| discriminate]. cbn. apply digit_prefix_digits.
Qed.

Lemma digit_not_sign c d k : digit_of c = Some d -> code k < 48 -> Ascii.eqb c k = false.
Proof.
  intros H Hk. apply Ascii.eqb_neq. intros ->. apply digit_of_range in H. lia.
Qed.

Lemma digits_value_le a d n : digits_value a d = Some n -> 0 <= a -> a <= n.
Proof.
  revert a. induction d as [| c d IH]; intros a H Ha; cbn in H.
  - injection H as <-. lia.
  - destruct (digit_of c) as [x |] eqn:Hx; [| discriminate].
    assert (0 <= x).
    { unfold digit_of in Hx.
      destruct ((48 <=? Z.of_N (N_of_ascii c)) && (Z.of_N (N_of_ascii c) <=? 57)) eqn:Hr;
        [| discriminate].
      injection Hx as <-. apply andb_prop in Hr as [H1 _]. lia. }
    specialize (IH _ H). lia.
Qed.

(** Up to 53 bits the double is the integer. *)
Lemma nearest_double_exact n : 0 <= n < 2 ^ 53 -> nearest_double n = Finite n.
Proof.
  intros [H0 H]. unfold nearest_double. cbv zeta.
  assert (Hb : Z.log2 n + 1 <= 53).
  { destruct (Z.eq_dec n 0) as [-> | Hn]; [cbn; lia |].
    assert (Z.log2 n < 53) by (apply Z.log2_lt_pow2; lia). lia. }
  apply Z.leb_le in Hb. rewrite Hb. reflexivity.
Qed.

(** From [2 ^ 1024] on there is no double. *)
Lemma nearest_double_overflow n : 2 ^ 1024 <= n -> nearest_double n = Infinity false.
Proof.
  intros H. unfold nearest_double. cbv zeta.
  assert (Hpos : 0 < n) by (pose proof (Z.pow_pos_nonneg 2 1024); lia).
  pose proof (Z.log2_spec n Hpos) as [Hlo Hhi].
  assert (Hlog : 1024 <= Z.log2 n).
  { apply Z.log2_le_pow2; [exact Hpos | exact H]. }
  set (bits := Z.log2 n + 1) in *.
  replace (bits <=? 53) with false by (symmetry; apply Z.leb_gt; lia).
  set (ulp := 2 ^ (bits - 53)).
  assert (Hulp : 0 < ulp) by (apply Z.pow_pos_nonneg; lia).
  assert (Hsplit : 2 ^ Z.log2 n = 2 ^ 52 * ulp).
  { unfold ulp. rewrite <- Z.pow_add_r by lia. f_equal. lia. }
  assert (Hq : 2 ^ 52 <= n / ulp).
  { apply Z.div_le_lower_bound; [exact Hulp |]. rewrite Z.mul_comm, <- Hsplit. exact Hlo. }
  assert (Hbig : 2 ^ 1024 <= 2 ^ Z.log2 n) by (apply Z.pow_le_mono_r; lia).
  assert (Hge : forall q', n / ulp <= q' -> (2 ^ 1024 <=? q' * ulp) = true).
  { intros q' Hq'. apply Z.leb_le. rewrite Hsplit in Hbig.
    transitivity (2 ^ 52 * ulp); [exact Hbig |].
    apply Z.mul_le_mono_nonneg_r; lia. }
  destruct ((ulp <? 2 * (n mod ulp)) || ((2 * (n mod ulp) =? ulp) && Z.odd (n / ulp)));
    rewrite Hge by lia; reflexivity.
Qed.

Lemma nearest_double_not_NaN n : nearest_double n <> NaN.
Proof.
  unfold nearest_double. cbv zeta.
  destruct (Z.log2 n + 1 <=? 53); [discriminate |].
  match goal with |- (if ?b then _ else _) <> _ => destruct b end; discriminate.
Qed.

Lemma number_of_integer_not_NaN n : number_of_integer n <> NaN.
Proof.
  unfold number_of_integer. destruct (n <? 0); [| apply nearest_double_not_NaN].
  pose proof (nearest_double_not_NaN (- n)) as H.
  destruct (nearest_double (- n)); [contradiction | discriminate | discriminate].
Qed.

Lemma number_of_integer_opp n :
  0 <= n ->
  number_of_integer (- n)
  = match nearest_double n with
    | Finite m => Finite (- m)
    | Infinity _ => Infinity true
    | NaN => NaN
    end.
Proof.
  intros H. unfold number_of_integer. destruct (Z.eq_dec n 0) as [-> | Hn]; [reflexivity |].
  replace (- n <? 0) with true by (symmetry; apply Z.ltb_lt; lia).
  rewrite Z.opp_involutive. reflexivity.
Qed.

Lemma digit_prefix_app d a n rest :
  digits_value a d = Some n -> starts_with_digit rest = false ->
  digit_prefix (Some a) (d +:+ rest) = Some n.
Proof.
  revert a. induction d as [| c d IH]; intros a H Hrest; cbn in H.
  - injection H as <-. destruct rest as [| c' rest]; [reflexivity |].
    change (EmptyString +:+ String c' rest) with (String c' rest).
    cbn [digit_prefix]. cbn [starts_with_digit] in Hrest.
    destruct (digit_of c'); [discriminate | reflexivity].
  - destruct (digit_of c) as [x |] eqn:Hx; [| discriminate].
    change (String c d +:+ rest) with (String c (d +:+ rest)).
    cbn [digit_prefix]. rewrite Hx. apply IH; assumption.
Qed.

(** A text that starts with digits parses to the Number of their value,
    also behind a plus sign, and to the Number of the opposite value behind
    a minus sign; what follows the digits is not read. *)
Lemma parseInt_digits c d n rest :
  digits_value 0 (String c d) = Some n ->
  starts_with_digit rest = false ->
  let text := String c d +:+ rest in
  parseInt text = nearest_double n
  /\ parseInt (String "+" text) = nearest_double n
  /\ parseInt (String "-" text) = number_of_integer (- n).
Proof.
  intros H Hrest text. assert (Hc : exists x, digit_of c = Some x).
  { cbn in H. destruct (digit_of c); [eauto | discriminate]. }
  destruct Hc as [x Hx]. pose proof (digit_of_range _ _ Hx) as Hr.
  pose proof (digits_value_le _ _ _ H (Z.le_refl 0)) as Hn.
  assert (Hprefix : digit_prefix None text = Some n).
  { unfold text. change (String c d +:+ rest) with (String c (d +:+ rest)).
    cbn [digit_prefix]. rewrite Hx. cbn in H. rewrite Hx in H.
    apply digit_prefix_app; assumption. }
  assert (Hpos : number_of_integer n = nearest_double n).
  { unfold number_of_integer.
    replace (n <? 0) with false by (symmetry; apply Z.ltb_ge; exact Hn). reflexivity. }
  split; [| split].
  - unfold parseInt, text. change (String c d +:+ rest) with (String c (d +:+ rest)).
    rewrite skip_ws_printable by lia.
    rewrite (digit_not_sign c x "-" Hx), (digit_not_sign c x "+" Hx)
      by (apply Z.ltb_lt; reflexivity).
    change (String c (d +:+ rest)) with text. rewrite Hprefix. exact Hpos.
  - unfold parseInt. rewrite skip_ws_printable by (split; apply Z.leb_le; reflexivity).
    change (Ascii.eqb "+" "-") with false. rewrite Ascii.eqb_refl. cbv iota.
    rewrite Hprefix. exact Hpos.
  - unfold parseInt. rewrite skip_ws_printable by (split; apply Z.leb_le; reflexivity).
    rewrite Ascii.eqb_refl. rewrite Hprefix. reflexivity.
Qed.

(** A text that starts with a printable character that is no digit and no
    sign starts with no integer. *)
Lemma parseInt_no_integer c t :
  33 <= code c <= 126 -> digit_of c = None ->
  Ascii.eqb c "-" = false -> Ascii.eqb c "+" = false ->
  parseInt (String c t) = NaN.
Proof.
  intros Hc Hd Hm Hp. unfold parseInt. rewrite skip_ws_printable by exact Hc.
  rewrite Hm, Hp. cbn [digit_prefix]. rewrite Hd. reflexivity.
Qed.

Lemma parseInt_or_0_not_NaN p : parseInt_or_0 p <> NaN.
Proof.
  unfold parseInt_or_0. destruct (parseInt (ToString p)) as [| [| n | n] | b]; discriminate.
Qed.

(** C9, as the code has it. Whatever the request, List issues no backend
    call or exactly one query, whose [limit] and [skip] are
    [parseInt(text, 10) || 0] of the two parameters. That Number is never
    NaN. It is 0 when the parameter is absent, empty, or starts with a
    character that is no digit and no sign. For a parameter that starts
    with digits, whatever follows them, it is their value when that is
    below [2 ^ 53] (also behind a plus sign, and the opposite value behind
    a minus sign, so that negative values are passed on), and the infinity
    when it is [2 ^ 1024] or more (the negative infinity behind a minus
    sign); nothing clamps it. *)
Theorem list_limit_skip_coercion P e req s :
  let out := run (list_documents P e req) s in
  (calls (snd out) = calls s
   \/ exists query projection options,
        calls (snd out)
        = calls s ++ [CallFind (databaseName req) (collectionName req) query projection options
                        (parseInt_or_0 (limit req)) (parseInt_or_0 (skip req))])
  /\ parseInt_or_0 (limit req) <> NaN
  /\ parseInt_or_0 (skip req) <> NaN
  /\ parseInt_or_0 None = 0
  /\ parseInt_or_0 (Some EmptyString) = 0
  /\ (forall c t,
        33 <= code c <= 126 -> digit_of c = None ->
        Ascii.eqb c "-" = false -> Ascii.eqb c "+" = false ->
        parseInt_or_0 (Some (String c t)) = 0)
  /\ (forall c d n rest,
        digits_value 0 (String c d) = Some n ->
        starts_with_digit rest = false ->
        let text := String c d +:+ rest in
        (n < 2 ^ 53 ->
         parseInt_or_0 (Some text) = n
         /\ parseInt_or_0 (Some (String "+" text)) = n
         /\ parseInt_or_0 (Some (String "-" text)) = - n)
        /\ (2 ^ 1024 <= n ->
            parseInt_or_0 (Some text) = Infinity false
            /\ parseInt_or_0 (Some (String "+" text)) = Infinity false
            /\ parseInt_or_0 (Some (String "-" text)) = Infinity true)).
Proof.
  cbv zeta. split; [| split; [| split; [| split; [| split; [| split]]]]].
  - pose proof (list_documents_queries_once P e req (s, [])) as H.
    unfold run. destruct (list_documents P e req (s, [])) as [[a | ex | r] [s' hd]]; exact H.
  - apply parseInt_or_0_not_NaN.
  - apply parseInt_or_0_not_NaN.
  - vm_compute. reflexivity.
  - vm_compute. reflexivity.
  - intros c t Hc Hd Hm Hp. unfold parseInt_or_0.
    change (ToString (Some (String c t))) with (String c t).
    rewrite (parseInt_no_integer c t Hc Hd Hm Hp). reflexivity.
  - intros c d n rest H Hrest.
    destruct (parseInt_digits c d n rest H Hrest) as (H1 & H2 & H3).
    pose proof (digits_value_le _ _ _ H (Z.le_refl 0)) as Hn.
    unfold parseInt_or_0, ToString. cbn [default from_option id].
    cbv zeta in H1, H2, H3. rewrite H1, H2, H3, (number_of_integer_opp n Hn). split.
    + intros Hlt. rewrite (nearest_double_exact n (conj Hn Hlt)).
      destruct n as [| n | n]; [repeat split | repeat split | lia].
    + intros Hge. rewrite (nearest_double_overflow n Hge). repeat split.
Qed.

(** *** Responses sent by a computation *)

Create HintDb handlers.

Lemma silent_ret {A} (a : A) : silent (ret a).
Proof. intros st r st'. discriminate. Qed.

Lemma silent_throw {A} ex : silent (@throw A ex).
Proof. intros st r st'. discriminate. Qed.

Lemma silent_or_throw {A} ex (o : option A) : silent (or_throw ex o).
Proof. destruct o; intros st r st'; discriminate. Qed.

Lemma silent_get_state : silent get_state.
Proof. intros st r st'. discriminate. Qed.

Lemma silent_put_state s : silent (put_state s).
Proof. intros st r st'. discriminate. Qed.

Lemma silent_setHeader k v : silent (setHeader k v).
Proof. intros st r st'. discriminate. Qed.

Lemma silent_backend_call c : silent (backend_call c).
Proof.
  intros st r st'. unfold backend_call. destruct (faults (fst st)) as [| [] ?]; discriminate.
Qed.

Lemma silent_bind {A B} (m : M A) (k : A -> M B) :
  silent m -> (forall a, silent (k a)) -> silent (bind m k).
Proof.
  intros Hm Hk st r st'. unfold bind. specialize (Hm st).
  destruct (m st) as [[a | ex | r0] st1]; [apply Hk | discriminate |].
  exfalso. exact (Hm r0 st1 eq_refl).
Qed.

#[local] Hint Resolve silent_ret silent_throw silent_or_throw silent_get_state
  silent_put_state silent_setHeader silent_backend_call : handlers.

Lemma silent_findOne db coll q : silent (findOne db coll q).
Proof. unfold findOne. repeat (apply silent_bind; [auto with handlers | intros ?]). auto with handlers. Qed.

Lemma silent_replaceOne db coll q doc : silent (replaceOne db coll q doc).
Proof. unfold replaceOne. repeat (apply silent_bind; [auto with handlers | intros ?]). auto with handlers. Qed.

Lemma silent_insertOne g db coll doc : silent (insertOne g db coll doc).
Proof.
  unfold insertOne. repeat (apply silent_bind; [auto with handlers | intros ?]).
  destruct (existsb _ _); [auto with handlers |].
  apply silent_bind; [auto with handlers | intros ?]. auto with handlers.
Qed.

Lemma silent_deleteOne db coll q : silent (deleteOne db coll q).
Proof.
  unfold deleteOne. repeat (apply silent_bind; [auto with handlers | intros ?]).
  destruct (existsb _ _); [| auto with handlers].
  apply silent_bind; [auto with handlers | intros ?]. auto with handlers.
Qed.

Lemma silent_new_ObjectId P x : silent (new_ObjectId P x).
Proof. unfold new_ObjectId. apply silent_bind; [auto with handlers | intros ?]. auto with handlers. Qed.

#[local] Hint Resolve silent_findOne silent_replaceOne silent_insertOne silent_deleteOne
  silent_new_ObjectId : handlers.

#[local] Hint Unfold new_Date_toISOString strip sha256_base64_of_json : handlers.

Lemma answers_send ok code b : ok code -> answers ok (send code b).
Proof. intros H st. exact H. Qed.

Lemma answers_throw ok ex : answers ok (throw ex).
Proof. intros st. exact I. Qed.

Lemma answers_bind ok {A} (m : M A) (k : A -> M unit) :
  silent m -> (forall a, answers ok (k a)) -> answers ok (bind m k).
Proof.
  intros Hm Hk st. unfold bind. specialize (Hm st).
  destruct (m st) as [[a | ex | r0] st1]; [apply Hk | exact I |].
  exfalso. exact (Hm r0 st1 eq_refl).
Qed.

(** A [try] whose body answers, with a [catch] that sends: a response is
    always sent. *)
Lemma try_catch_responds (ok : Z -> Prop) m code b s :
  answers ok m -> ok code ->
  exists r s', run (try_catch m (fun _ => send code b)) s = (Responded r, s') /\ ok (status r).
Proof.
  intros Hm Hcode. unfold run, try_catch. specialize (Hm (s, [])).
  destruct (m (s, [])) as [[a | ex | r] [s1 hd1]]; cbn in *.
  - contradiction.
  - eexists _, _. split; [reflexivity | exact Hcode].
  - eexists _, _. split; [reflexivity | exact Hm].
Qed.

Ltac silent_step := apply answers_bind; [autounfold with handlers; auto with handlers | intros ?].

Lemma update_existing_answers P e req q doc :
  answers not_400 (update_existing P e req q doc).
Proof.
  unfold update_existing. do 4 silent_step.
  destruct (if_match req) as [[| c0 t0] |].
  - do 3 silent_step. apply answers_send. discriminate.
  - destruct (negb _).
    + do 3 silent_step. apply answers_send. discriminate.
    + do 6 silent_step. apply answers_send. discriminate.
  - do 3 silent_step. apply answers_send. discriminate.
Qed.

(** ** Claims on identifier validation *)

Lemma put_document_accepts P e req s c :
  PlatformLaws P ->
  CONNECTED_CLIENTS s !! databaseName req = Some c ->
  is_hex24 (mongoId req) = true ->
  exists r s', run (put_document P e req) s = (Responded r, s') /\ status r <> 400.
Proof.
  intros HP Hc Hid. destruct (oid_hex P HP _ Hid) as [Hnew _].
  assert (Hrun : run (put_document P e req) s
    = run (try_catch
             (let* existingDoc :=
                findOne (databaseName req) (collectionName req)
                  (VOid (toLowerCase (mongoId req))) in
              match existingDoc with
              | Some doc => update_existing P e req (VOid (toLowerCase (mongoId req))) doc
              | None => create_document e req (VOid (toLowerCase (mongoId req)))
              end)
             (fun _ => internal_error_insert e req (VStr (connectionName c)))) s).
  { unfold run, put_document.
    rewrite (bind_ret _ _ _ _ _ (destructure_connection_own _ _ _ _ Hc)).
    cbn [fst snd]. unfold new_ObjectId, or_throw.
    rewrite Hnew, (is_hex24_not_empty _ Hid). reflexivity. }
  rewrite Hrun. apply (try_catch_responds not_400); [| discriminate].
  silent_step. destruct a as [doc |]; [apply update_existing_answers |].
  unfold create_document. do 5 silent_step. apply answers_send. discriminate.
Qed.

Lemma get_document_accepts P e req s c :
  PlatformLaws P ->
  CONNECTED_CLIENTS s !! databaseName req = Some c ->
  is_hex24 (mongoId req) = true ->
  exists r s', run (get_document P e req) s = (Responded r, s') /\ status r <> 400.
Proof.
  intros HP Hc Hid. destruct (oid_hex P HP _ Hid) as [_ Hvalid].
  unfold get_document, run at 1.
  rewrite (bind_ret _ _ _ _ _ (destructure_connection_own _ _ _ _ Hc)).
  cbn [fst snd]. rewrite Hvalid. cbn [negb].
  apply (try_catch_responds not_400); [| discriminate].
  do 2 silent_step. destruct a0; apply answers_send; discriminate.
Qed.

Lemma delete_document_accepts P e req s c :
  PlatformLaws P ->
  CONNECTED_CLIENTS s !! databaseName req = Some c ->
  is_hex24 (mongoId req) = true ->
  exists r s', run (delete_document P e req) s = (Responded r, s') /\ status r <> 400.
Proof.
  intros HP Hc Hid. destruct (oid_hex P HP _ Hid) as [Hnew _].
  assert (Hrun : run (delete_document P e req) s
    = run (try_catch
             (let* id := new_ObjectId P (VStr (mongoId req)) in
              let* deletedCount := deleteOne (databaseName req) (collectionName req) id in
              if deletedCount =? 0 then
                send 404 (Some (VObj [ ("name", VStr (connectionName c));
                                       ("message", VStr ("NOT_FOUND: Could not find document ("
                                                         +:+ collectionName req +:+ "/"
                                                         +:+ mongoId req +:+ ")"));
                                       timestamp e ]))
              else send 204 None)
             (fun _ =>
                send 500 (Some (VObj [ ("name", VStr (connectionName c));
                                       ("message", VStr ("INTERNAL_ERROR: Exception encountered during document delete ("
                                                         +:+ collectionName req +:+ "/"
                                                         +:+ mongoId req +:+ ")"));
                                       timestamp e ])))) s).
  { unfold run, delete_document.
    rewrite (bind_ret _ _ _ _ _ (destructure_connection_own _ _ _ _ Hc)).
    cbn [fst snd]. unfold new_ObjectId at 1, or_throw at 1. rewrite Hnew. reflexivity. }
  rewrite Hrun. apply (try_catch_responds not_400); [| discriminate].
  do 2 silent_step. destruct (a0 =? 0); apply answers_send; discriminate.
Qed.

(** C7, as the hex form the driver takes. On a connected database, GetById,
    Upsert with an identifier and DeleteById take every string of 24
    hexadecimal digits, in either case, and go on to an answer other than
    400; they answer 400, leaving the state as it was, for every identifier
    that is neither 24 hexadecimal digits nor 12 characters long. *)
Theorem identifier_validation P e req s c :
  PlatformLaws P ->
  CONNECTED_CLIENTS s !! databaseName req = Some c ->
  (is_hex24 (mongoId req) = true ->
   (exists r s', run (put_document P e req) s = (Responded r, s') /\ status r <> 400)
   /\ (exists r s', run (get_document P e req) s = (Responded r, s') /\ status r <> 400)
   /\ (exists r s', run (delete_document P e req) s = (Responded r, s') /\ status r <> 400))
  /\ (is_hex24 (mongoId req) = false -> js_length (mongoId req) <> 12 ->
      (exists b, run (put_document P e req) s
                 = (Responded {| status := 400; headers := []; body := Some b |}, s))
      /\ (exists b, run (get_document P e req) s
                    = (Responded {| status := 400; headers := []; body := Some b |}, s))
      /\ (exists b, run (delete_document P e req) s
                    = (Responded {| status := 400; headers := []; body := Some b |}, s))).
Proof.
  intros HP Hc. split.
  - intros Hid. split; [| split].
    + exact (put_document_accepts P e req s c HP Hc Hid).
    + exact (get_document_accepts P e req s c HP Hc Hid).
    + exact (delete_document_accepts P e req s c HP Hc Hid).
  - intros Hid Hlen. destruct (oid_reject P HP _ Hid Hlen) as [Hnew Hvalid].
    split; [| split]; eexists.
    + unfold run, put_document.
      rewrite (bind_ret _ _ _ _ _ (destructure_connection_own _ _ _ _ Hc)).
      cbn [fst snd]. unfold new_ObjectId at 1, or_throw at 1. rewrite Hnew. reflexivity.
    + unfold run, get_document.
      rewrite (bind_ret _ _ _ _ _ (destructure_connection_own _ _ _ _ Hc)).
      cbn [fst snd]. rewrite Hvalid. reflexivity.
    + unfold run, delete_document.
      rewrite (bind_ret _ _ _ _ _ (destructure_connection_own _ _ _ _ Hc)).
      cbn [fst snd]. unfold new_ObjectId at 1, or_throw at 1. rewrite Hnew. reflexivity.
Qed.

(** ** Every 204 comes from the update branch *)

Lemma answers_sent ok m st r st' :
  answers ok m -> m st = (Sent r, st') -> ok (status r).
Proof. intros Hm H. specialize (Hm st). rewrite H in Hm. exact Hm. Qed.

Lemma backend_call_fault c s hd :
  head (faults s) = Some true ->
  backend_call c (s, hd) = (Throw MongoError, (record_call c s, hd)).
Proof.
  intros H. unfold backend_call. cbn [fst snd].
  destruct (faults s) as [| [] ?]; try discriminate. reflexivity.
Qed.

Lemma create_document_answers e req q : answers not_204 (create_document e req q).
Proof. unfold create_document. do 5 silent_step. apply answers_send. discriminate. Qed.

Lemma create_resource_answers e req : answers not_204 (create_resource e req).
Proof. unfold create_resource. do 5 silent_step. apply answers_send. discriminate. Qed.

(** A 204 out of the update branch: the If-Match header equals the current
    fingerprint, the body could be stripped and the [replaceOne] went
    through. *)
Lemma update_existing_204 P e req q o s hd r st' :
  update_existing P e req q (VObj o) (s, hd) = (Sent r, st') ->
  status r = 204 ->
  if_match req = currentETag (VObj o)
  /\ (exists request, removeComputedProperties (req_body req) = Some request)
  /\ head (faults s) <> Some true.
Proof.
  intros H Hs. rewrite currentETag_object.
  unfold update_existing in H. do 4 (erewrite bind_ret in H by reflexivity).
  assert (Hno : forall m : M unit, answers not_204 m -> m (s, hd) = (Sent r, st') -> False).
  { intros m Hm Hrun. exact (answers_sent _ _ _ _ _ Hm Hrun Hs). }
  destruct (if_match req) as [[| c0 t0] |].
  - exfalso. revert H. apply Hno. do 3 silent_step. apply answers_send. discriminate.
  - destruct (String.eqb_spec (String c0 t0)
               (SHA256.digest_base64
                  (serialize (VObj (Object_fromEntries (List.filter non_computed o))))))
      as [Heq | Hne]; cbn [negb] in H.
    + split; [rewrite Heq; reflexivity |].
      unfold strip, or_throw in H.
      destruct (removeComputedProperties (req_body req)) as [request |];
        [| unfold bind, throw in H; discriminate].
      split; [eauto |]. intros Hfault.
      erewrite bind_ret in H by reflexivity.
      unfold replaceOne in H.
      erewrite bind_throw in H by (erewrite bind_throw by (apply backend_call_fault, Hfault);
                                   reflexivity).
      discriminate.
    + exfalso. revert H. apply Hno. do 3 silent_step. apply answers_send. discriminate.
  - exfalso. revert H. apply Hno. do 3 silent_step. apply answers_send. discriminate.
Qed.

(** The two PUT handlers after the identifier was read, as one text over
    the create branch. *)
Lemma put_document_lookup P e req s c :
  PlatformLaws P ->
  CONNECTED_CLIENTS s !! databaseName req = Some c ->
  is_hex24 (mongoId req) = true ->
  let q := VOid (toLowerCase (mongoId req)) in
  run (put_document P e req) s
  = run (try_catch
           (let* existingDoc := findOne (databaseName req) (collectionName req) q in
            match existingDoc with
            | Some doc => update_existing P e req q doc
            | None => create_document e req q
            end)
           (on_error e req c)) s.
Proof.
  intros HP Hc Hid q. destruct (oid_hex P HP _ Hid) as [Hnew _].
  unfold run, put_document.
  rewrite (bind_ret _ _ _ _ _ (destructure_connection_own _ _ _ _ Hc)).
  cbn [fst snd]. unfold new_ObjectId, or_throw.
  rewrite Hnew, (is_hex24_not_empty _ Hid). reflexivity.
Qed.

Lemma put_collection_lookup P e req s c :
  PlatformLaws P ->
  CONNECTED_CLIENTS s !! databaseName req = Some c ->
  get_property (req_body req) "_id" = Some (VStr (mongoId req)) ->
  is_hex24 (mongoId req) = true ->
  let q := VOid (toLowerCase (mongoId req)) in
  run (put_collection P e req) s
  = run (try_catch
           (let* existingDoc := findOne (databaseName req) (collectionName req) q in
            match existingDoc with
            | Some doc => update_existing P e req q doc
            | None => create_resource e req
            end)
           (on_error e req c)) s.
Proof.
  intros HP Hc Hbody Hid q. destruct (oid_hex P HP _ Hid) as [Hnew _].
  unfold run, put_collection.
  rewrite (bind_ret _ _ _ _ _ (destructure_connection_own _ _ _ _ Hc)).
  cbn [fst snd]. rewrite Hbody.
  cbv beta iota delta [try_catch bind ret or_throw new_ObjectId].
  rewrite (hex24_truthy _ Hid), Hnew. reflexivity.
Qed.

Lemma upsert_204 P e req q create c s r s' :
  answers not_204 create ->
  run (try_catch
         (let* existingDoc := findOne (databaseName req) (collectionName req) q in
          match existingDoc with
          | Some doc => update_existing P e req q doc
          | None => create
          end)
         (on_error e req c)) s = (Responded r, s') ->
  status r = 204 ->
  head (faults s) <> Some true
  /\ exists doc hd',
       List.find (matches_id q) (documents s (databaseName req) (collectionName req)) = Some doc
       /\ update_existing P e req q doc
            (record_call (CallFindOne (databaseName req) (collectionName req) q) s, [])
          = (Sent r, (s', hd')).
Proof.
  intros Hcreate H Hs. unfold run, try_catch in H.
  assert (Hf : head (faults s) <> Some true).
  { intros Hfault. unfold findOne in H.
    erewrite bind_throw in H
      by (erewrite bind_throw by (apply backend_call_fault, Hfault); reflexivity).
    cbn in H. injection H as <- _. discriminate. }
  split; [exact Hf |].
  rewrite (bind_ret _ _ _ _ _ (findOne_ok _ _ _ _ _ Hf)) in H.
  destruct (List.find _ _) as [doc |].
  - destruct (update_existing P e req q doc _) as [[a | ex | r0] [s0 hd0]] eqn:Hup.
    + discriminate.
    + cbn in H. injection H as <- _. discriminate.
    + injection H as <- <-. eauto.
  - pose proof (Hcreate (record_call (CallFindOne (databaseName req) (collectionName req) q) s, []))
      as Hc0.
    destruct (create _) as [[a | ex | r0] [s0 hd0]].
    + contradiction.
    + cbn in H. injection H as <- _. discriminate.
    + injection H as <- _. cbn in Hc0. contradiction.
Qed.

(** C6, as the code has it. On a connected database, whenever a PUT (with
    the identifier in the path, or the PUT of [index.js] with the same
    identifier in the body) is answered 204: a document with that
    identifier existed, the If-Match header was its fingerprint, and the
    collection now holds in its place a document with the same [_id],
    with the [_createdAt] it had (null when it had none), with
    [_lastModified] equal to the time of the request, with no other key
    that starts with an underscore (those of the stored document and those
    of the request are dropped), and where every other key has the value
    of the request body when the body has the key and the stored value
    otherwise. *)
Theorem conditional_update_merges P e req s c (handler : request -> M unit) r s' :
  PlatformLaws P ->
  CONNECTED_CLIENTS s !! databaseName req = Some c ->
  is_hex24 (mongoId req) = true ->
  is_iso_timestamp (now e) = true ->
  forallb no_undefined (documents s (databaseName req) (collectionName req)) = true ->
  no_undefined (req_body req) = true ->
  handler = put_document P e
  \/ (handler = put_collection P e
      /\ get_property (req_body req) "_id" = Some (VStr (mongoId req))) ->
  run (handler req) s = (Responded r, s') ->
  status r = 204 ->
  let db := databaseName req in
  let coll := collectionName req in
  let q := VOid (toLowerCase (mongoId req)) in
  exists o o' stored request,
    List.find (matches_id q) (documents s db coll) = Some (VObj o)
    /\ if_match req = currentETag (VObj o)
    /\ removeComputedProperties (VObj o) = Some stored
    /\ removeComputedProperties (req_body req) = Some request
    /\ documents s' db coll = replace_first q (VObj o') (documents s db coll)
    /\ List.find (matches_id q) (documents s' db coll) = Some (VObj o')
    /\ get_own "_id" o' = get_own "_id" o
    /\ get_own "_createdAt" o' = Some (default VNull (get_own "_createdAt" o))
    /\ get_own "_lastModified" o' = Some (VStr (now e))
    /\ (forall k, startsWith_underscore k = true ->
                  k <> "_id" -> k <> "_createdAt" -> k <> "_lastModified" ->
                  get_own k o' = None)
    /\ (forall k, startsWith_underscore k = false ->
                  get_own k o' = merged_field k stored request)
    /\ (forall k, startsWith_underscore k = true ->
                  get_own k stored = None /\ get_own k request = None)
    /\ (forall sent,
          req_body req = VObj sent ->
          List.NoDup (map fst o) -> List.NoDup (map fst sent) ->
          forall k, startsWith_underscore k = false ->
                    get_own k o' = match get_own k sent with
                                   | Some v => Some v
                                   | None => get_own k o
                                   end).
Proof.
  intros HP Hc Hid Hiso Hstore Hbody Hhandler Hrun Hs db coll q.
  assert (Hinv : head (faults s) <> Some true
    /\ exists doc hd',
         List.find (matches_id q) (documents s db coll) = Some doc
         /\ update_existing P e req q doc (record_call (CallFindOne db coll q) s, [])
            = (Sent r, (s', hd'))).
  { destruct Hhandler as [-> | [-> Hbid]].
    - rewrite (put_document_lookup P e req s c HP Hc Hid) in Hrun.
      exact (upsert_204 P e req q _ c s r s' (create_document_answers e req q) Hrun Hs).
    - rewrite (put_collection_lookup P e req s c HP Hc Hbid Hid) in Hrun.
      exact (upsert_204 P e req q _ c s r s' (create_resource_answers e req) Hrun Hs). }
  destruct Hinv as (Hf1 & doc & hd' & Hfind & Hup).
  destruct (matches_id_oid _ _ (proj2 (find_some _ _ Hfind))) as (o & -> & _).
  destruct (update_existing_204 P e req q o _ _ r _ Hup Hs) as (Hm & [request Hb] & Hf2).
  assert (Ho : no_undefined (VObj o) = true).
  { rewrite forallb_forall in Hstore. exact (Hstore _ (proj1 (find_some _ _ Hfind))). }
  destruct (conditional_update_forward P e req s c o request HP Hc Hid Hf1 Hf2 Hiso
              Hfind Ho Hm Hb Hbody)
    as (r0 & s0 & o' & stored & Hrun0 & Hrun0' & _ & Hdocs & Hfind' & Hid' & Hca & Hlm & Hst
        & Hcomputed & Hk).
  assert (Hsame : s0 = s').
  { destruct Hhandler as [-> | [-> Hbid]].
    - rewrite Hrun0 in Hrun. congruence.
    - rewrite (Hrun0' Hbid) in Hrun. congruence. }
  subst s0. exists o, o', stored, request.
  split; [exact Hfind |]. split; [exact Hm |]. split; [exact Hst |]. split; [exact Hb |].
  split; [exact Hdocs |]. split; [exact Hfind' |]. split; [exact Hid' |].
  split; [exact Hca |]. split; [exact Hlm |]. split; [exact Hcomputed |].
  split; [exact Hk |]. split.
  - intros k Hund. split.
    + exact (get_own_stripped_computed _ _ k Hst Hund).
    + exact (get_own_stripped_computed _ _ k Hb Hund).
  - intros sent Hsent Hndo Hnds k Hnc. rewrite (Hk k Hnc). unfold merged_field.
    rewrite Hsent in Hb.
    rewrite (get_own_stripped_object _ _ k Hb Hnds Hnc),
      (get_own_stripped_object _ _ k Hst Hndo Hnc).
    reflexivity.
Qed.

(** ** What the create branch and the registry lookup do in general *)

Lemma insertOne_ok g db coll doc h s hd :
  head (faults s) <> Some true ->
  get_own "_id" doc = Some (VOid h) ->
  existsb (matches_id (VOid h)) (documents s db coll) = false ->
  insertOne g db coll doc (s, hd)
  = (Ret (VOid h),
     (with_documents (record_call (CallInsertOne db coll (VObj doc)) s) db coll
        (documents s db coll ++ [bson (VObj doc)]), hd)).
Proof.
  intros Hf Hid Hnew. unfold insertOne.
  rewrite (bind_ret _ _ _ _ _ (backend_call_ok _ _ _ Hf)).
  unfold doc_id. rewrite Hid.
  change (default VUndefined (Some (VOid h))) with (VOid h). cbn [nullish].
  rewrite Hid. change (default VUndefined (Some (VOid h))) with (VOid h).
  unfold bind, get_state, put_state, ret. cbn [fst snd].
  change (documents (record_call (CallInsertOne db coll (VObj doc)) s) db coll)
    with (documents s db coll).
  rewrite Hnew. reflexivity.
Qed.

Lemma find_none_existsb {A} (f : A -> bool) l : List.find f l = None -> existsb f l = false.
Proof.
  induction l as [| x l IH]; cbn; [reflexivity |].
  destruct (f x); [discriminate | exact IH].
Qed.

(** The create branch of PUT with an identifier, for every body: the ETag
    of the 201 response is the digest of [JSON.stringify(req.body)], the raw
    body, while the document stored holds the stripped body. *)
Lemma put_document_create P e req s c stripped :
  PlatformLaws P ->
  CONNECTED_CLIENTS s !! databaseName req = Some c ->
  is_hex24 (mongoId req) = true ->
  head (faults s) <> Some true ->
  head (tail (faults s)) <> Some true ->
  let db := databaseName req in
  let coll := collectionName req in
  let q := VOid (toLowerCase (mongoId req)) in
  List.find (matches_id q) (documents s db coll) = None ->
  removeComputedProperties (req_body req) = Some stripped ->
  let newDocument :=
    set_all (set_all [] stripped)
      [ ("_createdAt", VStr (now e)); ("_id", q); ("_lastModified", VNull) ] in
  exists r s',
    run (put_document P e req) s = (Responded r, s')
    /\ status r = 201
    /\ get_header "ETag" r = fingerprint (req_body req)
    /\ documents s' db coll = documents s db coll ++ [bson (VObj newDocument)].
Proof.
  intros HP Hc Hid Hf1 Hf2 db coll q Hfind Hb newDocument.
  destruct (oid_hex P HP _ Hid) as [Hnew _].
  assert (Hjson : exists text, JSON_stringify (req_body req) = Some text).
  { unfold removeComputedProperties in Hb.
    destruct (req_body req); cbn in *; try discriminate; eauto. }
  destruct Hjson as [text Hjson].
  assert (Hq : get_own "_id" newDocument = Some q).
  { unfold newDocument. rewrite !set_all_cons, set_all_nil, !get_own_obj_set. reflexivity. }
  set (s1 := record_call (CallFindOne db coll q) s).
  pose proof (insertOne_ok (fresh_id e) db coll newDocument _ s1 [] Hf2 Hq
                (find_none_existsb _ _ Hfind)) as Hins.
  eexists _, _. split; [| split; [| split]].
  - unfold run, put_document.
    rewrite (bind_ret _ _ _ _ _ (destructure_connection_own _ _ _ _ Hc)).
    cbn [fst snd]. unfold new_ObjectId, or_throw. rewrite Hnew, (is_hex24_not_empty _ Hid).
    cbv beta iota delta [try_catch bind ret].
    rewrite (findOne_ok _ _ _ _ _ Hf1). fold db coll q s1. rewrite Hfind.
    unfold create_document. cbv beta iota delta [bind].
    unfold strip, or_throw. rewrite Hb. cbv beta iota delta [ret].
    fold db coll. fold newDocument. rewrite Hins.
    unfold sha256_base64_of_json, fingerprint, or_throw. rewrite Hjson. reflexivity.
  - reflexivity.
  - unfold fingerprint. rewrite Hjson. reflexivity.
  - apply documents_with_documents.
Qed.

(** A name under which the registry yields nothing, own or inherited:
    every handler rejects with the TypeError of the destructuring and
    leaves the state as it was. *)
Lemma missing_connection_throws P e req s :
  CONNECTED_CLIENTS s !! databaseName req = None ->
  existsb (String.eqb (databaseName req)) (inherited_keys s) = false ->
  run (put_document P e req) s = (Rejected TypeError, s)
  /\ run (put_collection P e req) s = (Rejected TypeError, s)
  /\ run (list_documents P e req) s = (Rejected TypeError, s)
  /\ run (get_document P e req) s = (Rejected TypeError, s)
  /\ run (delete_document P e req) s = (Rejected TypeError, s)
  /\ (databaseName req <> EmptyString -> run (disconnect e req) s = (Rejected TypeError, s)).
Proof.
  intros Hc Hp.
  pose proof (destructure_connection_absent _ s [] Hc Hp) as Hd.
  repeat split;
    try (unfold run, put_document, put_collection, list_documents, get_document,
           delete_document;
         rewrite (bind_throw _ _ _ _ _ Hd); reflexivity).
  intros Hne. unfold run, disconnect.
  destruct (databaseName req) eqn:Hname; [congruence |]. cbn [is_empty].
  rewrite (bind_throw _ _ _ _ _ Hd). reflexivity.
Qed.

(** The 404 branch is reached for the names the registry inherits. *)
Example inherited_name_is_not_found :
  exists r,
    fst (run (get_document sample_platform sample_env
                (request_for "toString" id1 None body_age)) (connected "shop" []))
    = Responded r /\ status r = 404.
Proof. eexists. split; [vm_compute; reflexivity | vm_compute; reflexivity]. Qed.

(** ** The sample platform is lawful, and the claims at concrete requests *)

Lemma sample_platform_laws : PlatformLaws sample_platform.
Proof.
  split; cbn.
  - intros s H. rewrite H. split; reflexivity.
  - intros s H _. rewrite H. split; reflexivity.
  - reflexivity.
  - intros s H. rewrite H. reflexivity.
Qed.

Lemma fingerprint_of_ordered_fields_witness :
  exists etag,
    currentETag stored_a = Some etag
    /\ currentETag (VObj [ ("_createdAt", VNull); ("name", VStr "a"); ("_rev", VNum 7) ])
       = Some etag.
Proof.
  apply (fingerprint_of_ordered_fields
           [ ("_id", VOid id1); ("name", VStr "a");
             ("_createdAt", VStr "2024-01-02T03:04:05.006Z"); ("_lastModified", VNull) ]
           [ ("_createdAt", VNull); ("name", VStr "a"); ("_rev", VNum 7) ]).
  reflexivity.
Defined.

Lemma upsert_precondition_rejected_witness :
  let req := request_for "shop" id1 (Some "stale-value") body_age in
  let s := connected "shop" [stored_a] in
  exists r,
    run (put_document sample_platform sample_env req) s
    = (Responded r, record_call (CallFindOne "shop" "things" (VOid id1)) s)
    /\ status r = 412
    /\ get_header "ETag" r = currentETag stored_a
    /\ get_header "Last-Modified" r = Some "2024-01-02T03:04:05.006Z".
Proof.
  cbv zeta.
  refine (proj1 (upsert_precondition_rejected sample_platform sample_env
                   (request_for "shop" id1 (Some "stale-value") body_age)
                   (connected "shop" [stored_a])
                   {| client := 1; connectionName := "happy-otter" |}
                   stored_a "2024-01-02T03:04:05.006Z"
                   sample_platform_laws _ _ _ _ _ _)).
  - vm_compute. reflexivity.
  - vm_compute. reflexivity.
  - vm_compute. discriminate.
  - vm_compute. reflexivity.
  - vm_compute. reflexivity.
  - vm_compute. discriminate.
Defined.

Lemma conditional_update_merges_witness :
  let req := request_for "shop" id1 (currentETag stored_rev) body_secret in
  let s := connected "shop" [stored_rev] in
  let out := run (put_document sample_platform sample_env req) s in
  exists r o',
    fst out = Responded r
    /\ status r = 204
    /\ documents (snd out) "shop" "things" = [VObj o']
    /\ get_own "_id" o' = Some (VOid id1)
    /\ get_own "_createdAt" o' = Some (VStr "2024-01-02T03:04:05.006Z")
    /\ get_own "_lastModified" o' = Some (VStr "2024-05-06T07:08:09.010Z")
    /\ get_own "_rev" o' = None
    /\ get_own "_secret" o' = None
    /\ get_own "name" o' = Some (VStr "b")
    /\ get_own "age" o' = Some (VNum 3).
Proof.
  cbv zeta.
  destruct (run (put_document sample_platform sample_env
                   (request_for "shop" id1 (currentETag stored_rev) body_secret))
              (connected "shop" [stored_rev])) as [res s'] eqn:Hrun.
  assert (Hres : exists r, res = Responded r /\ status r = 204).
  { apply (f_equal fst) in Hrun. cbn [fst] in Hrun. rewrite <- Hrun.
    eexists. split; [vm_compute; reflexivity | vm_compute; reflexivity]. }
  destruct Hres as (r & -> & Hs).
  destruct (conditional_update_merges sample_platform sample_env
              (request_for "shop" id1 (currentETag stored_rev) body_secret)
              (connected "shop" [stored_rev])
              {| client := 1; connectionName := "happy-otter" |}
              (put_document sample_platform sample_env) r s'
              sample_platform_laws)
    as (o & o' & stored & request & Hfind & _ & Hst & Hb & Hdocs & _ & Hid & Hca & Hlm
        & Hcomputed & Hk & _ & _).
  - vm_compute. reflexivity.
  - vm_compute. reflexivity.
  - vm_compute. reflexivity.
  - vm_compute. reflexivity.
  - vm_compute. reflexivity.
  - left. reflexivity.
  - exact Hrun.
  - exact Hs.
  - assert (Ho : o = [ ("_id", VOid id1); ("name", VStr "a"); ("_rev", VNum 7);
                     ("_createdAt", VStr "2024-01-02T03:04:05.006Z");
                     ("_lastModified", VNull) ]).
    { vm_compute in Hfind. injection Hfind as Hfind. rewrite <- Hfind. reflexivity. }
    subst o. vm_compute in Hst, Hb. injection Hst as <-. injection Hb as <-.
    exists r, o'. cbn [fst snd].
    split; [reflexivity |]. split; [exact Hs |]. split; [exact Hdocs |].
    split; [exact Hid |]. split; [exact Hca |]. split; [exact Hlm |].
    split; [apply (Hcomputed "_rev" eq_refl); discriminate |].
    split; [apply (Hcomputed "_secret" eq_refl); discriminate |].
    split; [exact (Hk "name" eq_refl) | exact (Hk "age" eq_refl)].
Defined.

Lemma identifier_validation_witness :
  let s := connected "shop" [stored_a] in
  (exists r s', run (get_document sample_platform sample_env
                       (request_for "shop" id1 None body_age)) s = (Responded r, s')
                /\ status r <> 400)
  /\ (exists b, run (get_document sample_platform sample_env
                       (request_for "shop" "not-an-id" None body_age)) s
                = (Responded {| status := 400; headers := []; body := Some b |}, s)).
Proof.
  cbv zeta. split.
  - refine (proj1 (proj2 (proj1 (identifier_validation sample_platform sample_env
                     (request_for "shop" id1 None body_age) (connected "shop" [stored_a])
                     {| client := 1; connectionName := "happy-otter" |}
                     sample_platform_laws _) _))); vm_compute; reflexivity.
  - refine (proj1 (proj2 (proj2 (identifier_validation sample_platform sample_env
                     (request_for "shop" "not-an-id" None body_age) (connected "shop" [stored_a])
                     {| client := 1; connectionName := "happy-otter" |}
                     sample_platform_laws _) _ _))).
    + vm_compute. reflexivity.
    + vm_compute. reflexivity.
    + vm_compute. discriminate.
Defined.

Lemma delete_document_unconditional_witness :
  let req := request_for "shop" id1 (Some "anything") body_age in
  let s := connected "shop" [stored_a] in
  exists s',
    run (delete_document sample_platform sample_env req) s
    = (Responded {| status := 204; headers := []; body := None |}, s')
    /\ documents s' "shop" "things" = []
    /\ calls s' = [CallDeleteOne "shop" "things" (VOid id1)].
Proof.
  cbv zeta. eexists. split; [| split].
  - refine (proj1 (proj2 (delete_document_unconditional sample_platform sample_env
                     (request_for "shop" id1 (Some "anything") body_age)
                     (connected "shop" [stored_a])
                     {| client := 1; connectionName := "happy-otter" |} id1 _ _ _)) _).
    + vm_compute. reflexivity.
    + vm_compute. reflexivity.
    + vm_compute. discriminate.
    + vm_compute. reflexivity.
  - vm_compute. reflexivity.
  - vm_compute. reflexivity.
Defined.

Lemma list_limit_skip_coercion_witness :
  parseInt_or_0 (Some "abc") = 0
  /\ parseInt_or_0 (Some "25") = 25
  /\ parseInt_or_0 (Some "-25px") = -25
  /\ parseInt_or_0 (Some "9007199254740991") = 9007199254740991.
Proof.
  destruct (list_limit_skip_coercion sample_platform sample_env
              (request_for "shop" id1 None body_age) (connected "shop" []))
    as (_ & _ & _ & _ & _ & Hnan & Hdigits).
  split.
  { apply (Hnan "a"%char "bc"); [split; apply Z.leb_le; reflexivity | reflexivity ..]. }
  destruct (Hdigits "2"%char "5" 25 EmptyString eq_refl eq_refl) as [H25 _].
  destruct (Hdigits "2"%char "5" 25 "px" eq_refl eq_refl) as [H25px _].
  destruct (Hdigits "9"%char "007199254740991" 9007199254740991 EmptyString eq_refl eq_refl)
    as [Hmax _].
  split; [exact (proj1 (H25 eq_refl)) |].
  split; [exact (proj2 (proj2 (H25px eq_refl))) |].
  exact (proj1 (Hmax eq_refl)).
Defined.

Lemma list_rejects_unparsable_filter_witness :
  let req := with_query (request_for "shop" id1 None body_age) (Some "not json") None None in
  let s := connected "shop" [stored_a] in
  exists b,
    run (list_documents sample_platform sample_env req) s
    = (Responded {| status := 500; headers := []; body := Some b |}, s).
Proof.
  cbv zeta.
  refine (list_rejects_unparsable_filter sample_platform sample_env
            (with_query (request_for "shop" id1 None body_age) (Some "not json") None None)
            (connected "shop" [stored_a])
            {| client := 1; connectionName := "happy-otter" |} "not json" _ _ _ _).
  - vm_compute. reflexivity.
  - reflexivity.
  - discriminate.
  - vm_compute. reflexivity.
Defined.

(* ===================================================================== *)
(** * Further properties of the handlers *)
(* ===================================================================== *)

(** ** What a computation leaves unchanged *)

Section Keeps.

Context {B : Type} (f : state -> B).

(** The observation does not see the log of calls, nor the faults ahead. *)
Hypothesis f_record_call : forall c s, f (record_call c s) = f s.

Lemma keeps_ret {A} (a : A) : keeps f (ret a).
Proof. intros st. reflexivity. Qed.

Lemma keeps_throw {A} ex : keeps f (@throw A ex).
Proof. intros st. reflexivity. Qed.

Lemma keeps_send {A} code b : keeps f (@send A code b).
Proof. intros st. reflexivity. Qed.

Lemma keeps_or_throw {A} ex (o : option A) : keeps f (or_throw ex o).
Proof. destruct o; intros st; reflexivity. Qed.

Lemma keeps_get_state : keeps f get_state.
Proof. intros st. reflexivity. Qed.

Lemma keeps_setHeader k v : keeps f (setHeader k v).
Proof. intros st. reflexivity. Qed.

Lemma keeps_bind {A C} (m : M A) (k : A -> M C) :
  keeps f m -> (forall a, keeps f (k a)) -> keeps f (bind m k).
Proof.
  intros Hm Hk st. unfold bind. specialize (Hm st).
  destruct (m st) as [[a | ex | r] st1]; cbn in *; try exact Hm.
  rewrite (Hk a st1). exact Hm.
Qed.

Lemma keeps_try_catch {A} (m : M A) (h : exn -> M A) :
  keeps f m -> (forall ex, keeps f (h ex)) -> keeps f (try_catch m h).
Proof.
  intros Hm Hh st. unfold try_catch. specialize (Hm st).
  destruct (m st) as [[a | ex | r] st1]; cbn in *; try exact Hm.
  rewrite (Hh ex st1). exact Hm.
Qed.

Lemma keeps_backend_call c : keeps f (backend_call c).
Proof.
  intros st. unfold backend_call.
  destruct (faults (fst st)) as [| [] ?]; cbn; apply f_record_call.
Qed.

Lemma keeps_destructure db : keeps f (destructure_connection db).
Proof.
  unfold destructure_connection. apply keeps_bind; [apply keeps_get_state |].
  intros s0. destruct (CONNECTED_CLIENTS s0 !! db);
    [apply keeps_ret | destruct (existsb _ _); [apply keeps_ret | apply keeps_throw]].
Qed.

Lemma keeps_findOne db coll q : keeps f (findOne db coll q).
Proof.
  unfold findOne. apply keeps_bind; [apply keeps_backend_call | intros _].
  apply keeps_bind; [apply keeps_get_state | intros s0]. apply keeps_ret.
Qed.

Lemma keeps_new_ObjectId P x : keeps f (new_ObjectId P x).
Proof.
  unfold new_ObjectId. apply keeps_bind; [apply keeps_or_throw | intros h]. apply keeps_ret.
Qed.

Lemma keeps_run (m : M unit) s : keeps f m -> f (snd (run m s)) = f s.
Proof.
  intros Hm. specialize (Hm (s, [])). unfold run.
  destruct (m (s, [])) as [[a | ex | r] [s' hd]]; exact Hm.
Qed.

(** GetById and List are built from the steps above only. *)
Lemma keeps_get_document P e req : keeps f (get_document P e req).
Proof.
  unfold get_document. apply keeps_bind; [apply keeps_destructure | intros conn].
  apply keeps_try_catch; [| intros ex; apply keeps_send].
  destruct (fst conn); [| apply keeps_send].
  destruct (negb _); [apply keeps_send |].
  apply keeps_bind; [apply keeps_new_ObjectId | intros id].
  apply keeps_bind; [apply keeps_findOne | intros [doc |]]; apply keeps_send.
Qed.

Lemma keeps_list_documents P e req : keeps f (list_documents P e req).
Proof.
  unfold list_documents. apply keeps_bind; [apply keeps_destructure | intros conn].
  apply keeps_try_catch; [| intros ex; apply keeps_send].
  apply keeps_bind.
  { destruct (filter req) as [[| c0 t0] |]; try apply keeps_ret.
    apply keeps_bind; [apply keeps_or_throw | intros decoded]. apply keeps_or_throw. }
  intros config. destruct (fst conn); [| apply keeps_send].
  apply keeps_bind; [apply keeps_or_throw | intros options].
  destruct (negb _); [apply keeps_throw |].
  apply keeps_bind; [apply keeps_or_throw | intros query].
  apply keeps_bind; [apply keeps_or_throw | intros projection].
  apply keeps_bind; [apply keeps_backend_call | intros _].
  apply keeps_bind; [apply keeps_get_state | intros s0].
  apply keeps_bind; [apply keeps_or_throw | intros results]. apply keeps_send.
Qed.

(** The writers, for an observation that does not see the documents of the
    collection they work on. *)
Section Writers.

Variables db coll : string.
Hypothesis f_with_documents : forall s docs, f (with_documents s db coll docs) = f s.

Lemma keeps_replaceOne q doc : keeps f (replaceOne db coll q doc).
Proof.
  intros st. unfold replaceOne, bind, backend_call, get_state, put_state.
  destruct (faults (fst st)) as [| [] ?]; cbn;
    rewrite ?f_with_documents; apply f_record_call.
Qed.

Lemma keeps_insertOne g doc : keeps f (insertOne g db coll doc).
Proof.
  intros st. unfold insertOne, bind, backend_call, get_state, put_state, throw, ret.
  destruct (faults (fst st)) as [| [] ?]; cbn; try apply f_record_call;
    destruct (existsb _ _); cbn; rewrite ?f_with_documents; apply f_record_call.
Qed.

Lemma keeps_deleteOne q : keeps f (deleteOne db coll q).
Proof.
  intros st. unfold deleteOne, bind, backend_call, get_state, put_state, throw, ret.
  destruct (faults (fst st)) as [| [] ?]; cbn; try apply f_record_call;
    destruct (existsb _ _); cbn; rewrite ?f_with_documents; apply f_record_call.
Qed.

End Writers.

End Keeps.

Section KeepsHandlers.

Context {B : Type} (f : state -> B) (P : Platform) (e : env) (req : request).
Hypothesis f_record_call : forall c s, f (record_call c s) = f s.
Hypothesis f_with_documents :
  forall s docs, f (with_documents s (databaseName req) (collectionName req) docs) = f s.

Ltac keeps_step :=
  first [ apply keeps_bind;
          [ first [ apply keeps_or_throw | apply keeps_setHeader | apply keeps_get_state
                  | apply keeps_new_ObjectId; assumption
                  | apply keeps_findOne; assumption
                  | apply keeps_replaceOne; assumption
                  | apply keeps_insertOne; assumption
                  | apply keeps_deleteOne; assumption
                  | apply keeps_ret ]
          | intros ? ]
        | apply keeps_send | apply keeps_throw | apply keeps_ret ].

Lemma keeps_update_existing q doc : keeps f (update_existing P e req q doc).
Proof.
  unfold update_existing, strip, sha256_base64_of_json, new_Date_toISOString.
  do 4 keeps_step. destruct (if_match req) as [[| c0 t0] |].
  - repeat keeps_step.
  - destruct (negb _); repeat keeps_step.
  - repeat keeps_step.
Qed.

Lemma keeps_create_document q : keeps f (create_document e req q).
Proof.
  unfold create_document, strip, sha256_base64_of_json. repeat keeps_step.
Qed.

Lemma keeps_create_resource : keeps f (create_resource e req).
Proof.
  unfold create_resource, strip, sha256_base64_of_json. repeat keeps_step.
Qed.

Lemma keeps_put_document : keeps f (put_document P e req).
Proof.
  unfold put_document. apply keeps_bind; [apply keeps_destructure | intros conn].
  apply keeps_bind.
  { apply keeps_try_catch; [repeat keeps_step | intros ex; apply keeps_send]. }
  intros _. apply keeps_try_catch; [| intros ex; apply keeps_send].
  destruct (fst conn); [| apply keeps_send].
  apply keeps_bind.
  { destruct (is_empty _); [apply keeps_ret | apply keeps_new_ObjectId]. }
  intros documentId.
  apply keeps_bind; [apply keeps_findOne, f_record_call | intros [doc |]].
  - apply keeps_update_existing.
  - apply keeps_create_document.
Qed.

Lemma keeps_put_collection : keeps f (put_collection P e req).
Proof.
  unfold put_collection. apply keeps_bind; [apply keeps_destructure | intros conn].
  apply keeps_try_catch; [| intros ex; apply keeps_send].
  apply keeps_bind; [apply keeps_or_throw | intros body_id].
  apply keeps_bind.
  { destruct (truthy _); [apply keeps_new_ObjectId | apply keeps_ret]. }
  intros resourceId. destruct (fst conn); [| apply keeps_send].
  apply keeps_bind; [apply keeps_findOne, f_record_call | intros [doc |]].
  - apply keeps_update_existing.
  - apply keeps_create_resource.
Qed.

Lemma keeps_delete_document : keeps f (delete_document P e req).
Proof.
  unfold delete_document. apply keeps_bind; [apply keeps_destructure | intros conn].
  apply keeps_bind.
  { apply keeps_try_catch; [repeat keeps_step | intros ex; apply keeps_send]. }
  intros _. apply keeps_try_catch; [| intros ex; apply keeps_send].
  destruct (fst conn); [| apply keeps_send].
  do 2 keeps_step. destruct (_ =? 0); apply keeps_send.
Qed.

End KeepsHandlers.

(** X18. GetById and List never write: whatever the request and the state,
    the collections and the registry are after the handler what they were
    before. *)
Theorem readers_never_write P e req s :
  collections (snd (run (get_document P e req) s)) = collections s
  /\ CONNECTED_CLIENTS (snd (run (get_document P e req) s)) = CONNECTED_CLIENTS s
  /\ collections (snd (run (list_documents P e req) s)) = collections s
  /\ CONNECTED_CLIENTS (snd (run (list_documents P e req) s)) = CONNECTED_CLIENTS s.
Proof.
  repeat split; apply keeps_run;
    first [ apply keeps_get_document | apply keeps_list_documents ]; reflexivity.
Qed.

(** X19. The writers touch one collection: whatever the request and the
    state, the two PUT handlers and DeleteById leave the registry as it was
    and every collection other than the one the request names as it was. *)
Theorem writers_touch_one_collection P e req s key :
  key <> (databaseName req, collectionName req) ->
  (CONNECTED_CLIENTS (snd (run (put_document P e req) s)) = CONNECTED_CLIENTS s
   /\ collections (snd (run (put_document P e req) s)) !! key = collections s !! key)
  /\ (CONNECTED_CLIENTS (snd (run (put_collection P e req) s)) = CONNECTED_CLIENTS s
      /\ collections (snd (run (put_collection P e req) s)) !! key = collections s !! key)
  /\ (CONNECTED_CLIENTS (snd (run (delete_document P e req) s)) = CONNECTED_CLIENTS s
      /\ collections (snd (run (delete_document P e req) s)) !! key = collections s !! key).
Proof.
  intros Hkey.
  assert (Hw : forall s0 docs,
             collections (with_documents s0 (databaseName req) (collectionName req) docs) !! key
             = collections s0 !! key).
  { intros s0 docs. cbn. apply lookup_insert_ne. congruence. }
  repeat split;
    first [ apply (keeps_run CONNECTED_CLIENTS)
          | apply (keeps_run (fun s0 => collections s0 !! key)) ];
    first [ apply keeps_put_document | apply keeps_put_collection
          | apply keeps_delete_document ];
    first [ reflexivity | exact Hw ].
Qed.

Lemma writers_touch_one_collection_witness :
  let req := request_for "shop" id1 None body_age in
  let s := {| CONNECTED_CLIENTS := CONNECTED_CLIENTS (connected "shop" []);
              collections := {[ ("shop", "things") := []; ("shop", "orders") := [doc_ab] ]};
              calls := [];
              faults := [] |} in
  collections (snd (run (put_document sample_platform sample_env req) s)) !! ("shop", "orders")
  = Some [doc_ab].
Proof.
  refine (proj2 (proj1 (writers_touch_one_collection sample_platform sample_env
                          (request_for "shop" id1 None body_age) _ ("shop", "orders") _))).
  vm_compute. discriminate.
Defined.

(** ** removeComputedProperties *)

(** X1. What [removeComputedProperties] returns holds no key that starts
    with an underscore, whatever it is given; given an object (its keys
    distinct), every other key has in the result the value it has in the
    object. *)
Theorem removeComputedProperties_fields v stripped :
  removeComputedProperties v = Some stripped ->
  (forall k, startsWith_underscore k = true -> get_own k stripped = None)
  /\ (forall o, v = VObj o -> List.NoDup (map fst o) ->
      forall k, startsWith_underscore k = false -> get_own k stripped = get_own k o).
Proof.
  intros H. split.
  - intros k Hk. exact (get_own_stripped_computed v stripped k H Hk).
  - intros o -> Hnd k Hk. cbn in H. injection H as <-.
    unfold Object_fromEntries.
    rewrite (get_own_set_all k _ [] (NoDup_keys_filter _ _ Hnd)).
    unfold merged_field. rewrite (get_own_filter_non_computed _ _ Hk).
    destruct (get_own k o); reflexivity.
Qed.

Lemma removeComputedProperties_fields_witness :
  removeComputedProperties stored_a = Some [("name", VStr "a")]
  /\ get_own "_createdAt" [("name", VStr "a")] = None.
Proof.
  split; [reflexivity |].
  refine (proj1 (removeComputedProperties_fields stored_a [("name", VStr "a")] _)
            "_createdAt" _).
  - reflexivity.
  - reflexivity.
Defined.

(** ** GetById *)

(** X2. GetById on a connected database, with an identifier the driver
    accepts and a backend that answers: one [findOne] on the collection of
    the request and nothing else; 200 with the document found as the only
    item and count 1, or 404 with no item and count 0 when the filter
    selects none. No header is set, the store and the registry are as they
    were. *)
Theorem get_document_hit_or_miss P e req s c h :
  CONNECTED_CLIENTS s !! databaseName req = Some c ->
  ObjectId_isValid P (mongoId req) = true ->
  ObjectId_new P (VStr (mongoId req)) = Some h ->
  head (faults s) <> Some true ->
  let db := databaseName req in
  let coll := collectionName req in
  let found := List.find (matches_id (VOid h)) (documents s db coll) in
  let items := match found with Some doc => [doc] | None => [] end in
  run (get_document P e req) s
  = (Responded {| status := match found with Some _ => 200 | None => 404 end;
                  headers := [];
                  body := Some (VObj [ ("items", VArr items);
                                       ("count", VNum (Z.of_nat (length items))) ]) |},
     record_call (CallFindOne db coll (VOid h)) s).
Proof.
  intros Hc Hv Hid Hf db coll found items.
  unfold run, get_document.
  rewrite (bind_ret _ _ _ _ _ (destructure_connection_own _ _ _ _ Hc)).
  cbn [fst snd]. rewrite Hv. cbn [negb].
  unfold new_ObjectId, or_throw. rewrite Hid.
  cbv beta iota delta [try_catch bind ret].
  rewrite (findOne_ok _ _ _ _ _ Hf). fold db coll found.
  subst items. destruct found; reflexivity.
Qed.

Lemma get_document_hit_or_miss_witness :
  run (get_document sample_platform sample_env (request_for "shop" id1 None VUndefined))
      (connected "shop" [stored_a])
  = (Responded {| status := 200; headers := [];
                  body := Some (VObj [ ("items", VArr [stored_a]); ("count", VNum 1) ]) |},
     record_call (CallFindOne "shop" "things" (VOid id1)) (connected "shop" [stored_a])).
Proof.
  refine (get_document_hit_or_miss sample_platform sample_env
            (request_for "shop" id1 None VUndefined) (connected "shop" [stored_a])
            {| client := 1; connectionName := "happy-otter" |} id1 _ _ _ _).
  - vm_compute. reflexivity.
  - vm_compute. reflexivity.
  - vm_compute. reflexivity.
  - vm_compute. discriminate.
Defined.

(** ** List *)

Lemma list_documents_config P e req s c config :
  CONNECTED_CLIENTS s !! databaseName req = Some c ->
  list_config P req = Some config ->
  run (list_documents P e req) s
  = run (try_catch
           (let* options := or_throw TypeError (get_property config "options") in
            if negb (assignable options) then throw TypeError
            else
              let* query := or_throw TypeError (get_property config "query") in
              let* projection := or_throw TypeError (get_property config "projection") in
              let* _ := backend_call (CallFind (databaseName req) (collectionName req)
                                        query projection options
                                        (parseInt_or_0 (limit req))
                                        (parseInt_or_0 (skip req))) in
              let* s0 := get_state in
              let* results :=
                or_throw MongoError
                  (find_toArray P query projection options
                     (parseInt_or_0 (limit req)) (parseInt_or_0 (skip req))
                     (documents s0 (databaseName req) (collectionName req))) in
              send 200 (Some (VObj [ ("items", VArr results);
                                     ("count", VNum (Z.of_nat (length results))) ])))
           (fun _ =>
              send 500 (Some (VObj [ ("name", VStr (connectionName c));
                                     ("status", VStr "UNKNOWN");
                                     ("message", VStr ("Exception during fetch on collection ("
                                                       +:+ databaseName req +:+ "/"
                                                       +:+ collectionName req +:+ ")"));
                                     timestamp e ])))) s.
Proof.
  intros Hc Hcfg. unfold run, list_documents.
  rewrite (bind_ret _ _ _ _ _ (destructure_connection_own _ _ _ _ Hc)).
  cbn [fst snd].
  assert (HA : (match filter req with
                | None | Some EmptyString => ret default_config
                | Some text =>
                    let* decoded := or_throw URIError (decodeURIComponent P text) in
                    or_throw SyntaxError (JSON_parse P decoded)
                end) (s, []) = (Ret config, (s, []))).
  { unfold list_config, parse_filter in Hcfg.
    destruct (filter req) as [[| c0 t0] |].
    - injection Hcfg as <-. reflexivity.
    - destruct (decodeURIComponent P (String c0 t0)) as [decoded |]; [| discriminate].
      unfold bind. cbn [or_throw ret]. rewrite Hcfg. reflexivity.
    - injection Hcfg as <-. reflexivity. }
  unfold try_catch. rewrite (bind_ret _ _ _ _ _ HA). reflexivity.
Qed.

(** X3. List on a connected database whose filter is missing or parses to
    a configuration with an [options] object, when the backend answers
    the query: one [find] with the [query], [projection] and [options] of
    the configuration and the coerced [limit] and [skip]; 200 with the
    documents the backend returned as [items] and their number as [count].
    The store and the registry are as they were. *)
Theorem list_documents_success P e req s c config options results :
  CONNECTED_CLIENTS s !! databaseName req = Some c ->
  list_config P req = Some config ->
  get_property config "options" = Some options ->
  assignable options = true ->
  head (faults s) <> Some true ->
  let db := databaseName req in
  let coll := collectionName req in
  let query := default VUndefined (get_property config "query") in
  let projection := default VUndefined (get_property config "projection") in
  let options_limit := parseInt_or_0 (limit req) in
  let options_skip := parseInt_or_0 (skip req) in
  find_toArray P query projection options options_limit options_skip (documents s db coll)
  = Some results ->
  run (list_documents P e req) s
  = (Responded {| status := 200; headers := [];
                  body := Some (VObj [ ("items", VArr results);
                                       ("count", VNum (Z.of_nat (length results))) ]) |},
     record_call (CallFind db coll query projection options options_limit options_skip) s).
Proof.
  intros Hc Hcfg Hopt Hassign Hf db coll query projection options_limit options_skip Hfind.
  rewrite (list_documents_config _ _ _ _ _ _ Hc Hcfg).
  assert (Hq : get_property config "query" = Some query
               /\ get_property config "projection" = Some projection).
  { subst query projection. destruct config; try discriminate; split; reflexivity. }
  destruct Hq as [Hq Hp].
  unfold run. rewrite Hopt.
  cbv beta iota delta [try_catch bind ret or_throw get_state].
  rewrite Hassign, Hq, Hp. cbv beta iota delta [negb].
  fold db coll options_limit options_skip.
  rewrite (backend_call_ok _ _ _ Hf). cbn [fst snd].
  change (documents (record_call _ s) db coll) with (documents s db coll).
  rewrite Hfind. reflexivity.
Qed.

Lemma list_documents_success_witness :
  run (list_documents sample_platform sample_env
         (with_query (request_for "shop" id1 None VUndefined) None (Some "2") None))
      (connected "shop" [stored_a; doc_ab])
  = (Responded {| status := 200; headers := [];
                  body := Some (VObj [ ("items", VArr [stored_a; doc_ab]);
                                       ("count", VNum 2) ]) |},
     record_call (CallFind "shop" "things" (VObj []) (VObj []) (VObj []) 2 0)
       (connected "shop" [stored_a; doc_ab])).
Proof.
  refine (list_documents_success sample_platform sample_env
            (with_query (request_for "shop" id1 None VUndefined) None (Some "2") None)
            (connected "shop" [stored_a; doc_ab])
            {| client := 1; connectionName := "happy-otter" |}
            default_config (VObj []) [stored_a; doc_ab] _ _ _ _ _ _).
  - vm_compute. reflexivity.
  - vm_compute. reflexivity.
  - vm_compute. reflexivity.
  - vm_compute. reflexivity.
  - vm_compute. discriminate.
  - vm_compute. reflexivity.
Defined.

(** X4. List needs an [options] object in its filter: on a connected
    database, a filter that decodes and parses but whose [options] member
    is missing or is not an object (the text of an empty object, of a
    configuration with a [query] only, of a number) is answered 500; no
    query reaches the backend and the state is as it was. *)
Theorem list_documents_needs_options P e req s c config options :
  CONNECTED_CLIENTS s !! databaseName req = Some c ->
  list_config P req = Some config ->
  get_property config "options" = Some options ->
  assignable options = false ->
  exists b,
    run (list_documents P e req) s
    = (Responded {| status := 500; headers := []; body := Some b |}, s).
Proof.
  intros Hc Hcfg Hopt Hassign.
  rewrite (list_documents_config _ _ _ _ _ _ Hc Hcfg).
  unfold run. rewrite Hopt.
  cbv beta iota delta [try_catch bind ret or_throw].
  rewrite Hassign. eexists. reflexivity.
Qed.

Lemma list_documents_needs_options_witness :
  exists b,
    run (list_documents sample_platform sample_env
           (with_query (request_for "shop" id1 None VUndefined) (Some "{}") None None))
        (connected "shop" [stored_a])
    = (Responded {| status := 500; headers := []; body := Some b |},
       connected "shop" [stored_a]).
Proof.
  refine (list_documents_needs_options sample_platform sample_env
            (with_query (request_for "shop" id1 None VUndefined) (Some "{}") None None)
            (connected "shop" [stored_a])
            {| client := 1; connectionName := "happy-otter" |}
            (VObj []) VUndefined _ _ _ _).
  - vm_compute. reflexivity.
  - vm_compute. reflexivity.
  - vm_compute. reflexivity.
  - vm_compute. reflexivity.
Defined.

(** ** Connect and Disconnect *)

Lemma connect_ok P e w uri req s cl :
  is_empty (databaseName req) = false ->
  missing_text uri = false ->
  handshake P w uri = Some cl ->
  exists b,
    run (connect P e w uri req) s
    = (Responded {| status := 200; headers := []; body := Some b |},
       registered (databaseName req) {| client := cl; connectionName := randomPetName w |} s)
    /\ get_property b "name" = Some (VStr (randomPetName w)).
Proof.
  intros Hdb Huri Hh. unfold run, connect, handshake in *. rewrite Hdb, Huri. cbn [orb].
  destruct (decodeURIComponent P (default EmptyString uri)) as [decoded |]; [| discriminate].
  cbv beta iota delta [try_catch bind ret or_throw].
  destruct (new_MongoClient w decoded) as [cl' |]; [| discriminate].
  destruct (connect_resolves w); [| discriminate].
  destruct (ping_resolves w); [| discriminate].
  injection Hh as ->. eexists. split; reflexivity.
Qed.



(** The database [__proto__] after a Connect under that name: GetById
    finds the client and looks the document up. *)
Example connect_proto_then_get :
  let req := request_for "__proto__" id1 None VUndefined in
  let s := connected "shop" [] in
  exists b s1,
    run (connect sample_platform sample_env sample_connecting (Some "mongodb://localhost") req) s
    = (Responded {| status := 200; headers := []; body := Some b |}, s1)
    /\ (exists b0, run (get_document sample_platform sample_env req) s
                   = (Responded {| status := 404; headers := []; body := Some b0 |}, s)
                   /\ get_property b0 "message"
                      = Some (VStr "No existing connection found for database: (__proto__)"))
    /\ run (get_document sample_platform sample_env req) s1
       = (Responded {| status := 404; headers := [];
                       body := Some (VObj [ ("items", VArr []); ("count", VNum 0) ]) |},
          record_call (CallFindOne "__proto__" "things" (VOid id1)) s1)
    /\ (exists b2 s2, run (disconnect sample_env req) s1
                      = (Responded {| status := 200; headers := []; body := Some b2 |}, s2)
                      /\ CONNECTED_CLIENTS s2 = CONNECTED_CLIENTS s1).
Proof.
  cbv zeta. eexists _, _. split; [vm_compute; reflexivity |].
  split; [eexists; split; vm_compute; reflexivity |].
  split; [vm_compute; reflexivity |].
  eexists _, _. split; vm_compute; reflexivity.
Qed.

Lemma disconnect_ok e req s c :
  is_empty (databaseName req) = false ->
  CONNECTED_CLIENTS s !! databaseName req = Some c ->
  head (faults s) <> Some true ->
  exists b,
    run (disconnect e req) s
    = (Responded {| status := 200; headers := []; body := Some b |},
       unregistered (databaseName req) (record_call (CallClose (databaseName req)) s))
    /\ get_property b "name" = Some (VStr (connectionName c)).
Proof.
  intros Hdb Hc Hf. unfold run, disconnect. rewrite Hdb.
  rewrite (bind_ret _ _ _ _ _ (destructure_connection_own _ _ _ _ Hc)).
  cbn [fst snd]. unfold try_catch.
  rewrite (bind_ret _ _ _ _ _ (backend_call_ok _ _ _ Hf)).
  unfold delete_connection, unregistered.
  destruct (String.eqb (databaseName req) "__proto__"); (eexists; split; reflexivity).
Qed.

(** X6. Disconnect of a registered database: the client is closed (the
    one backend call); when the close goes through the answer is 200 with
    the alias of the connection as [name], the entry is deleted and the
    other entries and the collections are as they were; a second
    Disconnect of the same name then throws on the destructuring and is
    not answered, unless the registry inherits the name. The prototype of
    the registry is no own property: a Disconnect of [__proto__], when an
    entry was assigned under that name, closes the client and leaves the
    registry as it was. When the close throws the answer is 500 and the
    entry stays. *)
Theorem disconnect_removes_entry e req s c :
  is_empty (databaseName req) = false ->
  CONNECTED_CLIENTS s !! databaseName req = Some c ->
  let db := databaseName req in
  let s' := {| CONNECTED_CLIENTS :=
                 if String.eqb db "__proto__" then CONNECTED_CLIENTS s
                 else delete db (CONNECTED_CLIENTS s);
               collections := collections s;
               calls := calls s ++ [CallClose db];
               faults := tail (faults s) |} in
  (head (faults s) <> Some true ->
   (exists b, run (disconnect e req) s
              = (Responded {| status := 200; headers := []; body := Some b |}, s')
              /\ get_property b "name" = Some (VStr (connectionName c)))
   /\ (forall other, other <> db ->
         CONNECTED_CLIENTS s' !! other = CONNECTED_CLIENTS s !! other)
   /\ (db <> "__proto__" -> CONNECTED_CLIENTS s' !! db = None)
   /\ (existsb (String.eqb db) (inherited_keys s') = false ->
       run (disconnect e req) s' = (Rejected TypeError, s')))
  /\ (head (faults s) = Some true ->
      exists b, run (disconnect e req) s
                = (Responded {| status := 500; headers := []; body := Some b |},
                   record_call (CallClose db) s)).
Proof.
  intros Hdb Hc db s'. split.
  - intros Hf. split; [exact (disconnect_ok e req s c Hdb Hc Hf) |].
    assert (Hgone : String.eqb db "__proto__" = false -> CONNECTED_CLIENTS s' !! db = None).
    { intros Hne. cbn. rewrite Hne. apply lookup_delete_eq. }
    split; [| split].
    + intros other Hne. cbn. destruct (String.eqb db "__proto__"); [reflexivity |].
      apply lookup_delete_ne. congruence.
    + intros Hne. apply Hgone. apply String.eqb_neq. exact Hne.
    + intros Hin. unfold run, disconnect. rewrite Hdb. unfold bind.
      rewrite (destructure_connection_absent (databaseName req) s' []
                 (Hgone (not_prototype_not_proto _ (not_inherited_not_prototype _ _ Hin))) Hin).
      reflexivity.
  - intros Hf. unfold run, disconnect. rewrite Hdb.
    rewrite (bind_ret _ _ _ _ _ (destructure_connection_own _ _ _ _ Hc)).
    cbn [fst snd]. unfold try_catch, bind.
    rewrite (backend_call_fault _ _ _ Hf). eexists. reflexivity.
Qed.

Lemma disconnect_removes_entry_witness :
  exists b,
    run (disconnect sample_env (request_for "shop" id1 None VUndefined))
        (connected "shop" [stored_a])
    = (Responded {| status := 200; headers := []; body := Some b |},
       {| CONNECTED_CLIENTS := delete "shop" (CONNECTED_CLIENTS (connected "shop" [stored_a]));
          collections := collections (connected "shop" [stored_a]);
          calls := [CallClose "shop"];
          faults := [] |})
    /\ get_property b "name" = Some (VStr "happy-otter").
Proof.
  refine (proj1 (proj1 (disconnect_removes_entry sample_env
                          (request_for "shop" id1 None VUndefined)
                          (connected "shop" [stored_a])
                          {| client := 1; connectionName := "happy-otter" |} _ _) _)).
  - vm_compute. reflexivity.
  - vm_compute. reflexivity.
  - vm_compute. discriminate.
Defined.

(** X7. Connect then Disconnect is a round trip: for a name the registry
    does not hold (and other than [__proto__]), when the handshake and the
    close go through, both are answered 200, Disconnect returns the alias
    that Connect returned, and the registry and the collections are at the
    end what they were at the start. *)
Theorem connect_then_disconnect P e w uri req s cl :
  is_empty (databaseName req) = false ->
  String.eqb (databaseName req) "__proto__" = false ->
  missing_text uri = false ->
  handshake P w uri = Some cl ->
  CONNECTED_CLIENTS s !! databaseName req = None ->
  head (faults s) <> Some true ->
  exists b1 s1 b2 s2,
    run (connect P e w uri req) s
    = (Responded {| status := 200; headers := []; body := Some b1 |}, s1)
    /\ run (disconnect e req) s1
       = (Responded {| status := 200; headers := []; body := Some b2 |}, s2)
    /\ get_property b1 "name" = Some (VStr (randomPetName w))
    /\ get_property b2 "name" = Some (VStr (randomPetName w))
    /\ CONNECTED_CLIENTS s2 = CONNECTED_CLIENTS s
    /\ collections s2 = collections s.
Proof.
  intros Hdb Hproto Huri Hh Hnone Hf.
  destruct (connect_ok P e w uri req s cl Hdb Huri Hh) as [b1 [H1 Hn1]].
  set (entry := {| client := cl; connectionName := randomPetName w |}) in *.
  assert (Hc : CONNECTED_CLIENTS (registered (databaseName req) entry s) !! databaseName req
               = Some entry) by (cbn; apply lookup_insert_eq).
  destruct (disconnect_ok e req (registered (databaseName req) entry s) entry Hdb Hc Hf)
    as [b2 [H2 Hn2]].
  eexists b1, _, b2, _. split; [exact H1 |]. split; [exact H2 |].
  split; [exact Hn1 |]. split; [exact Hn2 |]. split; [| reflexivity].
  cbn. rewrite Hproto, delete_insert_eq. apply delete_id. exact Hnone.
Qed.

Lemma connect_then_disconnect_witness :
  exists b1 s1 b2 s2,
    run (connect sample_platform sample_env sample_connecting (Some "mongodb://localhost")
           (request_for "stock" id1 None VUndefined)) (connected "shop" [stored_a])
    = (Responded {| status := 200; headers := []; body := Some b1 |}, s1)
    /\ run (disconnect sample_env (request_for "stock" id1 None VUndefined)) s1
       = (Responded {| status := 200; headers := []; body := Some b2 |}, s2)
    /\ get_property b1 "name" = Some (VStr "brave-heron")
    /\ get_property b2 "name" = Some (VStr "brave-heron")
    /\ CONNECTED_CLIENTS s2 = CONNECTED_CLIENTS (connected "shop" [stored_a])
    /\ collections s2 = collections (connected "shop" [stored_a]).
Proof.
  refine (connect_then_disconnect sample_platform sample_env sample_connecting
            (Some "mongodb://localhost") (request_for "stock" id1 None VUndefined)
            (connected "shop" [stored_a]) 7%nat _ _ _ _ _ _).
  - vm_compute. reflexivity.
  - vm_compute. reflexivity.
  - vm_compute. reflexivity.
  - vm_compute. reflexivity.
  - vm_compute. reflexivity.
  - vm_compute. discriminate.
Defined.

(** ** The create branch *)

Lemma find_app_last {A} (f : A -> bool) l x :
  List.find f l = None -> List.find f (l ++ [x]) = if f x then Some x else None.
Proof.
  induction l as [| a l IH]; cbn; [reflexivity |].
  destruct (f a); [discriminate | exact IH].
Qed.

Lemma existsb_app_last {A} (f : A -> bool) l x :
  existsb f l = false -> existsb f (l ++ [x]) = f x.
Proof. intros H. rewrite existsb_app, H. cbn. apply orb_false_r. Qed.

Lemma existsb_false_find {A} (f : A -> bool) l : existsb f l = false -> List.find f l = None.
Proof.
  induction l as [| a l IH]; cbn; [reflexivity |].
  destruct (f a); [discriminate | exact IH].
Qed.

Lemma matches_id_stored h g o :
  get_own "_id" o = Some (VOid g) ->
  matches_id (VOid h) (bson (VObj o)) = String.eqb h g.
Proof.
  intros Hg. unfold matches_id, doc_id. rewrite bson_object, get_own_bson_fields, Hg.
  reflexivity.
Qed.

Lemma stripped_stringifies v stripped :
  removeComputedProperties v = Some stripped -> JSON_stringify v = Some (serialize v).
Proof. destruct v; cbn; intros H; try discriminate; reflexivity. Qed.

Lemma put_document_create_run P e req s c stripped :
  PlatformLaws P ->
  CONNECTED_CLIENTS s !! databaseName req = Some c ->
  is_hex24 (mongoId req) = true ->
  head (faults s) <> Some true ->
  head (tail (faults s)) <> Some true ->
  let db := databaseName req in
  let coll := collectionName req in
  let q := VOid (toLowerCase (mongoId req)) in
  List.find (matches_id q) (documents s db coll) = None ->
  removeComputedProperties (req_body req) = Some stripped ->
  let newDocument :=
    set_all (set_all [] stripped)
      [ ("_createdAt", VStr (now e)); ("_id", q); ("_lastModified", VNull) ] in
  run (put_document P e req) s
  = (Responded {| status := 201;
                  headers := set_header "Last-Modified" (now e)
                               (set_header "ETag"
                                  (SHA256.digest_base64 (serialize (req_body req))) []);
                  body := Some (VObj [ ("_id", q) ]) |},
     with_documents
       (record_call (CallInsertOne db coll (VObj newDocument))
          (record_call (CallFindOne db coll q) s))
       db coll (documents s db coll ++ [bson (VObj newDocument)])).
Proof.
  intros HP Hc Hid Hf1 Hf2 db coll q Hfind Hb newDocument.
  destruct (oid_hex P HP _ Hid) as [Hnew _].
  pose proof (stripped_stringifies _ _ Hb) as Hjson.
  assert (Hq : get_own "_id" newDocument = Some q).
  { unfold newDocument. rewrite !set_all_cons, set_all_nil, !get_own_obj_set. reflexivity. }
  set (s1 := record_call (CallFindOne db coll q) s).
  pose proof (insertOne_ok (fresh_id e) db coll newDocument _ s1 [] Hf2 Hq
                (find_none_existsb _ _ Hfind)) as Hins.
  unfold run, put_document.
  rewrite (bind_ret _ _ _ _ _ (destructure_connection_own _ _ _ _ Hc)).
  cbn [fst snd]. unfold new_ObjectId, or_throw. rewrite Hnew, (is_hex24_not_empty _ Hid).
  cbv beta iota delta [try_catch bind ret].
  rewrite (findOne_ok _ _ _ _ _ Hf1). fold db coll q s1. rewrite Hfind.
  unfold create_document. cbv beta iota delta [bind].
  unfold strip, or_throw. rewrite Hb. cbv beta iota delta [ret].
  fold db coll. fold newDocument. rewrite Hins.
  unfold sha256_base64_of_json, fingerprint, or_throw. rewrite Hjson. reflexivity.
Qed.

(** X8. PUT with an identifier that selects no document, then GetById
    with the same identifier: the PUT is answered 201 with the identifier
    as [_id], [Last-Modified] the time of the request and [ETag] the digest
    of the request body; it stores the body without its underscore keys,
    with [_createdAt] the time of the request, [_id] the identifier and
    [_lastModified] null, after the documents already there; the GET is
    answered 200 with that document as its only item. *)
Theorem create_then_get P e req s c stripped :
  PlatformLaws P ->
  CONNECTED_CLIENTS s !! databaseName req = Some c ->
  is_hex24 (mongoId req) = true ->
  head (faults s) <> Some true ->
  head (tail (faults s)) <> Some true ->
  head (tail (tail (faults s))) <> Some true ->
  let db := databaseName req in
  let coll := collectionName req in
  let q := VOid (toLowerCase (mongoId req)) in
  List.find (matches_id q) (documents s db coll) = None ->
  removeComputedProperties (req_body req) = Some stripped ->
  let newDocument :=
    set_all (set_all [] stripped)
      [ ("_createdAt", VStr (now e)); ("_id", q); ("_lastModified", VNull) ] in
  exists r s1 s2,
    run (put_document P e req) s = (Responded r, s1)
    /\ status r = 201
    /\ body r = Some (VObj [ ("_id", q) ])
    /\ get_header "Last-Modified" r = Some (now e)
    /\ get_header "ETag" r = fingerprint (req_body req)
    /\ documents s1 db coll = documents s db coll ++ [bson (VObj newDocument)]
    /\ run (get_document P e req) s1
       = (Responded {| status := 200; headers := [];
                       body := Some (VObj [ ("items", VArr [bson (VObj newDocument)]);
                                            ("count", VNum 1) ]) |}, s2).
Proof.
  intros HP Hc Hid Hf1 Hf2 Hf3 db coll q Hfind Hb newDocument.
  destruct (oid_hex P HP _ Hid) as [Hnew Hvalid].
  pose proof (put_document_create_run P e req s c stripped HP Hc Hid Hf1 Hf2 Hfind Hb) as Hput.
  cbv zeta in Hput. fold db coll q newDocument in Hput.
  set (s1 := with_documents _ db coll _) in Hput.
  assert (Hq : get_own "_id" newDocument = Some q).
  { unfold newDocument. rewrite !set_all_cons, set_all_nil, !get_own_obj_set. reflexivity. }
  assert (Hdocs : documents s1 db coll = documents s db coll ++ [bson (VObj newDocument)])
    by apply documents_with_documents.
  eexists _, s1, _. split; [exact Hput |].
  split; [reflexivity |]. split; [reflexivity |]. split; [reflexivity |].
  split; [unfold fingerprint; rewrite (stripped_stringifies _ _ Hb); reflexivity |].
  split; [exact Hdocs |].
  unfold run, get_document.
  rewrite (bind_ret _ _ _ _ _ (destructure_connection_own _ s1 _ _ Hc)).
  cbn [fst snd]. rewrite Hvalid. cbn [negb].
  unfold new_ObjectId, or_throw. rewrite Hnew.
  cbv beta iota delta [try_catch bind ret].
  rewrite (findOne_ok _ _ _ s1 _ Hf3). fold db coll q. rewrite Hdocs.
  assert (Hm : matches_id q (bson (VObj newDocument)) = true).
  { unfold q. rewrite (matches_id_stored _ _ _ Hq). apply String.eqb_refl. }
  rewrite (find_app_last _ _ _ Hfind), Hm. reflexivity.
Qed.

Lemma create_then_get_witness :
  exists r s1 s2,
    run (put_document sample_platform sample_env
           (request_for "shop" id1 None body_with_computed)) (connected "shop" []) = (Responded r, s1)
    /\ status r = 201
    /\ body r = Some (VObj [ ("_id", VOid id1) ])
    /\ get_header "Last-Modified" r = Some "2024-05-06T07:08:09.010Z"
    /\ get_header "ETag" r = fingerprint body_with_computed
    /\ documents s1 "shop" "things"
       = [ VObj [ ("name", VStr "a"); ("_createdAt", VStr "2024-05-06T07:08:09.010Z");
                  ("_id", VOid id1); ("_lastModified", VNull) ] ]
    /\ run (get_document sample_platform sample_env
              (request_for "shop" id1 None body_with_computed)) s1
       = (Responded {| status := 200; headers := [];
                       body := Some (VObj [ ("items",
                                             VArr [ VObj [ ("name", VStr "a");
                                                           ("_createdAt", VStr "2024-05-06T07:08:09.010Z");
                                                           ("_id", VOid id1);
                                                           ("_lastModified", VNull) ] ]);
                                            ("count", VNum 1) ]) |}, s2).
Proof.
  refine (create_then_get sample_platform sample_env
            (request_for "shop" id1 None body_with_computed) (connected "shop" [])
            {| client := 1; connectionName := "happy-otter" |} [("name", VStr "a")]
            _ _ _ _ _ _ _ _).
  - exact sample_platform_laws.
  - vm_compute. reflexivity.
  - vm_compute. reflexivity.
  - vm_compute. discriminate.
  - vm_compute. discriminate.
  - vm_compute. discriminate.
  - vm_compute. reflexivity.
  - vm_compute. reflexivity.
Defined.

(** X9. The collection-level PUT of [index.js] does not store under the
    identifier it was given: when the [_id] of the body selects no
    document, the new document is the body without its underscore keys
    (so without that [_id]) plus [_createdAt] and [_lastModified], the
    driver gives it a generated identifier, and the answer is 201 with the
    generated identifier as [_id]. The identifier of the request still
    selects no document afterwards, so that the same request creates
    again. *)
Theorem put_collection_create_fresh_id P e req s c stripped :
  PlatformLaws P ->
  CONNECTED_CLIENTS s !! databaseName req = Some c ->
  get_property (req_body req) "_id" = Some (VStr (mongoId req)) ->
  is_hex24 (mongoId req) = true ->
  head (faults s) <> Some true ->
  head (tail (faults s)) <> Some true ->
  let db := databaseName req in
  let coll := collectionName req in
  let q := VOid (toLowerCase (mongoId req)) in
  List.find (matches_id q) (documents s db coll) = None ->
  removeComputedProperties (req_body req) = Some stripped ->
  existsb (matches_id (VOid (fresh_id e))) (documents s db coll) = false ->
  fresh_id e <> toLowerCase (mongoId req) ->
  let newResource :=
    set_all (set_all [] stripped) [ ("_createdAt", VStr (now e)); ("_lastModified", VNull) ] in
  let stored := bson (VObj (obj_set newResource "_id" (VOid (fresh_id e)))) in
  exists r s',
    run (put_collection P e req) s = (Responded r, s')
    /\ status r = 201
    /\ body r = Some (VObj [ ("_id", VOid (fresh_id e)) ])
    /\ get_own "_id" newResource = None
    /\ documents s' db coll = documents s db coll ++ [stored]
    /\ List.find (matches_id q) (documents s' db coll) = None
    /\ List.find (matches_id (VOid (fresh_id e))) (documents s' db coll) = Some stored.
Proof.
  intros HP Hc Hbid Hid Hf1 Hf2 db coll q Hfind Hb Hfresh Hne newResource stored.
  pose proof (stripped_stringifies _ _ Hb) as Hjson.
  assert (Hnone : get_own "_id" newResource = None).
  { unfold newResource. rewrite !set_all_cons, set_all_nil, !get_own_obj_set.
    change (String.eqb "_id" "_lastModified") with false.
    change (String.eqb "_id" "_createdAt") with false. cbv iota.
    rewrite (get_own_set_all "_id" stripped [] (removeComputedProperties_NoDup _ _ Hb)).
    unfold merged_field. rewrite (get_own_stripped_computed _ _ "_id" Hb eq_refl).
    reflexivity. }
  assert (Hset : get_own "_id" (obj_set newResource "_id" (VOid (fresh_id e)))
                 = Some (VOid (fresh_id e))).
  { rewrite get_own_obj_set. reflexivity. }
  set (s1 := record_call (CallFindOne db coll q) s).
  assert (Hins : insertOne (fresh_id e) db coll newResource (s1, [])
                 = (Ret (VOid (fresh_id e)),
                    (with_documents (record_call (CallInsertOne db coll (VObj newResource)) s1)
                       db coll (documents s db coll ++ [stored]), []))).
  { assert (Hd1 : doc_id (VObj newResource) = VUndefined)
      by (unfold doc_id; rewrite Hnone; reflexivity).
    assert (Hd2 : doc_id (VObj (obj_set newResource "_id" (VOid (fresh_id e))))
                  = VOid (fresh_id e))
      by (unfold doc_id; rewrite Hset; reflexivity).
    unfold insertOne. rewrite (bind_ret _ _ _ _ _ (backend_call_ok _ s1 _ Hf2)).
    cbv zeta. rewrite Hd1. cbn [nullish]. rewrite Hd2.
    unfold bind, get_state. cbn [fst snd].
    change (documents (record_call _ s1) db coll) with (documents s db coll).
    rewrite Hfresh. reflexivity. }
  eexists _, (with_documents (record_call (CallInsertOne db coll (VObj newResource)) s1)
                db coll (documents s db coll ++ [stored])).
  split; [| split; [| split; [| split; [| split; [| split]]]]].
  - rewrite (put_collection_lookup P e req s c HP Hc Hbid Hid). fold db coll q.
    unfold run, on_error. cbv beta iota delta [try_catch bind].
    rewrite (findOne_ok _ _ _ _ _ Hf1). fold s1. rewrite Hfind.
    unfold create_resource. cbv beta iota delta [bind].
    unfold strip, or_throw. rewrite Hb. cbv beta iota delta [ret].
    fold db coll. fold newResource. rewrite Hins.
    unfold sha256_base64_of_json, fingerprint, or_throw. rewrite Hjson. reflexivity.
  - reflexivity.
  - reflexivity.
  - exact Hnone.
  - apply documents_with_documents.
  - rewrite documents_with_documents, (find_app_last _ _ _ Hfind).
    unfold stored, q. rewrite (matches_id_stored _ _ _ Hset).
    destruct (String.eqb_spec (toLowerCase (mongoId req)) (fresh_id e)) as [Heq | _];
      [congruence | reflexivity].
  - rewrite documents_with_documents.
    rewrite (find_app_last _ _ _ (existsb_false_find _ _ Hfresh)). unfold stored.
    rewrite (matches_id_stored _ _ _ Hset), String.eqb_refl. reflexivity.
Qed.

Lemma put_collection_create_fresh_id_witness :
  let sent := VObj [ ("_id", VStr id1); ("name", VStr "a") ] in
  exists r s',
    run (put_collection sample_platform sample_env (request_for "shop" id1 None sent))
        (connected "shop" [])
    = (Responded r, s')
    /\ status r = 201
    /\ body r = Some (VObj [ ("_id", VOid "65f000000000000000000001") ])
    /\ List.find (matches_id (VOid id1)) (documents s' "shop" "things") = None.
Proof.
  intros sent.
  destruct (put_collection_create_fresh_id sample_platform sample_env
              (request_for "shop" id1 None sent) (connected "shop" [])
              {| client := 1; connectionName := "happy-otter" |} [("name", VStr "a")])
    as (r & s' & Hrun & Hs & Hb & _ & _ & Hq & _).
  - exact sample_platform_laws.
  - vm_compute. reflexivity.
  - vm_compute. reflexivity.
  - vm_compute. reflexivity.
  - vm_compute. discriminate.
  - vm_compute. discriminate.
  - vm_compute. reflexivity.
  - vm_compute. reflexivity.
  - vm_compute. reflexivity.
  - vm_compute. discriminate.
  - exists r, s'. split; [exact Hrun |]. split; [exact Hs |]. split; [exact Hb | exact Hq].
Defined.

(** ** The update branch after a refusal *)

Lemma get_header_after_refusal etag lm :
  List.find (fun kv : string * string => String.eqb "ETag" (fst kv))
    (set_header "Last-Modified" lm (set_header "ETag" etag []))
  = Some ("ETag", etag).
Proof. reflexivity. Qed.

(** X10. The ETag of a refusal opens the update: when a PUT on an existing
    document is refused (409 without If-Match, 412 with another value)
    and nothing is written, the same request repeated with the [ETag] of
    the refusal as If-Match is answered 204 and replaces the document by
    the stored fields overlaid with the body, [_lastModified] the time of
    the request. *)
Theorem refusal_then_retry P e req s c o lm request :
  PlatformLaws P ->
  CONNECTED_CLIENTS s !! databaseName req = Some c ->
  is_hex24 (mongoId req) = true ->
  head (faults s) <> Some true ->
  head (tail (faults s)) <> Some true ->
  head (tail (tail (faults s))) <> Some true ->
  is_iso_timestamp (now e) = true ->
  let db := databaseName req in
  let coll := collectionName req in
  let q := VOid (toLowerCase (mongoId req)) in
  List.find (matches_id q) (documents s db coll) = Some (VObj o) ->
  Date_toISOString P (last_modified_or_created (VObj o)) = Some lm ->
  if_match req <> currentETag (VObj o) ->
  removeComputedProperties (req_body req) = Some request ->
  exists r1 s1 r2 s2,
    run (put_document P e req) s = (Responded r1, s1)
    /\ status r1 = (if header_missing (if_match req) then 409 else 412)
    /\ collections s1 = collections s
    /\ run (put_document P e (with_if_match req (get_header "ETag" r1))) s1 = (Responded r2, s2)
    /\ status r2 = 204
    /\ documents s2 db coll
       = replace_first q (bson (VObj (updated_document e q o request))) (documents s db coll).
Proof.
  intros HP Hc Hid Hf1 Hf2 Hf3 Hiso db coll q Hfind Hdate Hne Hb.
  pose proof (date_iso P HP _ Hiso) as Hnow.
  set (s1 := record_call (CallFindOne db coll q) s).
  destruct (update_existing_rejected P e req q o s1 [] lm Hdate Hne)
    as (etag & b & Hetag & Hrun).
  set (req' := with_if_match req (Some etag)).
  assert (Hfind' : List.find (matches_id q) (documents s1 (databaseName req') (collectionName req'))
                   = Some (VObj o)) by exact Hfind.
  assert (Hf2' : head (faults s1) <> Some true) by exact Hf2.
  set (s2 := record_call (CallFindOne db coll q) s1).
  assert (Hf3' : head (faults s2) <> Some true) by exact Hf3.
  pose proof (update_existing_success P e req' q o s2 [] request (eq_sym Hetag) Hb Hf3' Hnow)
    as Hrun2.
  cbv zeta in Hrun2.
  eexists _, s1, _, _. split; [| split; [| split; [| split; [| split]]]].
  - rewrite (put_document_found P e req s c (VObj o) HP Hc Hid Hf1 Hfind).
    fold db coll q s1. unfold run, try_catch. rewrite Hrun. reflexivity.
  - reflexivity.
  - reflexivity.
  - change (with_if_match req _) with req'.
    rewrite (put_document_found P e req' s1 c (VObj o) HP Hc Hid Hf2' Hfind').
    change (databaseName req') with db. change (collectionName req') with coll.
    change (mongoId req') with (mongoId req). fold q s2.
    unfold run, try_catch. rewrite Hrun2. reflexivity.
  - reflexivity.
  - change (databaseName req') with db. change (collectionName req') with coll.
    apply documents_with_documents.
Qed.

Lemma refusal_then_retry_witness :
  exists r1 s1 r2 s2,
    run (put_document sample_platform sample_env (request_for "shop" id1 None body_age))
        (connected "shop" [stored_a]) = (Responded r1, s1)
    /\ status r1 = 409
    /\ collections s1 = collections (connected "shop" [stored_a])
    /\ run (put_document sample_platform sample_env
              (with_if_match (request_for "shop" id1 None body_age) (get_header "ETag" r1))) s1
       = (Responded r2, s2)
    /\ status r2 = 204
    /\ documents s2 "shop" "things"
       = [ VObj [ ("name", VStr "a"); ("age", VNum 3); ("_id", VOid id1);
                  ("_lastModified", VStr "2024-05-06T07:08:09.010Z");
                  ("_createdAt", VStr "2024-01-02T03:04:05.006Z") ] ].
Proof.
  refine (refusal_then_retry sample_platform sample_env
            (request_for "shop" id1 None body_age) (connected "shop" [stored_a])
            {| client := 1; connectionName := "happy-otter" |}
            [ ("_id", VOid id1); ("name", VStr "a");
              ("_createdAt", VStr "2024-01-02T03:04:05.006Z"); ("_lastModified", VNull) ]
            "2024-01-02T03:04:05.006Z" [("age", VNum 3)] _ _ _ _ _ _ _ _ _ _ _).
  - exact sample_platform_laws.
  - vm_compute. reflexivity.
  - vm_compute. reflexivity.
  - vm_compute. discriminate.
  - vm_compute. discriminate.
  - vm_compute. discriminate.
  - vm_compute. reflexivity.
  - vm_compute. reflexivity.
  - vm_compute. reflexivity.
  - vm_compute. discriminate.
  - vm_compute. reflexivity.
Defined.

(** ** DeleteById, then *)

Lemma selected_remove_first q docs :
  selected q (remove_first q docs) = tail (selected q docs).
Proof.
  unfold selected. induction docs as [| d docs IH]; [reflexivity |].
  cbn [remove_first List.filter]. destruct (matches_id q d) eqn:Hm.
  - reflexivity.
  - cbn [List.filter]. rewrite Hm. exact IH.
Qed.

Lemma selected_nil_existsb q docs : selected q docs = [] -> existsb (matches_id q) docs = false.
Proof.
  unfold selected. induction docs as [| d docs IH]; [reflexivity |].
  cbn [List.filter existsb]. destruct (matches_id q d); [discriminate | exact IH].
Qed.

Lemma selected_cons_existsb q docs d l :
  selected q docs = d :: l -> existsb (matches_id q) docs = true.
Proof.
  unfold selected. induction docs as [| d' docs IH]; [discriminate |].
  cbn [List.filter existsb]. destruct (matches_id q d'); [reflexivity | exact IH].
Qed.

Lemma delete_document_run P e req s c h :
  CONNECTED_CLIENTS s !! databaseName req = Some c ->
  ObjectId_new P (VStr (mongoId req)) = Some h ->
  head (faults s) <> Some true ->
  let db := databaseName req in
  let coll := collectionName req in
  run (delete_document P e req) s
  = if existsb (matches_id (VOid h)) (documents s db coll)
    then (Responded {| status := 204; headers := []; body := None |},
          with_documents (record_call (CallDeleteOne db coll (VOid h)) s) db coll
            (remove_first (VOid h) (documents s db coll)))
    else (Responded {| status := 404; headers := [];
                       body := Some (VObj [ ("name", VStr (connectionName c));
                                            ("message",
                                             VStr ("NOT_FOUND: Could not find document ("
                                                   +:+ collectionName req +:+ "/"
                                                   +:+ mongoId req +:+ ")"));
                                            timestamp e ]) |},
          record_call (CallDeleteOne db coll (VOid h)) s).
Proof.
  intros Hc Hid Hf db coll. unfold run, delete_document.
  rewrite (bind_ret _ _ _ _ _ (destructure_connection_own _ _ _ _ Hc)).
  cbn [fst snd]. unfold new_ObjectId, or_throw. rewrite Hid.
  unfold try_catch, bind, ret. cbn [fst snd].
  rewrite (deleteOne_ok _ _ _ _ _ Hf). cbv zeta. fold db coll.
  destruct (existsb (matches_id (VOid h)) (documents s db coll)); reflexivity.
Qed.

(** X11. A deleted document is gone: when the identifier selects exactly
    one document of the collection, DeleteById is answered 204 with no
    body and removes that document and no other; GetById with the same
    identifier is then answered 404 with no item, and a second DeleteById
    is answered 404 and removes nothing. *)
Theorem delete_then_gone P e req s c h :
  CONNECTED_CLIENTS s !! databaseName req = Some c ->
  ObjectId_new P (VStr (mongoId req)) = Some h ->
  ObjectId_isValid P (mongoId req) = true ->
  head (faults s) <> Some true ->
  head (tail (faults s)) <> Some true ->
  head (tail (tail (faults s))) <> Some true ->
  let db := databaseName req in
  let coll := collectionName req in
  length (selected (VOid h) (documents s db coll)) = 1%nat ->
  exists s1 s2 b s3,
    run (delete_document P e req) s
    = (Responded {| status := 204; headers := []; body := None |}, s1)
    /\ documents s1 db coll = remove_first (VOid h) (documents s db coll)
    /\ (length (documents s db coll) = S (length (documents s1 db coll)))
    /\ run (get_document P e req) s1
       = (Responded {| status := 404; headers := [];
                       body := Some (VObj [ ("items", VArr []); ("count", VNum 0) ]) |}, s2)
    /\ run (delete_document P e req) s2
       = (Responded {| status := 404; headers := []; body := Some b |}, s3)
    /\ collections s3 = collections s1.
Proof.
  intros Hc Hid Hv Hf1 Hf2 Hf3 db coll Hone.
  destruct (selected (VOid h) (documents s db coll)) as [| d [| d' l]] eqn:Hsel;
    try discriminate.
  pose proof (selected_cons_existsb _ _ _ _ Hsel) as Hex.
  set (s1 := with_documents (record_call (CallDeleteOne db coll (VOid h)) s) db coll
               (remove_first (VOid h) (documents s db coll))).
  assert (Hdocs : documents s1 db coll = remove_first (VOid h) (documents s db coll))
    by apply documents_with_documents.
  assert (Hgone : existsb (matches_id (VOid h)) (documents s1 db coll) = false).
  { apply selected_nil_existsb. rewrite Hdocs, selected_remove_first, Hsel. reflexivity. }
  set (s2 := record_call (CallFindOne db coll (VOid h)) s1).
  assert (Hf2' : head (faults s1) <> Some true) by exact Hf2.
  assert (Hf3' : head (faults s2) <> Some true) by exact Hf3.
  pose proof (delete_document_run P e req) as Hdel. cbv zeta in Hdel. fold db coll in Hdel.
  eexists s1, s2, _, _. split; [| split; [| split; [| split; [| split]]]].
  - rewrite (Hdel s c h Hc Hid Hf1), Hex. reflexivity.
  - exact Hdocs.
  - rewrite Hdocs. clear - Hex. induction (documents s db coll) as [| a l IH]; [discriminate |].
    cbn [remove_first existsb] in *. destruct (matches_id (VOid h) a); [reflexivity |].
    cbn [length]. f_equal. exact (IH Hex).
  - unfold run, get_document.
    rewrite (bind_ret _ _ _ _ _ (destructure_connection_own _ s1 _ _ Hc)).
    cbn [fst snd]. rewrite Hv. cbn [negb].
    unfold new_ObjectId, or_throw. rewrite Hid.
    cbv beta iota delta [try_catch bind ret].
    rewrite (findOne_ok _ _ _ s1 _ Hf2'). fold db coll s2.
    rewrite (existsb_false_find _ _ Hgone). reflexivity.
  - rewrite (Hdel s2 c h Hc Hid Hf3').
    change (documents s2 db coll) with (documents s1 db coll). rewrite Hgone. reflexivity.
  - reflexivity.
Qed.

Lemma delete_then_gone_witness :
  exists s1 s2 b s3,
    run (delete_document sample_platform sample_env (request_for "shop" id1 None VUndefined))
        (connected "shop" [doc_ab; stored_a])
    = (Responded {| status := 204; headers := []; body := None |}, s1)
    /\ documents s1 "shop" "things" = [doc_ab]
    /\ (2 = S (length (documents s1 "shop" "things")))%nat
    /\ run (get_document sample_platform sample_env (request_for "shop" id1 None VUndefined)) s1
       = (Responded {| status := 404; headers := [];
                       body := Some (VObj [ ("items", VArr []); ("count", VNum 0) ]) |}, s2)
    /\ run (delete_document sample_platform sample_env (request_for "shop" id1 None VUndefined))
           s2
       = (Responded {| status := 404; headers := []; body := Some b |}, s3)
    /\ collections s3 = collections s1.
Proof.
  refine (delete_then_gone sample_platform sample_env (request_for "shop" id1 None VUndefined)
            (connected "shop" [doc_ab; stored_a])
            {| client := 1; connectionName := "happy-otter" |} id1 _ _ _ _ _ _ _).
  - vm_compute. reflexivity.
  - vm_compute. reflexivity.
  - vm_compute. reflexivity.
  - vm_compute. discriminate.
  - vm_compute. discriminate.
  - vm_compute. discriminate.
  - vm_compute. reflexivity.
Defined.

(** ** Every request is answered *)

Lemma answers_weaken (ok ok' : Z -> Prop) m :
  (forall code, ok code -> ok' code) -> answers ok m -> answers ok' m.
Proof.
  intros Himp Hm st. specialize (Hm st).
  destruct (fst (m st)); [exact Hm | exact Hm | exact (Himp _ Hm)].
Qed.

Lemma answers_in_incl codes codes' m :
  incl codes codes' -> answers_in codes m -> answers_in codes' m.
Proof. intros Hincl. apply answers_weaken. exact Hincl. Qed.

Ltac in_codes := cbn [In]; tauto.
Ltac incl_codes := let x := fresh in let Hx := fresh in intros x Hx; cbn [In] in *; tauto.

Lemma update_existing_answers_in P e req q doc :
  answers_in [409; 412; 204] (update_existing P e req q doc).
Proof.
  unfold answers_in, update_existing. do 4 silent_step.
  destruct (if_match req) as [[| c0 t0] |].
  - do 3 silent_step. apply answers_send. in_codes.
  - destruct (negb _).
    + do 3 silent_step. apply answers_send. in_codes.
    + do 6 silent_step. apply answers_send. in_codes.
  - do 3 silent_step. apply answers_send. in_codes.
Qed.

Lemma create_document_answers_in e req q : answers_in [201] (create_document e req q).
Proof. unfold answers_in, create_document. do 5 silent_step. apply answers_send. in_codes. Qed.

Lemma create_resource_answers_in e req : answers_in [201] (create_resource e req).
Proof. unfold answers_in, create_resource. do 5 silent_step. apply answers_send. in_codes. Qed.

Lemma sends_in_send codes code b : In code codes -> sends_in codes (send code b).
Proof. intros H st. eexists _, _. split; [reflexivity | exact H]. Qed.

Lemma sends_in_try_catch codes m code b :
  answers_in codes m -> In code codes -> sends_in codes (try_catch m (fun _ => send code b)).
Proof.
  intros Hm Hcode st. unfold try_catch. specialize (Hm st).
  destruct (m st) as [[a | ex | r] st1]; cbn in *.
  - contradiction.
  - eexists _, _. split; [reflexivity | exact Hcode].
  - eexists _, _. split; [reflexivity | exact Hm].
Qed.

(** The stopgap [try] that opens PUT and DeleteById. *)
Lemma sends_in_after_check codes P x b (k : M unit) :
  In 400 codes -> sends_in codes k ->
  sends_in codes
    (let* _ := try_catch (let* _ := new_ObjectId P x in ret tt) (fun _ => send 400 b) in k).
Proof.
  intros H400 Hk st. unfold try_catch, bind, new_ObjectId, or_throw, ret, throw.
  destruct (ObjectId_new P x).
  - apply Hk.
  - eexists _, _. split; [reflexivity | exact H400].
Qed.

Lemma destructure_connection_inherited db s hd :
  CONNECTED_CLIENTS s !! db = None ->
  existsb (String.eqb db) (inherited_keys s) = true ->
  destructure_connection db (s, hd) = (Ret (None, VUndefined), (s, hd)).
Proof.
  intros Hnone Hp. unfold destructure_connection, bind, get_state. cbn [fst].
  rewrite Hnone, Hp. reflexivity.
Qed.

Lemma silent_delete_connection db : silent (delete_connection db).
Proof.
  unfold delete_connection. destruct (String.eqb db "__proto__"); [auto with handlers |].
  apply silent_bind; [auto with handlers | intros ?]. auto with handlers.
Qed.

Lemma responds_after_destructure codes db (k : option nat * value -> M unit) s :
  (forall conn, sends_in codes (k conn)) ->
  responds_in codes db s (run (let* conn := destructure_connection db in k conn) s).
Proof.
  intros Hk. unfold responds_in, run.
  destruct (CONNECTED_CLIENTS s !! db) as [c |] eqn:Hc.
  - rewrite (bind_ret _ _ _ _ _ (destructure_connection_own _ _ _ _ Hc)).
    destruct (Hk (Some (client c), VStr (connectionName c)) (s, [])) as (r & [s' hd'] & -> & Hr).
    left. exists r. split; [reflexivity | exact Hr].
  - destruct (existsb (String.eqb db) (inherited_keys s)) eqn:Hp.
    + rewrite (bind_ret _ _ _ _ _ (destructure_connection_inherited _ _ _ Hc Hp)).
      destruct (Hk (None, VUndefined) (s, [])) as (r & [s' hd'] & -> & Hr).
      left. exists r. split; [reflexivity | exact Hr].
    + rewrite (bind_throw _ _ _ _ _ (destructure_connection_absent _ _ _ Hc Hp)).
      right. split; [reflexivity |]. split; [reflexivity |].
      exact (not_inherited_not_prototype _ _ Hp).
Qed.

(** X12. Every request to the data handlers and to Disconnect, in every
    state, is answered with one of the statuses of its handler, or (when
    the registry holds no entry under the name and [Object.prototype]
    defines none) rejected by the TypeError of the destructuring with the
    state untouched; no handler returns without sending. The statuses
    are: 400, 404, 409, 412, 204, 201, 500 for PUT with an identifier;
    404, 409, 412, 204, 201, 500 for the collection-level PUT; 404, 200,
    500 for List; 404, 400, 200, 500 for GetById; 400, 404, 204, 500 for
    DeleteById; 400, 404, 200, 500 for Disconnect. *)
Theorem handlers_respond_or_reject P e req s :
  let db := databaseName req in
  responds_in [400; 404; 409; 412; 204; 201; 500] db s (run (put_document P e req) s)
  /\ responds_in [404; 409; 412; 204; 201; 500] db s (run (put_collection P e req) s)
  /\ responds_in [404; 200; 500] db s (run (list_documents P e req) s)
  /\ responds_in [404; 400; 200; 500] db s (run (get_document P e req) s)
  /\ responds_in [400; 404; 204; 500] db s (run (delete_document P e req) s)
  /\ responds_in [400; 404; 200; 500] db s (run (disconnect e req) s).
Proof.
  intros db. split; [| split; [| split; [| split; [| split]]]].
  - apply responds_after_destructure. intros conn.
    apply sends_in_after_check; [in_codes |].
    apply sends_in_try_catch; [| in_codes].
    destruct (fst conn); [| apply answers_send; in_codes].
    silent_step; [destruct (is_empty _); auto with handlers |].
    silent_step. destruct a0 as [doc |].
    + apply (answers_in_incl [409; 412; 204]); [incl_codes | apply update_existing_answers_in].
    + apply (answers_in_incl [201]); [incl_codes | apply create_document_answers_in].
  - apply responds_after_destructure. intros conn.
    apply sends_in_try_catch; [| in_codes].
    silent_step. silent_step; [destruct (truthy _); auto with handlers |].
    destruct (fst conn); [| apply answers_send; in_codes].
    silent_step. destruct a1 as [doc |].
    + apply (answers_in_incl [409; 412; 204]); [incl_codes | apply update_existing_answers_in].
    + apply (answers_in_incl [201]); [incl_codes | apply create_resource_answers_in].
  - apply responds_after_destructure. intros conn.
    apply sends_in_try_catch; [| in_codes].
    silent_step.
    { destruct (filter req) as [[| c0 t0] |]; auto with handlers.
      apply silent_bind; [auto with handlers | intros ?]. auto with handlers. }
    destruct (fst conn); [| apply answers_send; in_codes].
    silent_step. destruct (negb _); [apply answers_throw |].
    do 5 silent_step. apply answers_send. in_codes.
  - apply responds_after_destructure. intros conn.
    apply sends_in_try_catch; [| in_codes].
    destruct (fst conn); [| apply answers_send; in_codes].
    destruct (negb _); [apply answers_send; in_codes |].
    do 2 silent_step. destruct a0; apply answers_send; in_codes.
  - apply responds_after_destructure. intros conn.
    apply sends_in_after_check; [in_codes |].
    apply sends_in_try_catch; [| in_codes].
    destruct (fst conn); [| apply answers_send; in_codes].
    do 2 silent_step. destruct (_ =? 0); apply answers_send; in_codes.
  - unfold disconnect. destruct (is_empty (databaseName req)) eqn:Hdb.
    + left. eexists. split; [reflexivity | in_codes].
    + apply responds_after_destructure. intros conn.
      destruct (fst conn); [| apply sends_in_send; in_codes].
      apply sends_in_try_catch; [| in_codes].
      silent_step. apply answers_bind; [apply silent_delete_connection | intros _].
      apply answers_send. in_codes.
Qed.

(** ** Nothing is written unless the answer says so *)

Lemma writes_only_keeps (m : M unit) : keeps collections m -> writes_only_on_success m.
Proof.
  intros Hm st o st' H. left. specialize (Hm st). rewrite H in Hm. exact Hm.
Qed.

Lemma writes_only_bind {A} (m : M A) (k : A -> M unit) :
  keeps collections m -> (forall a, writes_only_on_success (k a)) ->
  writes_only_on_success (bind m k).
Proof.
  intros Hm Hk st o st' H. unfold bind in H. specialize (Hm st).
  destruct (m st) as [[a | ex | r] st1] eqn:Hst; cbn [fst snd] in Hm.
  - destruct (Hk a st1 o st' H) as [Hsame | Hsent]; [left; congruence | right; exact Hsent].
  - injection H as <- <-. left. exact Hm.
  - injection H as <- <-. left. exact Hm.
Qed.

Lemma writes_only_after_write {A} (m : M A) (k : A -> M unit) :
  fails_clean m -> (forall a, sends_in [201; 204] (k a)) ->
  writes_only_on_success (bind m k).
Proof.
  intros Hm Hk st o st' H. unfold bind in H.
  destruct (m st) as [[a | ex | r] st1] eqn:Hst.
  - destruct (Hk a st1) as (r & st2 & Hka & Hr). rewrite Hka in H. injection H as <- <-.
    right. exists r. split; [reflexivity |].
    destruct Hr as [Hr | [Hr | []]]; [left | right]; symmetry; exact Hr.
  - injection H as <- <-. left. apply (Hm st _ _ Hst). discriminate.
  - injection H as <- <-. left. apply (Hm st _ _ Hst). discriminate.
Qed.

Lemma writes_only_try_catch (m : M unit) code b :
  writes_only_on_success m -> writes_only_on_success (try_catch m (fun _ => send code b)).
Proof.
  intros Hm st o st' H. unfold try_catch in H.
  destruct (m st) as [[a | ex | r] st1] eqn:Hst.
  - injection H as <- <-. exact (Hm st _ _ Hst).
  - unfold send in H. injection H as <- <-.
    destruct (Hm st _ _ Hst) as [Hsame | (r & Hr & _)]; [left; exact Hsame | discriminate].
  - injection H as <- <-. exact (Hm st _ _ Hst).
Qed.

Lemma writes_only_run (m : M unit) s :
  writes_only_on_success m -> wrote_only_with_success s (run m s).
Proof.
  intros Hm. unfold wrote_only_with_success, run.
  destruct (m (s, [])) as [o [s' hd']] eqn:Hst.
  destruct (Hm _ _ _ Hst) as [Hsame | (r & -> & Hr)].
  - left. destruct o; exact Hsame.
  - right. exists r. split; [reflexivity | exact Hr].
Qed.

Lemma fails_clean_replaceOne db coll q doc : fails_clean (replaceOne db coll q doc).
Proof.
  intros st o st' H Hnot. unfold replaceOne, bind, backend_call, get_state, put_state in H.
  destruct (faults (fst st)) as [| [|] fs]; cbn [fst snd] in H; injection H as <- <-;
    first [ reflexivity | exfalso; exact (Hnot tt eq_refl) ].
Qed.

Lemma fails_clean_insertOne g db coll doc : fails_clean (insertOne g db coll doc).
Proof.
  intros st o st' H Hnot.
  unfold insertOne, bind, backend_call, get_state, put_state, throw, ret in H.
  destruct (faults (fst st)) as [| [|] fs]; cbn [fst snd] in H.
  - destruct (existsb _ _); injection H as <- <-;
      first [ reflexivity | exfalso; exact (Hnot _ eq_refl) ].
  - injection H as <- <-. reflexivity.
  - destruct (existsb _ _); injection H as <- <-;
      first [ reflexivity | exfalso; exact (Hnot _ eq_refl) ].
Qed.

Lemma writes_only_delete db coll q b :
  writes_only_on_success
    (let* deletedCount := deleteOne db coll q in
     if deletedCount =? 0 then send 404 b else send 204 None).
Proof.
  intros st o st' H.
  unfold deleteOne, bind, backend_call, get_state, put_state, ret, send in H.
  destruct (faults (fst st)) as [| [|] fs]; cbn [fst snd] in H.
  - destruct (existsb _ _); cbn in H; injection H as <- <-;
      [right; eexists; split; [reflexivity | right; reflexivity] | left; reflexivity].
  - injection H as <- <-. left. reflexivity.
  - destruct (existsb _ _); cbn in H; injection H as <- <-;
      [right; eexists; split; [reflexivity | right; reflexivity] | left; reflexivity].
Qed.

Ltac reads_step :=
  apply writes_only_bind;
  [ first [ apply keeps_or_throw | apply keeps_setHeader | apply keeps_get_state
          | apply keeps_new_ObjectId; reflexivity
          | apply keeps_findOne; reflexivity
          | apply keeps_ret ]
  | intros ? ].

Lemma sends_204_after_replace P e (stripped updatedDocument : object) lm :
  get_own "_lastModified" updatedDocument = Some (VStr (now e)) ->
  Date_toISOString P (VStr (now e)) = Some lm ->
  sends_in [201; 204]
    (let* newETag := sha256_base64_of_json (VObj stripped) in
     let* newLastModified :=
       new_Date_toISOString P (default VUndefined (get_own "_lastModified" updatedDocument)) in
     let* _ := setHeader "ETag" newETag in
     let* _ := setHeader "Last-Modified" newLastModified in
     send 204 None).
Proof.
  intros Hg Hd st. rewrite Hg.
  change (default VUndefined (Some (VStr (now e)))) with (VStr (now e)).
  unfold new_Date_toISOString. rewrite Hd.
  eexists _, _. split; [reflexivity |]. cbn. tauto.
Qed.

Lemma writes_only_update_existing P e req q doc :
  Date_toISOString P (VStr (now e)) <> None ->
  writes_only_on_success (update_existing P e req q doc).
Proof.
  intros Hnow.
  assert (Hrefuse : forall etag x code b,
            writes_only_on_success
              (let* _ := setHeader "ETag" etag in
               let* lm := new_Date_toISOString P x in
               let* _ := setHeader "Last-Modified" lm in
               send code b)).
  { intros. apply writes_only_keeps. unfold new_Date_toISOString.
    repeat (apply keeps_bind; [first [apply keeps_setHeader | apply keeps_or_throw] | intros ?]).
    apply keeps_send. }
  unfold update_existing, strip, sha256_base64_of_json. do 4 reads_step.
  destruct (if_match req) as [[| c0 t0] |]; [apply Hrefuse | | apply Hrefuse].
  destruct (negb _); [apply Hrefuse |].
  reads_step. apply writes_only_after_write; [apply fails_clean_replaceOne | intros _].
  destruct (Date_toISOString P (VStr (now e))) as [lm |] eqn:Hd; [| contradiction].
  apply (sends_204_after_replace P e _ _ lm); [| exact Hd].
  rewrite !set_all_cons, set_all_nil, !get_own_obj_set. reflexivity.
Qed.

Lemma writes_only_create (newDocument : object -> object) e req :
  writes_only_on_success
    (let* nonComputedPropsRequestBody := strip (req_body req) in
     let* insertedId :=
       insertOne (fresh_id e) (databaseName req) (collectionName req)
         (newDocument nonComputedPropsRequestBody) in
     let* newETag := sha256_base64_of_json (req_body req) in
     let* _ := setHeader "ETag" newETag in
     let* _ := setHeader "Last-Modified" (now e) in
     send 201 (Some (VObj [ ("_id", insertedId) ]))).
Proof.
  unfold strip.
  destruct (removeComputedProperties (req_body req)) as [stripped |] eqn:Hb.
  - intros st. rewrite (bind_ret (or_throw TypeError (Some stripped)) _ st stripped st eq_refl).
    revert st. change (writes_only_on_success
      (let* insertedId :=
         insertOne (fresh_id e) (databaseName req) (collectionName req) (newDocument stripped) in
       let* newETag := sha256_base64_of_json (req_body req) in
       let* _ := setHeader "ETag" newETag in
       let* _ := setHeader "Last-Modified" (now e) in
       send 201 (Some (VObj [ ("_id", insertedId) ])))).
    apply writes_only_after_write; [apply fails_clean_insertOne | intros insertedId].
    intros st. unfold bind, sha256_base64_of_json, or_throw, fingerprint.
    rewrite (stripped_stringifies _ _ Hb). cbn [option_map].
    eexists _, _. split; [reflexivity |]. cbn. tauto.
  - intros st o st' H. rewrite (bind_throw (or_throw TypeError None) _ st TypeError st eq_refl) in H.
    injection H as <- <-. left. reflexivity.
Qed.

(** X13. No partial write: when the platform prints the time of the
    request, a PUT (either handler) that is answered anything other than
    201 or 204, or that is rejected, has written to no collection; the
    same holds of DeleteById, which writes only when it answers 204. *)
Theorem writes_only_with_success P e req s :
  Date_toISOString P (VStr (now e)) <> None ->
  wrote_only_with_success s (run (put_document P e req) s)
  /\ wrote_only_with_success s (run (put_collection P e req) s)
  /\ wrote_only_with_success s (run (delete_document P e req) s).
Proof.
  intros Hnow. split; [| split]; apply writes_only_run.
  - unfold put_document.
    apply writes_only_bind; [apply keeps_destructure | intros conn].
    apply writes_only_bind.
    { apply keeps_try_catch;
        [ apply keeps_bind; [apply keeps_new_ObjectId; reflexivity | intros ?; apply keeps_ret]
        | intros ex; apply keeps_send ]. }
    intros _. apply writes_only_try_catch.
    destruct (fst conn); [| apply writes_only_keeps, keeps_send].
    apply writes_only_bind.
    { destruct (is_empty _); [apply keeps_ret | apply keeps_new_ObjectId; reflexivity]. }
    intros documentId. reads_step. destruct a as [doc |].
    + apply writes_only_update_existing. exact Hnow.
    + exact (writes_only_create
               (fun stripped =>
                  set_all (set_all [] stripped)
                    [ ("_createdAt", VStr (now e)); ("_id", documentId);
                      ("_lastModified", VNull) ]) e req).
  - unfold put_collection.
    apply writes_only_bind; [apply keeps_destructure | intros conn].
    apply writes_only_try_catch. reads_step.
    apply writes_only_bind.
    { destruct (truthy _); [apply keeps_new_ObjectId; reflexivity | apply keeps_ret]. }
    intros resourceId.
    destruct (fst conn); [| apply writes_only_keeps, keeps_send].
    reads_step. destruct a0 as [doc |].
    + apply writes_only_update_existing. exact Hnow.
    + exact (writes_only_create
               (fun stripped =>
                  set_all (set_all [] stripped)
                    [ ("_createdAt", VStr (now e)); ("_lastModified", VNull) ]) e req).
  - unfold delete_document.
    apply writes_only_bind; [apply keeps_destructure | intros conn].
    apply writes_only_bind.
    { apply keeps_try_catch;
        [ apply keeps_bind; [apply keeps_new_ObjectId; reflexivity | intros ?; apply keeps_ret]
        | intros ex; apply keeps_send ]. }
    intros _. apply writes_only_try_catch.
    destruct (fst conn); [| apply writes_only_keeps, keeps_send].
    reads_step. apply writes_only_delete.
Qed.

Lemma writes_only_with_success_witness :
  let req := request_for "shop" id1 (Some "stale-value") body_age in
  let s := connected "shop" [stored_a] in
  wrote_only_with_success s (run (put_document sample_platform sample_env req) s)
  /\ wrote_only_with_success s (run (put_collection sample_platform sample_env req) s)
  /\ wrote_only_with_success s (run (delete_document sample_platform sample_env req) s).
Proof.
  refine (writes_only_with_success sample_platform sample_env
            (request_for "shop" id1 (Some "stale-value") body_age)
            (connected "shop" [stored_a]) _).
  vm_compute. discriminate.
Defined.

(** ** A backend that fails *)

Lemma findOne_fault db coll q s hd :
  head (faults s) = Some true ->
  findOne db coll q (s, hd) = (Throw MongoError, (record_call (CallFindOne db coll q) s, hd)).
Proof.
  intros Hf. unfold findOne. apply bind_throw. apply backend_call_fault. exact Hf.
Qed.

Lemma deleteOne_fault db coll q s hd :
  head (faults s) = Some true ->
  deleteOne db coll q (s, hd) = (Throw MongoError, (record_call (CallDeleteOne db coll q) s, hd)).
Proof.
  intros Hf. unfold deleteOne. apply bind_throw. apply backend_call_fault. exact Hf.
Qed.

(** X14. A backend call that throws is answered 500: on a connected
    database, with an identifier the driver accepts, when the first call a
    handler issues fails ([findOne] for the PUT handlers and GetById,
    [deleteOne] for DeleteById, [find] for List, [close] for Disconnect)
    the answer is 500 without headers, and the state is as it was but for
    the record of that call: nothing is written and the registry keeps
    its entry. *)
Theorem backend_fault_answers_500 P e req s c h :
  CONNECTED_CLIENTS s !! databaseName req = Some c ->
  ObjectId_new P (VStr (mongoId req)) = Some h ->
  head (faults s) = Some true ->
  fails_with_500 s (run (put_document P e req) s)
  /\ (get_property (req_body req) "_id" = Some (VStr (mongoId req)) ->
      fails_with_500 s (run (put_collection P e req) s))
  /\ (ObjectId_isValid P (mongoId req) = true ->
      fails_with_500 s (run (get_document P e req) s))
  /\ fails_with_500 s (run (delete_document P e req) s)
  /\ (forall config options,
        list_config P req = Some config ->
        get_property config "options" = Some options ->
        assignable options = true ->
        fails_with_500 s (run (list_documents P e req) s))
  /\ (is_empty (databaseName req) = false ->
      fails_with_500 s (run (disconnect e req) s)).
Proof.
  intros Hc Hid Hf. unfold fails_with_500.
  split; [| split; [| split; [| split; [| split]]]].
  - unfold run, put_document.
    rewrite (bind_ret _ _ _ _ _ (destructure_connection_own _ _ _ _ Hc)).
    cbn [fst snd]. unfold new_ObjectId, or_throw. rewrite Hid.
    cbv beta iota delta [try_catch bind ret].
    destruct (is_empty (mongoId req)); rewrite (findOne_fault _ _ _ _ _ Hf);
      eexists _, _; reflexivity.
  - intros Hbid. unfold run, put_collection.
    rewrite (bind_ret _ _ _ _ _ (destructure_connection_own _ _ _ _ Hc)).
    cbn [fst snd]. rewrite Hbid. unfold new_ObjectId.
    cbv beta iota delta [try_catch bind ret or_throw].
    destruct (truthy (VStr (mongoId req))); rewrite ?Hid, (findOne_fault _ _ _ _ _ Hf);
      eexists _, _; reflexivity.
  - intros Hv. unfold run, get_document.
    rewrite (bind_ret _ _ _ _ _ (destructure_connection_own _ _ _ _ Hc)).
    cbn [fst snd]. rewrite Hv. cbn [negb]. unfold new_ObjectId, or_throw. rewrite Hid.
    cbv beta iota delta [try_catch bind ret].
    rewrite (findOne_fault _ _ _ _ _ Hf). eexists _, _. reflexivity.
  - unfold run, delete_document.
    rewrite (bind_ret _ _ _ _ _ (destructure_connection_own _ _ _ _ Hc)).
    cbn [fst snd]. unfold new_ObjectId, or_throw. rewrite Hid.
    cbv beta iota delta [try_catch bind ret].
    rewrite (deleteOne_fault _ _ _ _ _ Hf). eexists _, _. reflexivity.
  - intros config options Hcfg Hopt Hassign.
    rewrite (list_documents_config _ _ _ _ _ _ Hc Hcfg).
    assert (Hq : exists query projection,
               get_property config "query" = Some query
               /\ get_property config "projection" = Some projection).
    { destruct config; try discriminate; eexists _, _; split; reflexivity. }
    destruct Hq as (query & projection & Hq & Hp).
    unfold run. rewrite Hopt.
    cbv beta iota delta [try_catch bind ret or_throw get_state].
    rewrite Hassign, Hq, Hp. cbv beta iota delta [negb].
    rewrite (backend_call_fault _ _ _ Hf). eexists _, _. reflexivity.
  - intros Hdb. unfold run, disconnect. rewrite Hdb.
    rewrite (bind_ret _ _ _ _ _ (destructure_connection_own _ _ _ _ Hc)).
    cbn [fst snd]. unfold try_catch, bind.
    rewrite (backend_call_fault _ _ _ Hf). eexists _, _. reflexivity.
Qed.

Lemma backend_fault_answers_500_witness :
  let s := {| CONNECTED_CLIENTS := CONNECTED_CLIENTS (connected "shop" [stored_a]);
              collections := collections (connected "shop" [stored_a]);
              calls := [];
              faults := [true] |} in
  fails_with_500 s
    (run (put_document sample_platform sample_env (request_for "shop" id1 None body_age)) s).
Proof.
  refine (proj1 (backend_fault_answers_500 sample_platform sample_env
                   (request_for "shop" id1 None body_age) _
                   {| client := 1; connectionName := "happy-otter" |} id1 _ _ _)).
  - vm_compute. reflexivity.
  - vm_compute. reflexivity.
  - vm_compute. reflexivity.
Defined.

(** ** Names that [Object.prototype] defines *)



(** ** The calls a handler issues *)

Lemma issues_keeps allowed {A} (m : M A) : keeps calls m -> allowed [] -> issues allowed m.
Proof.
  intros Hm H0 st. exists []. rewrite app_nil_r. split; [apply Hm | exact H0].
Qed.

Lemma issues_bind allowed {A B} (m : M A) (k : A -> M B) :
  keeps calls m -> allowed [] -> (forall a, issues allowed (k a)) ->
  issues allowed (bind m k).
Proof.
  intros Hm H0 Hk st. unfold bind. specialize (Hm st).
  destruct (m st) as [[a | ex | r] st1]; cbn [fst snd] in *.
  - destruct (Hk a st1) as (l & Hl & Hal). exists l. rewrite Hl, Hm. split; [reflexivity | exact Hal].
  - exists []. rewrite app_nil_r. split; [exact Hm | exact H0].
  - exists []. rewrite app_nil_r. split; [exact Hm | exact H0].
Qed.

Lemma issues_after allowed {A B} (m : M A) c (k : A -> M B) :
  (forall st, calls (fst (snd (m st))) = calls (fst st) ++ [c]) ->
  allowed [c] ->
  (forall a, issues (fun l => allowed (c :: l)) (k a)) ->
  issues allowed (bind m k).
Proof.
  intros Hm Hc Hk st. unfold bind. specialize (Hm st).
  destruct (m st) as [[a | ex | r] st1]; cbn [fst snd] in *.
  - destruct (Hk a st1) as (l & Hl & Hal). exists (c :: l).
    rewrite Hl, Hm, <- app_assoc. split; [reflexivity | exact Hal].
  - exists [c]. split; [exact Hm | exact Hc].
  - exists [c]. split; [exact Hm | exact Hc].
Qed.

Lemma issues_try_catch allowed {A} (m : M A) (h : exn -> M A) :
  issues allowed m -> (forall ex, keeps calls (h ex)) -> issues allowed (try_catch m h).
Proof.
  intros Hm Hh st. unfold try_catch. specialize (Hm st).
  destruct (m st) as [[a | ex | r] st1]; [exact Hm | | exact Hm].
  destruct Hm as (l & Hl & Hal). exists l. split; [| exact Hal].
  rewrite (Hh ex st1). exact Hl.
Qed.

Lemma issues_run allowed (m : M unit) s : issues allowed m -> issued allowed s (run m s).
Proof.
  intros Hm. unfold issued, run. specialize (Hm (s, [])).
  destruct (m (s, [])) as [[a | ex | r] [s' hd']]; exact Hm.
Qed.

Lemma backend_call_records c st :
  calls (fst (snd (backend_call c st))) = calls (fst st) ++ [c].
Proof. unfold backend_call. destruct (faults (fst st)) as [| [|] fs]; reflexivity. Qed.

Lemma findOne_records db coll q st :
  calls (fst (snd (findOne db coll q st))) = calls (fst st) ++ [CallFindOne db coll q].
Proof.
  unfold findOne, bind, backend_call, get_state, ret.
  destruct (faults (fst st)) as [| [|] fs]; reflexivity.
Qed.

Lemma replaceOne_records db coll q doc st :
  calls (fst (snd (replaceOne db coll q doc st)))
  = calls (fst st) ++ [CallReplaceOne db coll q (VObj doc)].
Proof.
  unfold replaceOne, bind, backend_call, get_state, put_state.
  destruct (faults (fst st)) as [| [|] fs]; reflexivity.
Qed.

Lemma insertOne_records g db coll doc st :
  calls (fst (snd (insertOne g db coll doc st)))
  = calls (fst st) ++ [CallInsertOne db coll (VObj doc)].
Proof.
  unfold insertOne, bind, backend_call, get_state, put_state, throw, ret.
  destruct (faults (fst st)) as [| [|] fs]; cbn [fst snd];
    try destruct (existsb _ _); reflexivity.
Qed.

Lemma deleteOne_records db coll q st :
  calls (fst (snd (deleteOne db coll q st))) = calls (fst st) ++ [CallDeleteOne db coll q].
Proof.
  unfold deleteOne, bind, backend_call, get_state, put_state, ret.
  destruct (faults (fst st)) as [| [|] fs]; cbn [fst snd];
    try destruct (existsb _ _); reflexivity.
Qed.

Ltac quiet :=
  repeat first
    [ apply keeps_send | apply keeps_throw | apply keeps_ret | apply keeps_or_throw
    | apply keeps_setHeader | apply keeps_get_state | apply keeps_new_ObjectId
    | apply keeps_destructure
    | apply keeps_bind; [| intros ?]
    | apply keeps_try_catch; [| intros ?] ].

Ltac quiet_step allowed0 := apply issues_bind; [quiet | allowed0 | intros ?].

Lemma issues_update_existing P e req q doc :
  issues (fun l => put_calls (databaseName req) (collectionName req)
                     (CallFindOne (databaseName req) (collectionName req) q :: l))
    (update_existing P e req q doc).
Proof.
  unfold update_existing, strip, sha256_base64_of_json, new_Date_toISOString.
  do 4 quiet_step ltac:(constructor).
  assert (Hrefuse : forall etag x code b,
            issues (fun l => put_calls (databaseName req) (collectionName req)
                               (CallFindOne (databaseName req) (collectionName req) q :: l))
              (let* _ := setHeader "ETag" etag in
               let* lm := or_throw RangeError (Date_toISOString P x) in
               let* _ := setHeader "Last-Modified" lm in
               @send unit code b)).
  { intros. apply issues_keeps; [quiet | constructor]. }
  destruct (if_match req) as [[| c0 t0] |]; [apply Hrefuse | | apply Hrefuse].
  destruct (negb _); [apply Hrefuse |].
  quiet_step ltac:(constructor).
  apply (issues_after _ _ _ _ (replaceOne_records _ _ _ _)); [constructor | intros _].
  apply issues_keeps; [quiet | constructor].
Qed.

Lemma issues_create (newDocument : object -> object) e req q :
  issues (fun l => put_calls (databaseName req) (collectionName req)
                     (CallFindOne (databaseName req) (collectionName req) q :: l))
    (let* nonComputedPropsRequestBody := strip (req_body req) in
     let* insertedId :=
       insertOne (fresh_id e) (databaseName req) (collectionName req)
         (newDocument nonComputedPropsRequestBody) in
     let* newETag := sha256_base64_of_json (req_body req) in
     let* _ := setHeader "ETag" newETag in
     let* _ := setHeader "Last-Modified" (now e) in
     @send unit 201 (Some (VObj [ ("_id", insertedId) ]))).
Proof.
  unfold strip, sha256_base64_of_json. quiet_step ltac:(constructor).
  apply (issues_after _ _ _ _ (insertOne_records _ _ _ _)); [constructor | intros insertedId].
  apply issues_keeps; [quiet | constructor].
Qed.

(** X16. The calls each handler issues, for every request and state. A
    PUT (either handler) issues nothing, or the lookup alone, or the
    lookup followed by one write to the collection it looked in: a
    replacement that targets the identifier it looked up, or an
    insertion; so that no write goes without a lookup, and a PUT never
    deletes. GetById issues at most one [findOne], DeleteById at most one
    [deleteOne] (and no lookup), List at most one [find], Disconnect at
    most one [close]; all on the database and the collection the request
    names. *)
Theorem handlers_call_protocol P e req s :
  let db := databaseName req in
  let coll := collectionName req in
  issued (put_calls db coll) s (run (put_document P e req) s)
  /\ issued (put_calls db coll) s (run (put_collection P e req) s)
  /\ issued (fun l => l = [] \/ exists q, l = [CallFindOne db coll q]) s
       (run (get_document P e req) s)
  /\ issued (fun l => l = [] \/ exists q, l = [CallDeleteOne db coll q]) s
       (run (delete_document P e req) s)
  /\ issued (fun l => l = [] \/ exists query projection options lim sk,
                        l = [CallFind db coll query projection options lim sk]) s
       (run (list_documents P e req) s)
  /\ issued (fun l => l = [] \/ l = [CallClose db]) s (run (disconnect e req) s).
Proof.
  intros db coll. split; [| split; [| split; [| split; [| split]]]]; apply issues_run.
  - unfold put_document. do 2 quiet_step ltac:(constructor).
    apply issues_try_catch; [| intros ex; apply keeps_send].
    destruct (fst a); [| apply issues_keeps; [quiet | constructor]].
    apply issues_bind; [destruct (is_empty _); quiet | constructor | intros documentId].
    apply (issues_after _ _ _ _ (findOne_records _ _ _)); [constructor | intros [doc |]].
    + apply issues_update_existing.
    + exact (issues_create
               (fun stripped =>
                  set_all (set_all [] stripped)
                    [ ("_createdAt", VStr (now e)); ("_id", documentId);
                      ("_lastModified", VNull) ]) e req documentId).
  - unfold put_collection. quiet_step ltac:(constructor).
    apply issues_try_catch; [| intros ex; apply keeps_send].
    quiet_step ltac:(constructor).
    apply issues_bind; [destruct (truthy _); quiet | constructor | intros resourceId].
    destruct (fst a); [| apply issues_keeps; [quiet | constructor]].
    apply (issues_after _ _ _ _ (findOne_records _ _ _)); [constructor | intros [doc |]].
    + apply issues_update_existing.
    + exact (issues_create
               (fun stripped =>
                  set_all (set_all [] stripped)
                    [ ("_createdAt", VStr (now e)); ("_lastModified", VNull) ])
               e req resourceId).
  - unfold get_document. quiet_step ltac:(left; reflexivity).
    apply issues_try_catch; [| intros ex; apply keeps_send].
    destruct (fst a); [| apply issues_keeps; [quiet | left; reflexivity]].
    destruct (negb _); [apply issues_keeps; [quiet | left; reflexivity] |].
    quiet_step ltac:(left; reflexivity).
    apply (issues_after _ _ _ _ (findOne_records _ _ _)); [right; eexists; reflexivity |].
    intros [doc |]; (apply issues_keeps; [quiet | right; eexists; reflexivity]).
  - unfold delete_document. do 2 quiet_step ltac:(left; reflexivity).
    apply issues_try_catch; [| intros ex; apply keeps_send].
    destruct (fst a); [| apply issues_keeps; [quiet | left; reflexivity]].
    quiet_step ltac:(left; reflexivity).
    apply (issues_after _ _ _ _ (deleteOne_records _ _ _)); [right; eexists; reflexivity |].
    intros deletedCount.
    destruct (deletedCount =? 0); (apply issues_keeps; [quiet | right; eexists; reflexivity]).
  - unfold list_documents. quiet_step ltac:(left; reflexivity).
    apply issues_try_catch; [| intros ex; apply keeps_send].
    apply issues_bind; [| left; reflexivity | intros config].
    { destruct (filter req) as [[| c0 t0] |]; quiet. }
    destruct (fst a); [| apply issues_keeps; [quiet | left; reflexivity]].
    quiet_step ltac:(left; reflexivity).
    destruct (negb _); [apply issues_keeps; [quiet | left; reflexivity] |].
    do 2 quiet_step ltac:(left; reflexivity).
    apply (issues_after _ _ _ _ (backend_call_records _));
      [right; eexists _, _, _, _, _; reflexivity | intros _].
    apply issues_keeps; [quiet | right; eexists _, _, _, _, _; reflexivity].
  - unfold disconnect. destruct (is_empty _); [apply issues_keeps; [quiet | left; reflexivity] |].
    quiet_step ltac:(left; reflexivity).
    destruct (fst a); [| apply issues_keeps; [quiet | left; reflexivity]].
    apply issues_try_catch; [| intros ex; apply keeps_send].
    apply (issues_after _ _ _ _ (backend_call_records _)); [right; reflexivity | intros _].
    apply issues_keeps; [| right; reflexivity].
    apply keeps_bind; [| intros ?; apply keeps_send].
    intros st. unfold delete_connection.
    destruct (String.eqb (databaseName req) "__proto__"); reflexivity.
Qed.

(** ** The request that created a document, repeated *)


